(** * NDT document hub: outline extraction and upload assembly

    A shallow embedding of [server/app/pdf_parser.py] (heading and figure
    detection over the extracted page text) and of the upload handler of
    [server/app/main.py] that persists the detected outline.

    Python values are modelled as follows.
    - [str] is a list of Unicode code points ([N]); [int] is [Z].
    - [re] patterns are regular expressions over character classes; a
      pattern matches a string when the string is in its language (the
      backtracking engine of Python finds a match exactly when one exists).
      The classes are those of Python on ASCII; beyond ASCII the digits
      and the alphanumeric characters are tables given as parameters.
    - an exception is a value of the [result] type; the handler runs in a
      state and error monad over the files and the database session.
    - [PdfReader], the PDF library, is a parameter: a function from the
      bytes of a file to the extracted text of its pages, or an error. *)

From Stdlib Require Import String Ascii List ZArith NArith Lia Bool.
From Stdlib Require Import Sorted Permutation.
Import ListNotations.

Set Implicit Arguments.

Local Open Scope bool_scope.
Local Open Scope char_scope.
Local Open Scope string_scope.
Local Open Scope list_scope.
Local Open Scope Z_scope.

(* ================================================================== *)
(** * Text: Python [str] *)
(* ================================================================== *)

Definition char := N.
Definition str := list char.

Local Open Scope N_scope.

(** Code points of a literal; used to write Python literals. *)
Definition code (a : ascii) : char := N_of_ascii a.
Definition txt (s : string) : str := map code (list_ascii_of_string s).

Definition LF : char := 10.
Definition CR : char := 13.

Definition in_range (lo hi c : char) : bool := (lo <=? c) && (c <=? hi).

Definition nonempty {A} (l : list A) : bool :=
  match l with [] => false | _ :: _ => true end.

Fixpoint str_eqb (a b : str) : bool :=
  match a, b with
  | [], [] => true
  | x :: a', y :: b' => (x =? y) && str_eqb a' b'
  | _, _ => false
  end.

(** [str.isspace] for one character, which is also the class [\s] of a
    [str] pattern. *)
Definition is_space (c : char) : bool :=
  in_range 9 13 c || in_range 28 32 c
  || (c =? 133) || (c =? 160) || (c =? 5760)
  || in_range 8192 8202 c
  || (c =? 8232) || (c =? 8233) || (c =? 8239) || (c =? 8287)
  || (c =? 12288).

(** The line boundaries of [str.splitlines]. *)
Definition is_linebreak (c : char) : bool :=
  in_range 10 13 c || in_range 28 30 c
  || (c =? 133) || (c =? 8232) || (c =? 8233).

Fixpoint lstrip (s : str) : str :=
  match s with
  | [] => []
  | c :: t => if is_space c then lstrip t else s
  end.

Definition rstrip (s : str) : str := rev (lstrip (rev s)).

(** [s.strip()] *)
Definition strip (s : str) : str := rstrip (lstrip s).

(** [s.splitlines()]: [cur] holds the characters of the line being read,
    last one first.  A carriage return directly followed by a line feed is
    one boundary; a boundary at the very end opens no further line. *)
Fixpoint splitlines_from (cur : str) (s : str) : list str :=
  match s with
  | [] => if nonempty cur then [rev cur] else []
  | c :: t =>
      if is_linebreak c then
        rev cur ::
        match t with
        | d :: t' =>
            if (c =? CR) && (d =? LF) then splitlines_from [] t'
            else splitlines_from [] t
        | [] => splitlines_from [] t
        end
      else splitlines_from (c :: cur) t
  end.

Definition splitlines (s : str) : list str := splitlines_from [] s.

(* ================================================================== *)
(** * Regular expressions: Python [re] *)
(* ================================================================== *)

(** The part of the Unicode database that the patterns consult outside
    ASCII: the decimal digits and the alphanumeric characters. *)
Section Unicode.

Variable uni_decimal : char -> bool.
Variable uni_alnum : char -> bool.

(** [\d] *)
Definition is_digit (c : char) : bool :=
  if (c <? 128) then in_range 48 57 c else uni_decimal c.

(** [\w] *)
Definition is_word (c : char) : bool :=
  if (c <? 128) then
    in_range 48 57 c || in_range 65 90 c || in_range 97 122 c || (c =? 95)
  else uni_alnum c.

End Unicode.

(** [.] without [re.DOTALL] *)
Definition is_dot (c : char) : bool := negb (c =? LF).

Definition is_char (x : char) (c : char) : bool := (c =? x).

(** A letter of a pattern under [re.IGNORECASE], given in lower case: the
    characters whose lower case is that letter.  Besides the two ASCII
    forms these are, for i, the dotted capital (U+0130) and the dotless
    small letter (U+0131); for k, the Kelvin sign (U+212A); for s, the
    long s (U+017F). *)
Definition is_letter_ci (lower : char) (c : char) : bool :=
  (c =? lower) || (c =? lower - 32)
  || ((lower =? 105) && ((c =? 304) || (c =? 305)))
  || ((lower =? 107) && (c =? 8490))
  || ((lower =? 115) && (c =? 383)).

Local Close Scope N_scope.

Inductive regex : Type :=
| Void : regex
| Eps : regex
| Chr : (char -> bool) -> regex
| Alt : regex -> regex -> regex
| Cat : regex -> regex -> regex
| Star : regex -> regex.

Definition Plus (r : regex) : regex := Cat r (Star r).

(** A literal word, one character class per position. *)
Fixpoint Lit (cs : list (char -> bool)) : regex :=
  match cs with
  | [] => Eps
  | p :: cs' => Cat (Chr p) (Lit cs')
  end.

(** The language of a pattern. *)
Inductive lang : regex -> str -> Prop :=
| L_eps : lang Eps []
| L_chr p c : p c = true -> lang (Chr p) [c]
| L_alt_l r1 r2 s : lang r1 s -> lang (Alt r1 r2) s
| L_alt_r r1 r2 s : lang r2 s -> lang (Alt r1 r2) s
| L_cat r1 r2 s1 s2 : lang r1 s1 -> lang r2 s2 -> lang (Cat r1 r2) (s1 ++ s2)
| L_star_nil r : lang (Star r) []
| L_star_cons r s1 s2 :
    lang r s1 -> lang (Star r) s2 -> lang (Star r) (s1 ++ s2).

Fixpoint nullable (r : regex) : bool :=
  match r with
  | Void => false
  | Eps => true
  | Chr _ => false
  | Alt r1 r2 => nullable r1 || nullable r2
  | Cat r1 r2 => nullable r1 && nullable r2
  | Star _ => true
  end.

(** What remains of the pattern once [c] has been read. *)
Fixpoint deriv (c : char) (r : regex) : regex :=
  match r with
  | Void => Void
  | Eps => Void
  | Chr p => if p c then Eps else Void
  | Alt r1 r2 => Alt (deriv c r1) (deriv c r2)
  | Cat r1 r2 =>
      if nullable r1 then Alt (Cat (deriv c r1) r2) (deriv c r2)
      else Cat (deriv c r1) r2
  | Star r1 => Cat (deriv c r1) (Star r1)
  end.

(** The whole of [s] matches [r]. *)
Fixpoint accepts (r : regex) (s : str) : bool :=
  match s with
  | [] => nullable r
  | c :: t => accepts (deriv c r) t
  end.

(** [re.compile("^" r "$").match(s)]: the pattern anchored at both ends.
    Without [re.MULTILINE], [$] holds at the end of the string and just
    before a line feed that ends the string. *)
Definition re_match_anchored (r : regex) (s : str) : bool :=
  accepts r s
  || match rev s with
     | c :: front => (c =? LF)%N && accepts r (rev front)
     | [] => false
     end.

Section WordBoundary.

Variable word : char -> bool.

(** [\b] at position [i] of [s]: exactly one of the characters before and
    after the position is a word character; the two ends of the string
    count as non-word. *)
Definition word_boundary (s : str) (i : nat) : bool :=
  let before :=
    match i with
    | O => false
    | S j => match nth_error s j with Some c => word c | None => false end
    end in
  let after := match nth_error s i with Some c => word c | None => false end in
  xorb before after.

Definition slice (s : str) (i j : nat) : str := firstn (j - i) (skipn i s).

(** [re.search("\b" r "\b", s)]: some slice [s[i:j]] matches [r] and both
    of its ends are word boundaries. *)
Definition re_search_bounded (r : regex) (s : str) : bool :=
  existsb
    (fun i =>
       word_boundary s i
       && existsb
            (fun j => word_boundary s j && accepts r (slice s i j))
            (seq i (S (length s) - i)))
    (seq 0 (S (length s))).

End WordBoundary.

(* ================================================================== *)
(** * [pdf_parser.py] *)
(* ================================================================== *)

Module ParsedSection.
Record t : Type := mk {
  heading_text : str;
  heading_level : str;
  page_start : option Z;
  page_end : option Z;
  order_index : Z
}.
End ParsedSection.

Module ParsedFigure.
Record t : Type := mk {
  section_index : option Z;
  page_number : option Z;
  caption_text : option str;
  order_index : Z
}.
End ParsedFigure.

(** Exceptions raised on the upload path. *)
Inductive exn : Type :=
| HTTPException (status_code : Z) (detail : str)
| PdfReadError (message : str)
| FileNotFoundError (path : str)
| IndexError.

Inductive result (A : Type) : Type :=
| Ok (a : A)
| Raise (e : exn).

Arguments Ok {A} a.
Arguments Raise {A} e.

(** The files on disk, by path; the entry nearest the head is the current
    one. *)
Definition files := list (str * list Byte.byte).

Fixpoint read_file (fs : files) (path : str) : option (list Byte.byte) :=
  match fs with
  | [] => None
  | (p, bytes) :: fs' =>
      if str_eqb p path then Some bytes else read_file fs' path
  end.

Definition write_file (fs : files) (path : str) (bytes : list Byte.byte)
  : files :=
  (path, bytes) :: fs.

(** [len(l)] *)
Definition len {A} (l : list A) : Z := Z.of_nat (List.length l).

(** [enumerate(l, start)] *)
Fixpoint enumerate {A} (l : list A) (start : Z) : list (Z * A) :=
  match l with
  | [] => []
  | x :: l' => (start, x) :: enumerate l' (start + 1)
  end.

(** A page of an opened PDF, seen through [page.extract_text()]: the text,
    or [None]. *)
Definition page := option str.

(** [page.extract_text() or ""] *)
Definition text_or_empty (p : page) : str :=
  match p with
  | Some t => t
  | None => []
  end.

(** The state of the scan of [parse_pdf]: the two result lists and the
    running section counter. *)
Record scan_state : Type := mk_state {
  sections : list ParsedSection.t;
  figures : list ParsedFigure.t;
  order_index : Z
}.

Section Parser.

Variable uni_decimal : char -> bool.
Variable uni_alnum : char -> bool.

Let digit := Chr (is_digit uni_decimal).

(** The pattern of [_detect_sections] without its anchors, written here
    with spaces between its parts: [(\d+ (?:\.\d+)* ) \s+ (.+)]. *)
Definition heading_pattern : regex :=
  Cat (Cat (Plus digit) (Star (Cat (Chr (is_char (code "."))) (Plus digit))))
      (Cat (Plus (Chr is_space)) (Plus (Chr is_dot))).

(** [(Figure|Fig\.)] under [re.IGNORECASE] *)
Definition figure_pattern : regex :=
  Alt (Lit [is_letter_ci (code "f"); is_letter_ci (code "i");
            is_letter_ci (code "g"); is_letter_ci (code "u");
            is_letter_ci (code "r"); is_letter_ci (code "e")])
      (Lit [is_letter_ci (code "f"); is_letter_ci (code "i");
            is_letter_ci (code "g"); is_char (code ".")]).

(** [heading_pattern.match(line.strip())] *)
Definition is_heading (line : str) : bool :=
  re_match_anchored heading_pattern (strip line).

(** [re.search(r"\b(Figure|Fig\.)\b", line, re.IGNORECASE)] *)
Definition is_figure (line : str) : bool :=
  re_search_bounded (is_word uni_alnum) figure_pattern line.

Definition _detect_sections (text_lines : list str) : list str :=
  fold_left
    (fun headings line =>
       if is_heading line then headings ++ [strip line] else headings)
    text_lines [].

(** [[line for line in text.splitlines() if line.strip()]] *)
Definition page_lines (text : str) : list str :=
  filter (fun line => nonempty (strip line)) (splitlines text).

(** The first inner loop: one section per heading. *)
Definition add_heading (page_index : Z) (st : scan_state) (heading : str)
  : scan_state :=
  {| sections :=
       sections st ++
       [ParsedSection.mk heading (txt "H1") (Some page_index)
          (Some page_index) (order_index st)];
     figures := figures st;
     order_index := order_index st + 1 |}.

(** The second inner loop: one figure per matching line, attached to the
    last section of the list as it stands. *)
Definition add_figure (page_index : Z) (st : scan_state) (line : str)
  : scan_state :=
  if is_figure line then
    {| sections := sections st;
       figures :=
         figures st ++
         [ParsedFigure.mk
            (if nonempty (sections st) then Some (len (sections st) - 1)
             else None)
            (Some page_index) (Some (strip line)) (len (figures st) + 1)];
       order_index := order_index st |}
  else st.

(** The body of the loop over the pages. *)
Definition scan_page (st : scan_state) (entry : Z * page) : scan_state :=
  let '(page_index, p) := entry in
  let text := text_or_empty p in
  let lines := page_lines text in
  let headings := _detect_sections lines in
  let st := fold_left (add_heading page_index) headings st in
  fold_left (add_figure page_index) lines st.

Definition scan (pages : list page) : scan_state :=
  fold_left scan_page (enumerate pages 1) (mk_state [] [] 1).

Definition overview (pages : list page) : ParsedSection.t :=
  ParsedSection.mk (txt "Document Overview") (txt "H1") (Some 1)
    (Some (len pages)) 1.

(** [parse_pdf] once the reader is open: the loop over [reader.pages] and
    the fallback. *)
Definition parse_pages (pages : list page)
  : list ParsedSection.t * list ParsedFigure.t :=
  let st := scan pages in
  let sections :=
    if nonempty (sections st) then sections st
    else sections st ++ [overview pages] in
  (sections, figures st).

(** The PDF library: what [PdfReader] makes of the bytes of a file. *)
Variable PdfReader : list Byte.byte -> result (list page).

(** [parse_pdf(file_path)], reading the file from [fs]. *)
Definition parse_pdf (fs : files) (file_path : str)
  : result (list ParsedSection.t * list ParsedFigure.t) :=
  match read_file fs file_path with
  | None => Raise (FileNotFoundError file_path)
  | Some bytes =>
      match PdfReader bytes with
      | Raise e => Raise e
      | Ok pages => Ok (parse_pages pages)
      end
  end.

End Parser.

(* ================================================================== *)
(** * [models.py]: the rows of the database *)
(* ================================================================== *)

(** Identifiers are [None] until the row has been flushed.  The timestamp
    columns, filled in by the clock, are left out. *)

Module Document.
Record t : Type := mk {
  id : option Z;
  manufacturer_id : Z;
  title : str;
  original_filename : str;
  storage_key : str;
  uploaded_by : Z;
  revision_date : option str;
  tags : option str
}.
Definition with_id (k : Z) (d : t) : t :=
  mk (Some k) (manufacturer_id d) (title d) (original_filename d)
    (storage_key d) (uploaded_by d) (revision_date d) (tags d).
End Document.

Module Section_.
Record t : Type := mk {
  id : option Z;
  document_id : option Z;
  heading_text : str;
  heading_level : str;
  page_start : option Z;
  page_end : option Z;
  order_index : Z
}.
Definition with_id (k : Z) (s : t) : t :=
  mk (Some k) (document_id s) (heading_text s) (heading_level s)
    (page_start s) (page_end s) (order_index s).
End Section_.

Module Figure.
Record t : Type := mk {
  id : option Z;
  document_id : option Z;
  section_id : option Z;
  page_number : option Z;
  caption_text : option str;
  image_storage_key : option str;
  order_index : Z
}.
Definition with_id (k : Z) (f : t) : t :=
  mk (Some k) (document_id f) (section_id f) (page_number f)
    (caption_text f) (image_storage_key f) (order_index f).
End Figure.

Module AuditLog.
(** [metadata_json] holds the dictionary handed to [json.dumps]. *)
Record t : Type := mk {
  id : option Z;
  user_id : Z;
  role : str;
  action_type : str;
  manufacturer_id : option Z;
  document_id : option Z;
  section_id : option Z;
  metadata_json : list (str * Z)
}.
Definition with_id (k : Z) (a : t) : t :=
  mk (Some k) (user_id a) (role a) (action_type a) (manufacturer_id a)
    (document_id a) (section_id a) (metadata_json a).
End AuditLog.

Module Tables.
Record t : Type := mk {
  documents : list Document.t;
  sections : list Section_.t;
  figures : list Figure.t;
  audit_logs : list AuditLog.t
}.
Definition empty : t := mk [] [] [] [].
Definition union (a b : t) : t :=
  mk (documents a ++ documents b) (sections a ++ sections b)
    (figures a ++ figures b) (audit_logs a ++ audit_logs b).
End Tables.

(** The database as one request sees it through its session: the committed
    rows, and the rows added since the last commit. *)
Record Session : Type := mk_session {
  committed : Tables.t;
  pending : Tables.t
}.

(** The next value of an integer primary key. *)
Definition next_id (ids : list (option Z)) : Z :=
  1 + fold_right (fun k m => match k with Some k => Z.max k m | None => m end)
        0 ids.

(** Gives the rows that have no identifier yet the identifiers [next],
    [next + 1], ... in order. *)
Fixpoint assign_ids {A} (id : A -> option Z) (with_id : Z -> A -> A)
    (next : Z) (rows : list A) : list A :=
  match rows with
  | [] => []
  | r :: rows' =>
      match id r with
      | Some _ => r :: assign_ids id with_id next rows'
      | None => with_id next r :: assign_ids id with_id (next + 1) rows'
      end
  end.

Definition flush_table {A} (id : A -> option Z) (with_id : Z -> A -> A)
    (stored added : list A) : list A :=
  assign_ids id with_id (next_id (map id (stored ++ added))) added.

(** [db.flush()] *)
Definition flush (s : Session) : Session :=
  let c := committed s in
  let p := pending s in
  mk_session c
    (Tables.mk
       (flush_table Document.id Document.with_id
          (Tables.documents c) (Tables.documents p))
       (flush_table Section_.id Section_.with_id
          (Tables.sections c) (Tables.sections p))
       (flush_table Figure.id Figure.with_id
          (Tables.figures c) (Tables.figures p))
       (flush_table AuditLog.id AuditLog.with_id
          (Tables.audit_logs c) (Tables.audit_logs p))).

(** [db.commit()] *)
Definition commit (s : Session) : Session :=
  let s := flush s in
  mk_session (Tables.union (committed s) (pending s)) Tables.empty.

(** [db.add(document)] *)
Definition add_document (d : Document.t) (s : Session) : Session :=
  let p := pending s in
  mk_session (committed s)
    (Tables.mk (Tables.documents p ++ [d]) (Tables.sections p)
       (Tables.figures p) (Tables.audit_logs p)).

(** [db.add_all(section_models)] *)
Definition add_all_sections (l : list Section_.t) (s : Session) : Session :=
  let p := pending s in
  mk_session (committed s)
    (Tables.mk (Tables.documents p) (Tables.sections p ++ l)
       (Tables.figures p) (Tables.audit_logs p)).

(** [db.add_all(figure_models)] *)
Definition add_all_figures (l : list Figure.t) (s : Session) : Session :=
  let p := pending s in
  mk_session (committed s)
    (Tables.mk (Tables.documents p) (Tables.sections p)
       (Tables.figures p ++ l) (Tables.audit_logs p)).

(** [db.add(AuditLog(...))] *)
Definition add_audit_log (a : AuditLog.t) (s : Session) : Session :=
  let p := pending s in
  mk_session (committed s)
    (Tables.mk (Tables.documents p) (Tables.sections p)
       (Tables.figures p) (Tables.audit_logs p ++ [a])).

(* ================================================================== *)
(** * [storage.py] and the upload handler of [main.py] *)
(* ================================================================== *)

(** What a request can change: the files on disk and the database. *)
Record World : Type := mk_world {
  fs : files;
  db : Session
}.

(** Handlers run on the world and end with a value or an exception. *)
Definition M (A : Type) : Type := World -> result A * World.

Definition ret {A} (a : A) : M A := fun w => (Ok a, w).

Definition raise {A} (e : exn) : M A := fun w => (Raise e, w).

Definition bind {A B} (m : M A) (k : A -> M B) : M B :=
  fun w =>
    match m w with
    | (Ok a, w') => k a w'
    | (Raise e, w') => (Raise e, w')
    end.

Notation "x <- m ;; k" := (bind m (fun x => k))
  (at level 100, m at next level, right associativity).

Definition lift {A} (r : result A) : M A := fun w => (r, w).

(** The last [n] elements of a list. *)
Definition lastn {A} (n : nat) (l : list A) : list A :=
  skipn (List.length l - n) l.

Definition with_fs {A} (f : files -> result A) : M A := fun w => (f (fs w), w).

Definition update_fs (f : files -> files) : M unit :=
  fun w => (Ok tt, mk_world (f (fs w)) (db w)).

Definition update_db (f : Session -> Session) : M unit :=
  fun w => (Ok tt, mk_world (fs w) (f (db w))).

(** [db.add(document)] then [db.flush()]; the value is the row as the
    handler sees it afterwards, with its identifier. *)
Definition add_document_and_flush (d : Document.t) : M Document.t :=
  fun w =>
    let s := flush (add_document d (db w)) in
    (Ok (last (Tables.documents (pending s)) d), mk_world (fs w) s).

(** [db.add_all(section_models)] then [db.flush()]; the value is the list
    of rows as the handler sees them afterwards. *)
Definition add_all_sections_and_flush (l : list Section_.t)
  : M (list Section_.t) :=
  fun w =>
    let s := flush (add_all_sections l (db w)) in
    (Ok (lastn (List.length l) (Tables.sections (pending s))),
     mk_world (fs w) s).

(** [l[i]], with Python's negative indices. *)
Definition getitem {A} (l : list A) (i : Z) : result A :=
  let j := if i <? 0 then len l + i else i in
  if j <? 0 then Raise IndexError
  else match nth_error l (Z.to_nat j) with
       | Some x => Ok x
       | None => Raise IndexError
       end.

(** [dir / name] for paths written with forward slashes; a [name] that is
    absolute replaces [dir]. *)
Definition path_join (dir name : str) : str :=
  match name with
  | c :: _ => if (c =? code "/")%N then name else dir ++ txt "/" ++ name
  | [] => dir
  end.

(** [s.replace(" ", "_")] *)
Definition replace_spaces (s : str) : str :=
  map (fun c => if (c =? code " ")%N then code "_" else c) s.

(** [s.lower().endswith(".pdf")] *)
Definition lower_endswith_pdf (s : str) : bool :=
  match rev s with
  | c4 :: c3 :: c2 :: c1 :: _ =>
      is_char (code ".") c1 && is_letter_ci (code "p") c2
      && is_letter_ci (code "d") c3 && is_letter_ci (code "f") c4
  | _ => false
  end.

Definition STORAGE_ROOT : str := txt "server/storage".

(** [save_pdf(file_path, filename)] *)
Definition save_pdf (file_path filename : str) : M str :=
  let safe_name := replace_spaces filename in
  let storage_key := txt "pdfs/" ++ safe_name in
  let destination := path_join STORAGE_ROOT storage_key in
  bytes <- with_fs (fun fs =>
             match read_file fs file_path with
             | Some bytes => Ok bytes
             | None => Raise (FileNotFoundError file_path)
             end) ;;
  _ <- update_fs (fun fs => write_file fs destination bytes) ;;
  ret storage_key.

Record UploadFile : Type := mk_upload {
  filename : str;
  content : list Byte.byte
}.

(** The authenticated administrator of the request. *)
Record User : Type := mk_user {
  user_id : Z;
  user_role : str
}.

(** The section reference of a figure row: the identifier of the section
    row at the pending index, when the index is set and below the number
    of section rows. *)
Definition resolve_section_id (section_models : list Section_.t)
    (parsed : ParsedFigure.t) : result (option Z) :=
  match ParsedFigure.section_index parsed with
  | Some i =>
      if i <? len section_models then
        match getitem section_models i with
        | Ok s => Ok (Section_.id s)
        | Raise e => Raise e
        end
      else Ok None
  | None => Ok None
  end.

(** The loop that builds [section_models]. *)
Definition build_section_models (document_id : option Z)
    (sections : list ParsedSection.t) : list Section_.t :=
  fold_left
    (fun section_models parsed =>
       section_models ++
       [Section_.mk None document_id
          (ParsedSection.heading_text parsed)
          (ParsedSection.heading_level parsed)
          (ParsedSection.page_start parsed)
          (ParsedSection.page_end parsed)
          (ParsedSection.order_index parsed)])
    sections [].

(** The loop that builds [figure_models]. *)
Definition build_figure_models (document_id : option Z)
    (section_models : list Section_.t) (figures : list ParsedFigure.t)
  : result (list Figure.t) :=
  fold_left
    (fun acc parsed =>
       match acc with
       | Raise e => Raise e
       | Ok figure_models =>
           match resolve_section_id section_models parsed with
           | Raise e => Raise e
           | Ok section_id =>
               Ok (figure_models ++
                   [Figure.mk None document_id section_id
                      (ParsedFigure.page_number parsed)
                      (ParsedFigure.caption_text parsed)
                      None
                      (ParsedFigure.order_index parsed)])
           end
       end)
    figures (Ok []).

Section Upload.

Variable uni_decimal : char -> bool.
Variable uni_alnum : char -> bool.
Variable PdfReader : list Byte.byte -> result (list page).

(** [upload_document].  The list of files by path takes every write, so
    the handler is followed as it runs once [temp_file.open("wb")] has
    succeeded.  It succeeds for the names of [storable_name] below; for
    a name with a directory part or of more than 255 bytes the handler
    ends there with an [OSError], before the PDF is copied or read.  A
    theorem that depends on the handler getting further takes such a
    name, or the outcome of the upload, as a hypothesis. *)
Definition upload_document (manufacturer_id : Z) (title : str)
    (revision_date tags : option str) (file : UploadFile) (user : User)
  : M Document.t :=
  if negb (lower_endswith_pdf (filename file)) then
    raise (HTTPException 400 (txt "Only PDF files allowed"))
  else
    let temp_path := txt "server/storage/tmp" in
    let temp_file := path_join temp_path (filename file) in
    _ <- update_fs (fun fs => write_file fs temp_file (content file)) ;;
    storage_key <- save_pdf temp_file (filename file) ;;
    parsed <- with_fs (fun fs =>
                parse_pdf uni_decimal uni_alnum PdfReader fs temp_file) ;;
    let '(sections, figures) := parsed in
    document <- add_document_and_flush
                  (Document.mk None manufacturer_id title (filename file)
                     storage_key (user_id user) revision_date tags) ;;
    section_models <- add_all_sections_and_flush
                        (build_section_models (Document.id document)
                           sections) ;;
    figure_models <- lift (build_figure_models (Document.id document)
                             section_models figures) ;;
    _ <- update_db (add_all_figures figure_models) ;;
    _ <- update_db
           (add_audit_log
              (AuditLog.mk None (user_id user) (user_role user)
                 (txt "UPLOAD_DOC") (Some manufacturer_id)
                 (Document.id document) None
                 [(txt "sections", len section_models);
                  (txt "figures", len figure_models)])) ;;
    _ <- update_db commit ;;
    ret document.

End Upload.

(* ================================================================== *)
(** * The heading rule in the words of the specification *)
(* ================================================================== *)

Section HeadingRule.

Variable uni_decimal : char -> bool.

(** An integer group: one or more digits. *)
Definition integer_group (g : str) : Prop :=
  g <> [] /\ Forall (fun c => is_digit uni_decimal c = true) g.

(** The groups written one after the other with a dot between them. *)
Fixpoint dotted (groups : list str) : str :=
  match groups with
  | [] => []
  | g :: rest =>
      match rest with
      | [] => g
      | _ :: _ => g ++ [code "."] ++ dotted rest
      end
  end.

(** One or more dot-separated integer groups. *)
Definition outline_label (label : str) : Prop :=
  exists groups,
    groups <> [] /\ Forall integer_group groups /\ label = dotted groups.

Definition whitespace (ws : str) : Prop :=
  ws <> [] /\ Forall (fun c => is_space c = true) ws.

(** A numeric outline label, followed by whitespace, followed by one or
    more remaining characters. *)
Definition spec_heading (s : str) : Prop :=
  exists label ws title,
    s = label ++ ws ++ title /\ outline_label label /\ whitespace ws
    /\ title <> [].

End HeadingRule.

(* ================================================================== *)
(** * What one page adds to the outline *)
(* ================================================================== *)

(** The sections of one page: its headings, numbered from [first]. *)
Fixpoint new_sections (page_index first : Z) (headings : list str)
  : list ParsedSection.t :=
  match headings with
  | [] => []
  | h :: rest =>
      ParsedSection.mk h (txt "H1") (Some page_index) (Some page_index) first
      :: new_sections page_index (first + 1) rest
  end.

(** The figures of one page: its caption lines, numbered from [first], all
    with the section reference [sec]. *)
Fixpoint new_figures (page_index : Z) (sec : option Z) (first : Z)
    (captions : list str) : list ParsedFigure.t :=
  match captions with
  | [] => []
  | line :: rest =>
      ParsedFigure.mk sec (Some page_index) (Some (strip line)) first
      :: new_figures page_index sec (first + 1) rest
  end.

(** The index of the last section of a list, if any. *)
Definition last_index (l : list ParsedSection.t) : option Z :=
  if nonempty l then Some (len l - 1) else None.

Section Outline.

Variable uni_decimal : char -> bool.
Variable uni_alnum : char -> bool.

(** The headings of a page, in the order of its lines. *)
Definition page_headings (p : page) : list str :=
  _detect_sections uni_decimal (page_lines (text_or_empty p)).

(** The caption lines of a page, in the order of its lines. *)
Definition page_captions (p : page) : list str :=
  filter (is_figure uni_alnum) (page_lines (text_or_empty p)).

(** The scan of the pages numbered from [i], from the state [st]. *)
Definition scan_from (i : Z) (st : scan_state) (pages : list page)
  : scan_state :=
  fold_left (scan_page uni_decimal uni_alnum) (enumerate pages i) st.

(** A page on which every line is blank. *)
Definition blank_page (p : page) : Prop :=
  forall line, In line (splitlines (text_or_empty p)) -> strip line = [].

End Outline.

(** A section and a figure without their page numbers. *)
Definition section_sans_page (s : ParsedSection.t) : str * str * Z :=
  (ParsedSection.heading_text s, ParsedSection.heading_level s,
   ParsedSection.order_index s).

Definition figure_sans_page (f : ParsedFigure.t)
  : option Z * option str * Z :=
  (ParsedFigure.section_index f, ParsedFigure.caption_text f,
   ParsedFigure.order_index f).

(** The numbers 1, 2, ..., [n]. *)
Definition one_to (n : nat) : list Z := map Z.of_nat (seq 1 n).

(* ================================================================== *)
(** * Properties of the state of the scan *)
(* ================================================================== *)

(** The counter is one more than the number of sections. *)
Definition counter_ok (st : scan_state) : Prop :=
  order_index st = len (sections st) + 1.

(** Both lists are numbered 1, 2, ... *)
Definition numbered (st : scan_state) : Prop :=
  counter_ok st
  /\ map ParsedSection.order_index (sections st)
     = one_to (List.length (sections st))
  /\ map ParsedFigure.order_index (figures st)
     = one_to (List.length (figures st)).

(** Every section reference of a figure is an index into the sections. *)
Definition references_ok (st : scan_state) : Prop :=
  forall f i,
    In f (figures st) -> ParsedFigure.section_index f = Some i ->
    0 <= i < len (sections st).

(** Without headings nothing is ever attached. *)
Definition unattached (st : scan_state) : Prop :=
  sections st = []
  /\ forall f, In f (figures st) -> ParsedFigure.section_index f = None.

(** Two states that agree up to page numbers. *)
Definition same_sans_page (st st' : scan_state) : Prop :=
  map section_sans_page (sections st) = map section_sans_page (sections st')
  /\ map figure_sans_page (figures st) = map figure_sans_page (figures st')
  /\ order_index st = order_index st'.

(** The row made for a parsed section, and the row made for a parsed
    figure once its section reference is known. *)
Definition section_row (document_id : option Z) (parsed : ParsedSection.t)
  : Section_.t :=
  Section_.mk None document_id
    (ParsedSection.heading_text parsed) (ParsedSection.heading_level parsed)
    (ParsedSection.page_start parsed) (ParsedSection.page_end parsed)
    (ParsedSection.order_index parsed).

Definition figure_row (document_id section_id : option Z)
    (parsed : ParsedFigure.t) : Figure.t :=
  Figure.mk None document_id section_id
    (ParsedFigure.page_number parsed) (ParsedFigure.caption_text parsed)
    None (ParsedFigure.order_index parsed).

(** The section rows of an upload after the flush that gives them the
    identifiers [k], [k + 1], ... *)
Definition flushed_section_rows (document_id : option Z) (k : Z)
    (sections : list ParsedSection.t) : list Section_.t :=
  assign_ids Section_.id Section_.with_id k
    (build_section_models document_id sections).

(* ================================================================== *)
(** * Sample inputs *)
(* ================================================================== *)

(** Tables for text in which no character outside ASCII is a digit or a
    letter. *)
Definition only_ascii : char -> bool := fun _ => false.

(** Lines joined by line feeds. *)
Fixpoint unlines (lines : list string) : str :=
  match lines with
  | [] => []
  | l :: rest =>
      match rest with
      | [] => txt l
      | _ :: _ => txt l ++ [LF] ++ unlines rest
      end
  end.

(** A reader that rejects every file. *)
Definition broken_reader (bytes : list Byte.byte) : result (list page) :=
  Raise (PdfReadError (txt "EOF marker not found")).

(** A reader that finds two pages in every file. *)
Definition two_page_reader (bytes : list Byte.byte) : result (list page) :=
  Ok [Some (unlines ["Figure 1 overview"; "1 Intro"]);
      Some (unlines ["2 Method"; "see Figure 2"])].

Definition empty_world : World :=
  mk_world [] (mk_session Tables.empty Tables.empty).

(* ================================================================== *)
(** * The text of the whole outline *)
(* ================================================================== *)

Section Outline_text.

Variable uni_decimal : char -> bool.
Variable uni_alnum : char -> bool.

(** The headings of all pages, page after page. *)
Definition all_headings (pages : list page) : list str :=
  flat_map (page_headings uni_decimal) pages.

(** The caption lines of all pages, page after page. *)
Definition all_captions (pages : list page) : list str :=
  flat_map (page_captions uni_alnum) pages.

End Outline_text.

(* ================================================================== *)
(** * The read handlers and the delete handler of [main.py] *)
(* ================================================================== *)

(** Equality of two nullable integer columns as a filter sees it: a null
    equals nothing. *)
Definition column_eqb (a b : option Z) : bool :=
  match a, b with
  | Some x, Some y => x =? y
  | _, _ => false
  end.

(** [db.query(...)]: the session first flushes what is pending; the rows
    it then reads are the committed ones followed by its own. *)
Definition query {A} (read : Tables.t -> A) : M A :=
  fun w =>
    let s := flush (db w) in
    (Ok (read (Tables.union (committed s) (pending s))), mk_world (fs w) s).

(** [.order_by(key)]: ascending; rows with equal keys keep their order. *)
Fixpoint insert_by {A} (key : A -> Z) (x : A) (l : list A) : list A :=
  match l with
  | [] => [x]
  | y :: l' => if key x <=? key y then x :: l else y :: insert_by key x l'
  end.

Definition order_by {A} (key : A -> Z) (l : list A) : list A :=
  fold_right (insert_by key) [] l.

(** [list_sections], [list_figures], [get_document_pdf] and
    [delete_document] below take the identifier of the request as an
    integer of any size, and the tables compare it as such.  The driver
    takes the values of [in_integer_range] only and raises an
    [OverflowError] in the first query for others; a theorem that
    depends on the answer to the identifier asked for takes it within
    that range. *)
Definition list_sections (document_id : Z) (user : User)
  : M (list Section_.t) :=
  sections <- query (fun t =>
                order_by Section_.order_index
                  (filter
                     (fun s =>
                        column_eqb (Section_.document_id s) (Some document_id))
                     (Tables.sections t))) ;;
  _ <- update_db
         (add_audit_log
            (AuditLog.mk None (user_id user) (user_role user)
               (txt "VIEW_SECTION_LIST") None (Some document_id) None
               [(txt "count", len sections)])) ;;
  _ <- update_db commit ;;
  ret sections.

Definition list_figures (section_id : Z) (user : User) : M (list Figure.t) :=
  figures <- query (fun t =>
               order_by Figure.order_index
                 (filter
                    (fun f =>
                       column_eqb (Figure.section_id f) (Some section_id))
                    (Tables.figures t))) ;;
  _ <- update_db
         (add_audit_log
            (AuditLog.mk None (user_id user) (user_role user)
               (txt "VIEW_SECTION") None None (Some section_id)
               [(txt "count", len figures)])) ;;
  _ <- update_db commit ;;
  ret figures.

Fixpoint starts_with (prefix s : str) : bool :=
  match prefix, s with
  | [], _ => true
  | c :: prefix', d :: s' => (c =? d)%N && starts_with prefix' s'
  | _ :: _, [] => false
  end.

(** [path.exists()]: the path names a file, or a directory that holds
    one. *)
Definition path_exists (fs : files) (path : str) : bool :=
  existsb
    (fun entry =>
       str_eqb (fst entry) path || starts_with (path ++ txt "/") (fst entry))
    fs.

Module FileResponse.
Record t : Type := mk {
  path : str;
  filename : str;
  media_type : str
}.
End FileResponse.

Definition get_document_pdf (document_id : Z) (user : User)
  : M FileResponse.t :=
  document <- query (fun t =>
                find (fun d => column_eqb (Document.id d) (Some document_id))
                  (Tables.documents t)) ;;
  match document with
  | None => raise (HTTPException 404 (txt "Document not found"))
  | Some document =>
      let file_path :=
        path_join (txt "server/storage") (Document.storage_key document) in
      found <- with_fs (fun fs => Ok (path_exists fs file_path)) ;;
      if negb found then raise (HTTPException 404 (txt "PDF missing"))
      else
        ret (FileResponse.mk file_path (Document.original_filename document)
               (txt "application/pdf"))
  end.

(* ================================================================== *)
(** * The rows of one upload *)
(* ================================================================== *)

(** The rows that an upload adds to the committed tables [c]: its document,
    one row per section, one per figure and its log entry, each numbered
    after the rows already there. *)
Definition upload_rows (c : Tables.t) (manufacturer_id : Z) (title : str)
    (revision_date tags : option str) (file : UploadFile) (user : User)
    (sections : list ParsedSection.t) (figures : list ParsedFigure.t)
  : Tables.t :=
  let document_id := next_id (map Document.id (Tables.documents c)) in
  let first_section := next_id (map Section_.id (Tables.sections c)) in
  let first_figure := next_id (map Figure.id (Tables.figures c)) in
  Tables.mk
    [Document.mk (Some document_id) manufacturer_id title (filename file)
       (txt "pdfs/" ++ replace_spaces (filename file)) (user_id user)
       revision_date tags]
    (flushed_section_rows (Some document_id) first_section sections)
    (assign_ids Figure.id Figure.with_id first_figure
       (map
          (fun f =>
             figure_row (Some document_id)
               (option_map (Z.add first_section)
                  (ParsedFigure.section_index f)) f)
          figures))
    [AuditLog.mk (Some (next_id (map AuditLog.id (Tables.audit_logs c))))
       (user_id user) (user_role user) (txt "UPLOAD_DOC")
       (Some manufacturer_id) (Some document_id) None
       [(txt "sections", len sections); (txt "figures", len figures)]].

(** The files of an upload: the temporary file and the stored copy. *)
Definition upload_files (fs : files) (file : UploadFile) : files :=
  write_file
    (write_file fs (path_join (txt "server/storage/tmp") (filename file))
       (content file))
    (path_join STORAGE_ROOT (txt "pdfs/" ++ replace_spaces (filename file)))
    (content file).

(** Every section row belongs to a document row of the same tables. *)
Definition sections_have_documents (t : Tables.t) : Prop :=
  forall s,
    In s (Tables.sections t) ->
    exists d,
      In d (Tables.documents t)
      /\ Document.id d <> None
      /\ Section_.document_id s = Document.id d.

(** Every figure row that names a section names one of the same tables. *)
Definition figures_have_sections (t : Tables.t) : Prop :=
  forall f k,
    In f (Tables.figures t) ->
    Figure.section_id f = Some k ->
    exists s, In s (Tables.sections t) /\ Section_.id s = Some k.

(** In no table do two rows have the same identifier column. *)
Definition keys_unique (t : Tables.t) : Prop :=
  NoDup (map Document.id (Tables.documents t))
  /\ NoDup (map Section_.id (Tables.sections t))
  /\ NoDup (map Figure.id (Tables.figures t))
  /\ NoDup (map AuditLog.id (Tables.audit_logs t)).

(** A file name without a directory part.  With other names the temporary
    file and the stored copy of an upload can be one and the same file on
    disk, which the list of files by path does not follow. *)
Definition plain_name (name : str) : Prop := ~ In (code "/") name.

(** The number of bytes that a name takes in a directory: its length in
    UTF-8. *)
Definition utf8_length (s : str) : Z :=
  fold_right
    (fun c n =>
       (if (c <? 128)%N then 1
        else if (c <? 2048)%N then 2
        else if (c <? 65536)%N then 3
        else 4) + n)
    0 s.

(** A character that a file name can hold: not the null character, not
    the path separator, and a Unicode scalar value, which has a UTF-8
    form. *)
Definition storable_char (c : char) : bool :=
  negb (c =? 0)%N && negb (c =? code "/")%N
  && ((c <? 55296)%N || ((57343 <? c)%N && (c <=? 1114111)%N)).

(** A file name under which [temp_file.open("wb")] and [shutil.copy]
    create a file in their directories: characters that a name can hold,
    and at most 255 bytes.  For other names the handler fails when it
    opens the temporary file, before the PDF is read; the list of files
    by path has no such failure. *)
Definition storable_name (name : str) : Prop :=
  forallb storable_char name = true /\ utf8_length name <= 255.

(** The values that an [Integer] column and a query on it take: the signed
    integers of 64 bits.  The driver refuses others with an
    [OverflowError], which the tables of the model do not have. *)
Definition in_integer_range (k : Z) : Prop := - 2 ^ 63 <= k < 2 ^ 63.

(** The columns that a section row takes from the detector. *)
Definition section_columns (r : Section_.t)
  : str * str * option Z * option Z * Z :=
  (Section_.heading_text r, Section_.heading_level r, Section_.page_start r,
   Section_.page_end r, Section_.order_index r).

Definition parsed_section_columns (s : ParsedSection.t)
  : str * str * option Z * option Z * Z :=
  (ParsedSection.heading_text s, ParsedSection.heading_level s,
   ParsedSection.page_start s, ParsedSection.page_end s,
   ParsedSection.order_index s).

(** The identifiers given by a flush to rows that have none. *)
Definition fresh_ids (k : Z) (n : nat) : list (option Z) :=
  map (fun j => Some (k + Z.of_nat j)) (seq 0 n).

(** Every figure row belongs to a document row of the same tables. *)
Definition figures_have_documents (t : Tables.t) : Prop :=
  forall f,
    In f (Tables.figures t) ->
    exists d,
      In d (Tables.documents t)
      /\ Document.id d <> None
      /\ Figure.document_id f = Document.id d.

(** What is left of the tables [t] once the document [document_id] is
    deleted with the cascades of [models.py]: the document goes, its
    sections and its figures go with it, and so do the figures of the
    sections [gone]. *)
Definition delete_from (document_id : Z) (gone : list Section_.t)
    (t : Tables.t) : Tables.t :=
  Tables.mk
    (filter
       (fun d => negb (column_eqb (Document.id d) (Some document_id)))
       (Tables.documents t))
    (filter
       (fun s =>
          negb (column_eqb (Section_.document_id s) (Some document_id)))
       (Tables.sections t))
    (filter
       (fun f =>
          negb (column_eqb (Figure.document_id f) (Some document_id)
                || existsb
                     (fun s => column_eqb (Section_.id s) (Figure.section_id f))
                     gone))
       (Tables.figures t))
    (Tables.audit_logs t).

(** [db.delete(document)] in a session that has flushed.  The sections
    that go are those of the document among all the rows the session
    reads; the rows leave the session's view at once and the database at
    the commit. *)
Definition delete (document_id : Z) (s : Session) : Session :=
  let gone :=
    filter
      (fun r => column_eqb (Section_.document_id r) (Some document_id))
      (Tables.sections (committed s) ++ Tables.sections (pending s)) in
  mk_session (delete_from document_id gone (committed s))
    (delete_from document_id gone (pending s)).

(** The log entry of a deletion is written without metadata; the empty
    dictionary stands for it here. *)
Definition delete_document (document_id : Z) (user : User)
  : M (list (str * str)) :=
  document <- query (fun t =>
                find (fun d => column_eqb (Document.id d) (Some document_id))
                  (Tables.documents t)) ;;
  match document with
  | None => raise (HTTPException 404 (txt "Document not found"))
  | Some _ =>
      _ <- update_db (delete document_id) ;;
      _ <- update_db
             (add_audit_log
                (AuditLog.mk None (user_id user) (user_role user)
                   (txt "DELETE_DOC") None (Some document_id) None [])) ;;
      _ <- update_db commit ;;
      ret [(txt "status", txt "deleted")]
  end.

(** The references between the three outline tables all resolve. *)
Definition references_resolve (t : Tables.t) : Prop :=
  sections_have_documents t
  /\ figures_have_sections t
  /\ figures_have_documents t.

(** A file name that ends in ".pdf", in any mix of upper and lower case. *)
Definition pdf_name (name : str) : Prop :=
  exists stem p d f,
    name = stem ++ [code "."; p; d; f]
    /\ In p [code "p"; code "P"]
    /\ In d [code "d"; code "D"]
    /\ In f [code "f"; code "F"].


(* ================================================================== *)
(** * Users, tokens and the route guards ([auth.py]) *)
(* ================================================================== *)

Module Manufacturer.
Record t : Type := mk {
  id : Z;
  name : str;
  theme_primary : option str;
  theme_secondary : option str
}.
End Manufacturer.

(** A row of the users table; [User] above holds the two columns of it
    that the handlers read. *)
Module User_.
Record t : Type := mk {
  id : Z;
  username : str;
  password_hash : str;
  role : str;
  is_active : bool
}.
End User_.

Module SessionToken.
Record t : Type := mk {
  id : Z;
  user_id : Z;
  token : str
}.
End SessionToken.

(** The tables that the guards read and that the handlers above leave
    alone. *)
Record Directory : Type := mk_directory {
  manufacturers : list Manufacturer.t;
  users : list User_.t;
  session_tokens : list SessionToken.t
}.

(** [s.replace(old, new, 1)]: the first occurrence of [old], from the
    left, gives way to [new]. *)
Fixpoint replace_first (old new s : str) : str :=
  if starts_with old s then new ++ skipn (List.length old) s
  else
    match s with
    | [] => []
    | c :: rest => c :: replace_first old new rest
    end.

(** [get_current_user(request, db)]; [authorization] is
    [request.headers.get("Authorization")]. *)
Definition get_current_user (dir : Directory) (authorization : option str)
  : result User_.t :=
  match authorization with
  | None => Raise (HTTPException 401 (txt "Missing token"))
  | Some auth_header =>
      if negb (nonempty auth_header)
         || negb (starts_with (txt "Bearer ") auth_header)
      then Raise (HTTPException 401 (txt "Missing token"))
      else
        let token := strip (replace_first (txt "Bearer ") [] auth_header) in
        match find (fun s => str_eqb (SessionToken.token s) token)
                (session_tokens dir) with
        | None => Raise (HTTPException 401 (txt "Invalid token"))
        | Some session =>
            match find (fun u => User_.id u =? SessionToken.user_id session)
                    (users dir) with
            | None => Raise (HTTPException 401 (txt "Inactive user"))
            | Some user =>
                if negb (User_.is_active user)
                then Raise (HTTPException 401 (txt "Inactive user"))
                else Ok user
            end
        end
  end.




(* ================================================================== *)
(** * The search tool ([search_tool.py]) *)
(* ================================================================== *)

Module SearchResult.
Record t : Type := mk {
  title : str;
  description : str;
  features : list str;
  source : str;
  link : str
}.
End SearchResult.

Definition no_results : SearchResult.t :=
  SearchResult.mk (txt "No results")
    (txt "Search endpoints unavailable or returned no data.")
    [] (txt "system") (txt "#").

(** [run_search(query)].  The two fetchers talk to the network; each is
    taken by its outcome: the results it returns, or [None] when it
    raises. *)
Definition run_search
    (_fetch_aerofab _fetch_technandt : str -> option (list SearchResult.t))
    (query : str) : list SearchResult.t :=
  let results := [] in
  let results :=
    match _fetch_aerofab query with
    | Some found => results ++ found
    | None => results
    end in
  let results :=
    match _fetch_technandt query with
    | Some found => results ++ found
    | None => results
    end in
  if negb (nonempty results) then results ++ [no_results] else results.

(* ================================================================== *)
(** * The first rows ([seed.py]) *)
(* ================================================================== *)

(** [db.add_all(rows)] then [db.commit()] on one table: the rows get the
    next identifiers, in order. *)
Definition insert_all {A} (id : A -> Z) (rows : list (Z -> A))
    (table : list A) : list A :=
  let next := next_id (map (fun r => Some (id r)) table) in
  table ++
  map (fun '(j, row) => row (next + Z.of_nat j))
    (combine (seq 0 (List.length rows)) rows).

(** [seed_data(db)] on a session with nothing pending.  [hash_password]
    salts at random: the two hashes it returns are taken as given. *)
Definition seed_data (admin_hash user_hash : str) (dir : Directory)
  : Directory :=
  let manufacturers' :=
    if len (manufacturers dir) =? 0 then
      insert_all Manufacturer.id
        [ (fun k => Manufacturer.mk k (txt "Boeing")
                      (Some (txt "#0b3d91")) (Some (txt "#dce7f7")));
          (fun k => Manufacturer.mk k (txt "Airbus")
                      (Some (txt "#00205b")) (Some (txt "#e5eef9")));
          (fun k => Manufacturer.mk k (txt "Other")
                      (Some (txt "#2f855a")) (Some (txt "#e6fffa"))) ]
        (manufacturers dir)
    else manufacturers dir in
  let users' :=
    if len (users dir) =? 0 then
      insert_all User_.id
        [ (fun k => User_.mk k (txt "admin") admin_hash (txt "admin") true);
          (fun k => User_.mk k (txt "user") user_hash (txt "user") true) ]
        (users dir)
    else users dir in
  mk_directory manufacturers' users' (session_tokens dir).

(** The token that a header carries, in words: what follows "Bearer ",
    without the white space around it. *)
Definition bearer_token (auth_header token : str) : Prop :=
  exists rest, auth_header = txt "Bearer " ++ rest /\ token = strip rest.

(** No two users share an identifier, no two tokens a text. *)
Definition directory_keys_unique (dir : Directory) : Prop :=
  NoDup (map User_.id (users dir))
  /\ NoDup (map SessionToken.token (session_tokens dir)).

(* ================================================================== *)
(** * Sample rows and requests *)
(* ================================================================== *)

Definition manual_pdf : UploadFile :=
  mk_upload (txt "manual.pdf") [Byte.x25; Byte.x50].

Definition admin_user : User := mk_user 1 (txt "admin").

(** One document with two sections and two figures, the second figure in
    the second section. *)
Definition library_tables : Tables.t :=
  Tables.mk
    [Document.mk (Some 1) 7 (txt "Guide") (txt "guide.pdf")
       (txt "pdfs/guide.pdf") 1 None None]
    [Section_.mk (Some 1) (Some 1) (txt "2 Method") (txt "H1") (Some 2)
       (Some 2) 2;
     Section_.mk (Some 2) (Some 1) (txt "1 Intro") (txt "H1") (Some 1)
       (Some 1) 1]
    [Figure.mk (Some 1) (Some 1) None (Some 1) (Some (txt "Figure 1")) None 1;
     Figure.mk (Some 2) (Some 1) (Some 1) (Some 2) (Some (txt "Figure 2"))
       None 2]
    [].

Definition library_world : World :=
  mk_world [(txt "server/storage/pdfs/guide.pdf", [Byte.x25])]
    (mk_session library_tables Tables.empty).

(** Two users, one of them switched off, and a token for each. *)
Definition sample_directory : Directory :=
  mk_directory []
    [User_.mk 1 (txt "admin") (txt "$2b$12$abc") (txt "admin") true;
     User_.mk 2 (txt "user") (txt "$2b$12$def") (txt "user") false]
    [SessionToken.mk 1 1 (txt "tok-admin");
     SessionToken.mk 2 2 (txt "tok-user")].
(* ================================================================== *)
(** * The pattern matcher decides the language of the pattern *)
(* ================================================================== *)

Ltac inv H := inversion H; subst; clear H.

Lemma nullable_lang (r : regex) : nullable r = true <-> lang r [].
Proof.
  induction r as [| |p|r1 IH1 r2 IH2|r1 IH1 r2 IH2|r1 IH1]; simpl;
    split; intro H.
  - discriminate.
  - inversion H.
  - constructor.
  - reflexivity.
  - discriminate.
  - inversion H.
  - apply orb_true_iff in H as [H | H]; [apply L_alt_l | apply L_alt_r]; tauto.
  - apply orb_true_iff. inv H; tauto.
  - apply andb_true_iff in H as [H1 H2].
    change (@nil char) with (@nil char ++ []). constructor; tauto.
  - inv H.
    match goal with E : _ ++ _ = [] |- _ => apply app_eq_nil in E as [-> ->] end.
    apply andb_true_iff. tauto.
  - constructor.
  - reflexivity.
Qed.

Lemma cat_cons_inv (r1 r2 : regex) (c : char) (s : str) :
  lang (Cat r1 r2) (c :: s) ->
  (exists s1 s2, s = s1 ++ s2 /\ lang r1 (c :: s1) /\ lang r2 s2)
  \/ (lang r1 [] /\ lang r2 (c :: s)).
Proof.
  intro H. remember (Cat r1 r2) as r eqn:Er. remember (c :: s) as s' eqn:Es.
  destruct H as [| | | |q1 q2 s1 s2 H1 H2| |]; try discriminate.
  injection Er as -> ->.
  destruct s1 as [|c1 s1]; simpl in Es.
  - right. subst. auto.
  - injection Es as -> <-. left. exists s1, s2. auto.
Qed.

Lemma star_cons_inv (r : regex) (c : char) (s : str) :
  lang (Star r) (c :: s) ->
  exists s1 s2, s = s1 ++ s2 /\ lang r (c :: s1) /\ lang (Star r) s2.
Proof.
  intro H. remember (Star r) as r' eqn:Er. remember (c :: s) as s' eqn:Es.
  revert Er Es.
  induction H as [| | | | | |r0 s1 s2 H1 _ H2 IH2]; intros Er Es;
    try discriminate.
  injection Er as ->.
  destruct s1 as [|c1 s1]; simpl in Es.
  - apply IH2; auto.
  - injection Es as -> <-. exists s1, s2. auto.
Qed.

Lemma deriv_lang (c : char) (r : regex) (s : str) :
  lang (deriv c r) s <-> lang r (c :: s).
Proof.
  revert s. induction r as [| |p|r1 IH1 r2 IH2|r1 IH1 r2 IH2|r1 IH1];
    intro s; simpl.
  - split; intro H; inversion H.
  - split; intro H; inversion H.
  - destruct (p c) eqn:Ep; split; intro H; inv H.
    + constructor; assumption.
    + constructor.
    + congruence.
  - split; intro H; inv H.
    + apply L_alt_l, IH1; assumption.
    + apply L_alt_r, IH2; assumption.
    + apply L_alt_l, IH1; assumption.
    + apply L_alt_r, IH2; assumption.
  - assert (Hcat : forall s1 s2, lang (deriv c r1) s1 -> lang r2 s2 ->
                                 lang (Cat r1 r2) (c :: s1 ++ s2)).
    { intros s1 s2 H1 H2. change (c :: s1 ++ s2) with ((c :: s1) ++ s2).
      constructor; [apply IH1|]; assumption. }
    destruct (nullable r1) eqn:En; split; intro H.
    + inv H.
      * match goal with H' : lang (Cat _ _) _ |- _ => inv H' end.
        apply Hcat; assumption.
      * change (c :: s) with ([] ++ c :: s).
        constructor; [apply nullable_lang | apply IH2]; assumption.
    + destruct (cat_cons_inv H) as [(s1 & s2 & -> & H1 & H2) | [_ H2]].
      * apply L_alt_l. constructor; [apply IH1|]; assumption.
      * apply L_alt_r, IH2. assumption.
    + inv H. apply Hcat; assumption.
    + destruct (cat_cons_inv H) as [(s1 & s2 & -> & H1 & H2) | [H1 _]].
      * constructor; [apply IH1|]; assumption.
      * apply nullable_lang in H1. congruence.
  - split; intro H.
    + inv H. 
      match goal with |- lang _ (c :: ?a ++ ?b) =>
        change (c :: a ++ b) with ((c :: a) ++ b) end.
      constructor; [apply IH1|]; assumption.
    + apply star_cons_inv in H as (s1 & s2 & -> & H1 & H2).
      constructor; [apply IH1|]; assumption.
Qed.

Lemma accepts_lang (r : regex) (s : str) : accepts r s = true <-> lang r s.
Proof.
  revert r. induction s as [|c s IH]; intro r; simpl.
  - apply nullable_lang.
  - rewrite IH. apply deriv_lang.
Qed.

(* ================================================================== *)
(** * Facts about [strip] and [splitlines] *)
(* ================================================================== *)

Lemma lstrip_suffix (s : str) : exists pre, s = pre ++ lstrip s.
Proof.
  induction s as [|c s [pre IH]]; simpl.
  - exists []. reflexivity.
  - destruct (is_space c).
    + exists (c :: pre). simpl. congruence.
    + exists []. reflexivity.
Qed.

Lemma lstrip_head (s : str) (c : char) (t : str) :
  lstrip s = c :: t -> is_space c = false.
Proof.
  induction s as [|d s IH]; simpl; [discriminate|].
  destruct (is_space d) eqn:Ed; [exact IH|].
  intro E. injection E as -> _. exact Ed.
Qed.

Lemma lstrip_In (s : str) (c : char) : In c (lstrip s) -> In c s.
Proof.
  destruct (lstrip_suffix s) as [pre E]. intro H.
  rewrite E. apply in_or_app. right. exact H.
Qed.

Lemma strip_In (s : str) (c : char) : In c (strip s) -> In c s.
Proof.
  unfold strip, rstrip. intro H.
  apply in_rev in H. apply lstrip_In in H. apply in_rev in H.
  apply lstrip_In. exact H.
Qed.

Lemma strip_last (s : str) (c : char) (front : str) :
  rev (strip s) = c :: front -> is_space c = false.
Proof.
  unfold strip, rstrip. rewrite rev_involutive. apply lstrip_head.
Qed.

Lemma LF_is_linebreak : is_linebreak LF = true.
Proof. reflexivity. Qed.

Lemma LF_is_space : is_space LF = true.
Proof. reflexivity. Qed.

(** No line of [splitlines] contains a line boundary. *)
Lemma splitlines_from_no_break (n : nat) :
  forall (s cur line : str),
    (List.length s <= n)%nat ->
    Forall (fun c => is_linebreak c = false) cur ->
    In line (splitlines_from cur s) ->
    Forall (fun c => is_linebreak c = false) line.
Proof.
  induction n as [|n IH]; intros s cur line Hn Hcur Hin.
  - destruct s; [|simpl in Hn; lia]. simpl in Hin.
    destruct (nonempty cur); [|contradiction].
    destruct Hin as [<- | []]. apply Forall_rev. exact Hcur.
  - destruct s as [|c t]; simpl in Hin.
    + destruct (nonempty cur); [|contradiction].
      destruct Hin as [<- | []]. apply Forall_rev. exact Hcur.
    + simpl in Hn. destruct (is_linebreak c) eqn:Ec.
      * destruct Hin as [<- | Hin]; [apply Forall_rev; exact Hcur|].
        destruct t as [|d t'].
        -- simpl in Hin. contradiction.
        -- destruct ((c =? CR)%N && (d =? LF)%N).
           ++ apply (IH t' [] line); [simpl in Hn; lia | constructor | exact Hin].
           ++ apply (IH (d :: t') [] line); [lia | constructor | exact Hin].
      * apply (IH t (c :: cur) line); [lia | | exact Hin].
        constructor; assumption.
Qed.

Lemma splitlines_no_LF (text line : str) :
  In line (splitlines text) -> ~ In LF line.
Proof.
  intros Hin HLF.
  assert (H : Forall (fun c => is_linebreak c = false) line).
  { apply (@splitlines_from_no_break (List.length text) text [] line);
      [lia | constructor | exact Hin]. }
  rewrite Forall_forall in H. apply H in HLF.
  rewrite LF_is_linebreak in HLF. discriminate.
Qed.

(* ================================================================== *)
(** * The language of the heading pattern *)
(* ================================================================== *)

Lemma lang_chr (p : char -> bool) (s : str) :
  lang (Chr p) s <-> exists c, s = [c] /\ p c = true.
Proof.
  split.
  - intro H. inv H. eauto.
  - intros (c & -> & H). constructor. exact H.
Qed.

Lemma lang_cat (r1 r2 : regex) (s : str) :
  lang (Cat r1 r2) s <->
  exists s1 s2, s = s1 ++ s2 /\ lang r1 s1 /\ lang r2 s2.
Proof.
  split.
  - intro H. inv H. eauto.
  - intros (s1 & s2 & -> & H1 & H2). constructor; assumption.
Qed.

Lemma lang_star_chr (p : char -> bool) (s : str) :
  lang (Star (Chr p)) s <-> Forall (fun c => p c = true) s.
Proof.
  split.
  - intro H. remember (Star (Chr p)) as r eqn:Er. revert Er.
    induction H as [| | | | | |r0 s1 s2 H1 _ H2 IH2]; intro Er;
      try discriminate.
    + constructor.
    + injection Er as ->. inv H1. simpl. constructor; auto.
  - induction 1 as [|c s Hc _ IH].
    + constructor.
    + change (c :: s) with ([c] ++ s). constructor; [constructor|]; assumption.
Qed.

Lemma lang_plus_chr (p : char -> bool) (s : str) :
  lang (Plus (Chr p)) s <-> s <> [] /\ Forall (fun c => p c = true) s.
Proof.
  unfold Plus. rewrite lang_cat. split.
  - intros (s1 & s2 & -> & H1 & H2).
    apply lang_chr in H1 as (c & -> & Hc). apply lang_star_chr in H2.
    split; [discriminate | constructor; assumption].
  - intros [Hne H]. destruct s as [|c s]; [congruence|]. inv H.
    exists [c], s. split; [reflexivity|].
    split; [constructor | apply lang_star_chr]; assumption.
Qed.

Section HeadingLanguage.

Variable uni_decimal : char -> bool.

Let digit := Chr (is_digit uni_decimal).
Let group_tail := Cat (Chr (is_char (code "."))) (Plus digit).

Lemma dotted_cons (g : str) (rest : list str) :
  dotted (g :: rest) = g ++ concat (map (cons (code ".")) rest).
Proof.
  revert g. induction rest as [|g' rest IH]; intro g.
  - simpl. rewrite app_nil_r. reflexivity.
  - change (dotted (g :: g' :: rest))
      with (g ++ [code "."] ++ dotted (g' :: rest)).
    rewrite IH. reflexivity.
Qed.

Lemma lang_group_tails (s : str) :
  lang (Star group_tail) s <->
  exists groups,
    Forall (integer_group uni_decimal) groups
    /\ s = concat (map (cons (code ".")) groups).
Proof.
  split.
  - intro H. remember (Star group_tail) as r eqn:Er. revert Er.
    induction H as [| | | | | |r0 s1 s2 H1 _ H2 IH2]; intro Er;
      try discriminate.
    + exists []. split; [constructor | reflexivity].
    + injection Er as ->. destruct (IH2 eq_refl) as (groups & Hg & ->).
      unfold group_tail in H1. apply lang_cat in H1 as (d & g & -> & Hd & Hgr).
      apply lang_chr in Hd as (c & -> & Hc).
      apply N.eqb_eq in Hc as ->.
      apply lang_plus_chr in Hgr.
      exists (g :: groups). split; [constructor; assumption | reflexivity].
  - intros (groups & Hg & ->). induction Hg as [|g groups Hgr _ IH]; simpl.
    + constructor.
    + assert (H1 : lang group_tail (code "." :: g)).
      { change (code "." :: g) with ([code "."] ++ g).
        constructor; [constructor; apply N.eqb_refl|].
        apply lang_plus_chr. exact Hgr. }
      exact (L_star_cons H1 IH).
Qed.

Lemma lang_outline_label (s : str) :
  lang (Cat (Plus digit) (Star group_tail)) s <-> outline_label uni_decimal s.
Proof.
  rewrite lang_cat. split.
  - intros (g & tl & -> & Hg & Htl).
    apply lang_plus_chr in Hg. apply lang_group_tails in Htl as (rest & Hrest & ->).
    exists (g :: rest). split; [discriminate|].
    split; [constructor; assumption | symmetry; apply dotted_cons].
  - intros (groups & Hne & Hall & ->).
    destruct groups as [|g rest]; [congruence|]. inv Hall.
    exists g, (concat (map (cons (code ".")) rest)).
    split; [apply dotted_cons|].
    split; [apply lang_plus_chr; assumption|].
    apply lang_group_tails. eauto.
Qed.

(** The language of [heading_pattern]: the specification's shape, with a
    title that holds no line feed. *)
Lemma lang_heading_pattern (s : str) :
  lang (heading_pattern uni_decimal) s <->
  exists label ws title,
    s = label ++ ws ++ title /\ outline_label uni_decimal label
    /\ whitespace ws /\ title <> []
    /\ Forall (fun c => is_dot c = true) title.
Proof.
  unfold heading_pattern. cbv zeta. rewrite lang_cat. split.
  - intros (label & rest & -> & Hl & Hrest).
    apply lang_outline_label in Hl.
    apply lang_cat in Hrest as (ws & title & -> & Hws & Ht).
    apply lang_plus_chr in Hws. apply lang_plus_chr in Ht as [Hne Ht].
    exists label, ws, title. repeat split; try assumption; apply Hws.
  - intros (label & ws & title & -> & Hl & Hws & Hne & Ht).
    exists label, (ws ++ title). split; [reflexivity|].
    split; [apply lang_outline_label; exact Hl|].
    apply lang_cat. exists ws, title. split; [reflexivity|].
    split; apply lang_plus_chr; [exact Hws | split; assumption].
Qed.

(** On a stripped line the end anchor can only hold at the very end. *)
Lemma is_heading_lang (line : str) :
  is_heading uni_decimal line = true <->
  lang (heading_pattern uni_decimal) (strip line).
Proof.
  unfold is_heading, re_match_anchored.
  destruct (rev (strip line)) as [|c front] eqn:E.
  - rewrite orb_false_r. apply accepts_lang.
  - apply strip_last in E.
    assert (Hc : (c =? LF)%N = false).
    { destruct (N.eqb_spec c LF) as [-> |]; [|reflexivity].
      rewrite LF_is_space in E. discriminate. }
    rewrite Hc. simpl. rewrite orb_false_r. apply accepts_lang.
Qed.

(** A heading line is not blank. *)
Lemma is_heading_nonblank (line : str) :
  is_heading uni_decimal line = true -> nonempty (strip line) = true.
Proof.
  intro H. apply is_heading_lang, lang_heading_pattern in H
    as (label & ws & title & E & _ & _ & Hne & _).
  rewrite E. destruct label; [|reflexivity].
  destruct ws; [|reflexivity]. destruct title; [congruence | reflexivity].
Qed.

Lemma is_heading_spec (line : str) :
  ~ In LF line ->
  (is_heading uni_decimal line = true <->
   spec_heading uni_decimal (strip line)).
Proof.
  intro HLF. rewrite is_heading_lang, lang_heading_pattern. split.
  - intros (label & ws & title & E & Hl & Hws & Hne & _).
    exists label, ws, title. auto.
  - intros (label & ws & title & E & Hl & Hws & Hne).
    exists label, ws, title. repeat split; try assumption; try apply Hws.
    apply Forall_forall. intros c Hc. unfold is_dot.
    destruct (N.eqb_spec c LF) as [-> |]; [|reflexivity].
    exfalso. apply HLF, strip_In. rewrite E.
    apply in_or_app. right. apply in_or_app. right. exact Hc.
Qed.

End HeadingLanguage.

(* ================================================================== *)
(** * The loops of [parse_pdf] in closed form *)
(* ================================================================== *)

Lemma len_app {A} (l1 l2 : list A) : len (l1 ++ l2) = len l1 + len l2.
Proof. unfold len. rewrite length_app. lia. Qed.

Lemma len_nonneg {A} (l : list A) : 0 <= len l.
Proof. unfold len. lia. Qed.

Lemma nonempty_len {A} (l : list A) : nonempty l = (0 <? len l).
Proof. destruct l; unfold len; simpl; [reflexivity|]. symmetry. apply Z.ltb_lt. lia. Qed.

Lemma enumerate_app {A} (l1 l2 : list A) (i : Z) :
  enumerate (l1 ++ l2) i = enumerate l1 i ++ enumerate l2 (i + len l1).
Proof.
  revert i. induction l1 as [|x l1 IH]; intro i; simpl.
  - f_equal. unfold len. simpl. lia.
  - rewrite IH. do 3 f_equal. unfold len. simpl List.length. lia.
Qed.

Lemma new_sections_length (i k : Z) (hs : list str) :
  List.length (new_sections i k hs) = List.length hs.
Proof. revert k. induction hs; intro k; simpl; auto. Qed.

Lemma new_figures_length (i : Z) (sec : option Z) (k : Z) (ls : list str) :
  List.length (new_figures i sec k ls) = List.length ls.
Proof. revert k. induction ls; intro k; simpl; auto. Qed.

Lemma new_sections_app (i k : Z) (hs1 hs2 : list str) :
  new_sections i k (hs1 ++ hs2) =
  new_sections i k hs1 ++ new_sections i (k + len hs1) hs2.
Proof.
  revert k. induction hs1 as [|h hs1 IH]; intro k; simpl.
  - f_equal. unfold len. simpl. lia.
  - rewrite IH. do 3 f_equal. unfold len. simpl List.length. lia.
Qed.

Lemma nth_new_sections (i k : Z) (hs : list str) (j : nat) (h : str) :
  nth_error hs j = Some h ->
  nth_error (new_sections i k hs) j =
  Some (ParsedSection.mk h (txt "H1") (Some i) (Some i) (k + Z.of_nat j)).
Proof.
  revert k j. induction hs as [|h0 hs IH]; intros k [|j] H; simpl in *;
    try discriminate.
  - injection H as ->. do 2 f_equal. lia.
  - rewrite (IH _ _ H). do 2 f_equal. lia.
Qed.

Lemma nth_new_figures (i : Z) (sec : option Z) (k : Z) (ls : list str)
    (j : nat) (line : str) :
  nth_error ls j = Some line ->
  nth_error (new_figures i sec k ls) j =
  Some (ParsedFigure.mk sec (Some i) (Some (strip line)) (k + Z.of_nat j)).
Proof.
  revert k j. induction ls as [|l0 ls IH]; intros k [|j] H; simpl in *;
    try discriminate.
  - injection H as ->. do 2 f_equal. lia.
  - rewrite (IH _ _ H). do 2 f_equal. lia.
Qed.

Section Loops.

Variable uni_decimal : char -> bool.
Variable uni_alnum : char -> bool.

Local Abbreviation is_heading := (is_heading uni_decimal).
Local Abbreviation is_figure := (is_figure uni_alnum).
Local Abbreviation scan_page := (scan_page uni_decimal uni_alnum).
Local Abbreviation scan_from := (scan_from uni_decimal uni_alnum).
Local Abbreviation scan := (scan uni_decimal uni_alnum).
Local Abbreviation parse_pages := (parse_pages uni_decimal uni_alnum).
Local Abbreviation page_headings := (page_headings uni_decimal).
Local Abbreviation page_captions := (page_captions uni_alnum).

Lemma detect_sections_from (lines : list str) (acc : list str) :
  fold_left
    (fun headings line =>
       if is_heading line then headings ++ [strip line] else headings)
    lines acc
  = acc ++ map strip (filter is_heading lines).
Proof.
  revert acc. induction lines as [|l lines IH]; intro acc; simpl.
  - rewrite app_nil_r. reflexivity.
  - rewrite IH. destruct (is_heading l); simpl; [|reflexivity].
    rewrite <- app_assoc. reflexivity.
Qed.

Lemma detect_sections_eq (lines : list str) :
  _detect_sections uni_decimal lines = map strip (filter is_heading lines).
Proof. unfold _detect_sections. apply detect_sections_from. Qed.

Lemma fold_add_heading (i : Z) (hs : list str) (st : scan_state) :
  fold_left (add_heading i) hs st =
  mk_state (sections st ++ new_sections i (order_index st) hs)
    (figures st) (order_index st + len hs).
Proof.
  revert st. induction hs as [|h hs IH]; intro st; simpl.
  - rewrite app_nil_r. unfold len. simpl. rewrite Z.add_0_r.
    destruct st; reflexivity.
  - rewrite IH. simpl. rewrite <- app_assoc. simpl. f_equal.
    unfold len. simpl List.length. lia.
Qed.

Lemma fold_add_figure (i : Z) (lines : list str) (st : scan_state) :
  fold_left (add_figure uni_alnum i) lines st =
  mk_state (sections st)
    (figures st ++
     new_figures i (last_index (sections st)) (len (figures st) + 1)
       (filter is_figure lines))
    (order_index st).
Proof.
  revert st. induction lines as [|l lines IH]; intro st; simpl.
  - rewrite app_nil_r. destruct st; reflexivity.
  - rewrite IH. unfold add_figure. destruct (is_figure l); simpl.
    + rewrite <- app_assoc. simpl. rewrite len_app. unfold last_index.
      reflexivity.
    + reflexivity.
Qed.

(** One turn of the loop over the pages. *)
Lemma scan_page_eq (st : scan_state) (i : Z) (p : page) :
  scan_page st (i, p) =
  let secs := sections st ++ new_sections i (order_index st) (page_headings p) in
  mk_state secs
    (figures st ++
     new_figures i (last_index secs) (len (figures st) + 1) (page_captions p))
    (order_index st + len (page_headings p)).
Proof.
  unfold scan_page. rewrite fold_add_figure, fold_add_heading. reflexivity.
Qed.

Lemma scan_from_cons (i : Z) (st : scan_state) (p : page) (pages : list page) :
  scan_from i st (p :: pages) = scan_from (i + 1) (scan_page st (i, p)) pages.
Proof. reflexivity. Qed.

Lemma scan_from_app (i : Z) (st : scan_state) (l1 l2 : list page) :
  scan_from i st (l1 ++ l2) = scan_from (i + len l1) (scan_from i st l1) l2.
Proof.
  unfold scan_from. rewrite enumerate_app, fold_left_app. reflexivity.
Qed.

Lemma scan_eq (pages : list page) :
  scan pages = scan_from 1 (mk_state [] [] 1) pages.
Proof. reflexivity. Qed.

(** The scan only appends to its two lists. *)
Lemma scan_from_extends (pages : list page) :
  forall (i : Z) (st : scan_state),
  exists secs figs,
    sections (scan_from i st pages) = sections st ++ secs
    /\ figures (scan_from i st pages) = figures st ++ figs.
Proof.
  induction pages as [|p pages IH]; intros i st.
  - exists [], []. simpl. rewrite !app_nil_r. auto.
  - rewrite scan_from_cons.
    destruct (IH (i + 1) (scan_page st (i, p))) as (secs & figs & Hs & Hf).
    rewrite Hs, Hf, scan_page_eq. simpl. rewrite <- !app_assoc. eauto.
Qed.

Lemma scan_page_counter (st : scan_state) (i : Z) (p : page) :
  counter_ok st -> counter_ok (scan_page st (i, p)).
Proof.
  unfold counter_ok. intro H. rewrite scan_page_eq. simpl.
  rewrite len_app. unfold len at 3. rewrite new_sections_length.
  fold (len (page_headings p)). lia.
Qed.

Lemma scan_from_counter (pages : list page) :
  forall (i : Z) (st : scan_state),
    counter_ok st -> counter_ok (scan_from i st pages).
Proof.
  induction pages as [|p pages IH]; intros i st H; [exact H|].
  rewrite scan_from_cons. apply IH, scan_page_counter, H.
Qed.

Lemma scan_counter (pages : list page) : counter_ok (scan pages).
Proof. rewrite scan_eq. apply scan_from_counter. reflexivity. Qed.

(** The scan around the page at position [n]. *)
Lemma scan_split (l1 l2 : list page) (p : page) :
  scan (l1 ++ p :: l2) =
  scan_from (len l1 + 2) (scan_page (scan l1) (len l1 + 1, p)) l2.
Proof.
  rewrite !scan_eq, scan_from_app, scan_from_cons.
  replace (1 + len l1 + 1) with (len l1 + 2) by lia.
  replace (1 + len l1) with (len l1 + 1) by lia. reflexivity.
Qed.

Lemma scan_snoc (l1 : list page) (p : page) :
  scan (l1 ++ [p]) = scan_page (scan l1) (len l1 + 1, p).
Proof. rewrite scan_split. reflexivity. Qed.

Lemma nth_error_pages_split (pages : list page) (n : nat) (p : page) :
  nth_error pages n = Some p ->
  exists l2,
    pages = firstn n pages ++ p :: l2
    /\ firstn (S n) pages = firstn n pages ++ [p]
    /\ len (firstn n pages) = Z.of_nat n.
Proof.
  intro H. destruct (nth_error_split _ _ H) as (l1 & l2 & -> & <-).
  assert (E : firstn (List.length l1) (l1 ++ p :: l2) = l1).
  { rewrite firstn_app, firstn_all, Nat.sub_diag. apply app_nil_r. }
  exists l2. rewrite E. split; [reflexivity|]. split; [|reflexivity].
  rewrite firstn_app, firstn_all2 by lia.
  replace (S (List.length l1) - List.length l1)%nat with 1%nat by lia.
  reflexivity.
Qed.

End Loops.

Section Outline_facts.

Variable uni_decimal : char -> bool.
Variable uni_alnum : char -> bool.

Local Abbreviation is_heading := (is_heading uni_decimal).
Local Abbreviation is_figure := (is_figure uni_alnum).
Local Abbreviation scan_page := (scan_page uni_decimal uni_alnum).
Local Abbreviation scan_from := (scan_from uni_decimal uni_alnum).
Local Abbreviation scan := (scan uni_decimal uni_alnum).
Local Abbreviation parse_pages := (parse_pages uni_decimal uni_alnum).
Local Abbreviation page_headings := (page_headings uni_decimal).
Local Abbreviation page_captions := (page_captions uni_alnum).

Lemma parse_pages_sections (pages : list page) :
  fst (parse_pages pages) =
  if nonempty (sections (scan pages)) then sections (scan pages)
  else [overview pages].
Proof.
  unfold parse_pages. simpl.
  destruct (sections (scan pages)); reflexivity.
Qed.

Lemma parse_pages_figures (pages : list page) :
  snd (parse_pages pages) = figures (scan pages).
Proof. reflexivity. Qed.

(** The sections and figures of the page at the end of [l1 ++ [p]], inside
    the lists of the whole document. *)
Lemma outline_at_page (l1 l2 : list page) (p : page) :
  let i := len l1 + 1 in
  let st := scan l1 in
  let secs := new_sections i (len (sections st) + 1) (page_headings p) in
  let figs :=
    new_figures i (last_index (sections st ++ secs)) (len (figures st) + 1)
      (page_captions p) in
  sections (scan (l1 ++ [p])) = sections st ++ secs
  /\ figures (scan (l1 ++ [p])) = figures st ++ figs
  /\ exists secs' figs',
       sections (scan (l1 ++ p :: l2)) = (sections st ++ secs) ++ secs'
       /\ figures (scan (l1 ++ p :: l2)) = (figures st ++ figs) ++ figs'.
Proof.
  intros i st secs figs.
  assert (E : scan_page st (i, p) =
              mk_state (sections st ++ secs) (figures st ++ figs)
                (order_index st + len (page_headings p))).
  { rewrite scan_page_eq. subst secs figs. cbv zeta.
    rewrite (scan_counter uni_decimal uni_alnum l1 : order_index st = _).
    reflexivity. }
  rewrite scan_snoc, scan_split. fold st i. rewrite E. simpl.
  split; [reflexivity|]. split; [reflexivity|].
  destruct (scan_from_extends uni_decimal uni_alnum l2 (len l1 + 2)
              (mk_state (sections st ++ secs) (figures st ++ figs)
                 (order_index st + len (page_headings p))))
    as (secs' & figs' & Hs & Hf).
  exists secs', figs'. split; assumption.
Qed.

Lemma nth_error_middle {A} (l1 l2 l3 : list A) (j : nat) (x : A) :
  nth_error l2 j = Some x ->
  nth_error ((l1 ++ l2) ++ l3) (List.length l1 + j) = Some x.
Proof.
  intro H.
  assert (Hj : (j < List.length l2)%nat) by (apply nth_error_Some; congruence).
  rewrite nth_error_app1 by (rewrite length_app; lia).
  rewrite nth_error_app2 by lia.
  replace (List.length l1 + j - List.length l1)%nat with j by lia. exact H.
Qed.

Lemma nth_error_nonempty {A} (l : list A) (j : nat) (x : A) :
  nth_error l j = Some x -> nonempty l = true.
Proof. destruct l; [destruct j; discriminate | reflexivity]. Qed.

(** The section made for the heading at position [j] of the page at
    position [n]. *)
Lemma heading_section (pages : list page) (n : nat) (p : page) (j : nat)
    (h : str) :
  nth_error pages n = Some p ->
  nth_error (page_headings p) j = Some h ->
  let before := List.length (sections (scan (firstn n pages))) in
  nth_error (sections (scan pages)) (before + j) =
  Some (ParsedSection.mk h (txt "H1") (Some (Z.of_nat n + 1))
          (Some (Z.of_nat n + 1)) (Z.of_nat (before + j) + 1)).
Proof.
  intros Hn Hj before.
  destruct (nth_error_pages_split _ _ Hn) as (l2 & Hp & _ & Hl).
  destruct (outline_at_page (firstn n pages) l2 p)
    as (_ & _ & secs' & figs' & Hs & _).
  rewrite Hp at 1. rewrite Hs. subst before.
  erewrite nth_error_middle; [|apply nth_new_sections; exact Hj].
  rewrite Hl. do 2 f_equal. unfold len. lia.
Qed.

(** The figure made for the caption line at position [j] of the page at
    position [n]. *)
Lemma caption_figure (pages : list page) (n : nat) (p : page) (j : nat)
    (line : str) :
  nth_error pages n = Some p ->
  nth_error (page_captions p) j = Some line ->
  let before := List.length (figures (scan (firstn n pages))) in
  nth_error (figures (scan pages)) (before + j) =
  Some (ParsedFigure.mk
          (last_index (sections (scan (firstn (S n) pages))))
          (Some (Z.of_nat n + 1)) (Some (strip line))
          (Z.of_nat (before + j) + 1)).
Proof.
  intros Hn Hj before.
  destruct (nth_error_pages_split _ _ Hn) as (l2 & Hp & HS & Hl).
  destruct (outline_at_page (firstn n pages) l2 p)
    as (Hs1 & _ & secs' & figs' & _ & Hf).
  rewrite Hp at 1. rewrite Hf. subst before.
  erewrite nth_error_middle; [|apply nth_new_figures; exact Hj].
  rewrite HS, Hs1, Hl. do 2 f_equal. unfold len. lia.
Qed.

(** The sections seen after a prefix of the pages stay where they are. *)
Lemma sections_prefix (l1 l2 : list page) :
  exists secs, sections (scan (l1 ++ l2)) = sections (scan l1) ++ secs.
Proof.
  rewrite !scan_eq, scan_from_app.
  destruct (scan_from_extends uni_decimal uni_alnum l2 (1 + len l1)
              (scan_from 1 (mk_state [] [] 1) l1)) as (secs & _ & Hs & _).
  eauto.
Qed.

Lemma sections_firstn (pages : list page) (n : nat) :
  exists secs,
    sections (scan pages) = sections (scan (firstn n pages)) ++ secs.
Proof.
  destruct (sections_prefix (firstn n pages) (skipn n pages)) as [secs H].
  rewrite firstn_skipn in H. eauto.
Qed.

End Outline_facts.

(* ================================================================== *)
(** * Invariants of the scan *)
(* ================================================================== *)

Lemma In_new_figures (i : Z) (sec : option Z) (k : Z) (ls : list str)
    (f : ParsedFigure.t) :
  In f (new_figures i sec k ls) -> ParsedFigure.section_index f = sec.
Proof.
  revert k. induction ls as [|l ls IH]; intro k; simpl; [contradiction|].
  intros [<- | H]; [reflexivity | exact (IH _ H)].
Qed.

Lemma In_new_sections (i k : Z) (hs : list str) (s : ParsedSection.t) :
  In s (new_sections i k hs) ->
  ParsedSection.heading_level s = txt "H1"
  /\ In (ParsedSection.heading_text s) hs
  /\ ParsedSection.page_start s = Some i
  /\ ParsedSection.page_end s = Some i.
Proof.
  revert k. induction hs as [|h hs IH]; intro k; simpl; [contradiction|].
  intros [<- | H]; simpl; [auto|].
  destruct (IH _ H) as (? & ? & ? & ?). auto.
Qed.

Lemma order_new_sections (i : Z) (k : nat) (hs : list str) :
  map ParsedSection.order_index (new_sections i (Z.of_nat k) hs) =
  map Z.of_nat (seq k (List.length hs)).
Proof.
  revert k. induction hs as [|h hs IH]; intro k; simpl; [reflexivity|].
  f_equal. rewrite <- IH. do 2 f_equal. lia.
Qed.

Lemma order_new_figures (i : Z) (sec : option Z) (k : nat) (ls : list str) :
  map ParsedFigure.order_index (new_figures i sec (Z.of_nat k) ls) =
  map Z.of_nat (seq k (List.length ls)).
Proof.
  revert k. induction ls as [|l ls IH]; intro k; simpl; [reflexivity|].
  f_equal. rewrite <- IH. do 2 f_equal. lia.
Qed.

Lemma one_to_app (n m : nat) :
  one_to (n + m) = one_to n ++ map Z.of_nat (seq (1 + n) m).
Proof. unfold one_to. rewrite seq_app, map_app. reflexivity. Qed.

Lemma sans_page_new_sections (i i' k : Z) (hs : list str) :
  map section_sans_page (new_sections i k hs) =
  map section_sans_page (new_sections i' k hs).
Proof.
  revert k. induction hs as [|h hs IH]; intro k; simpl; [reflexivity|].
  rewrite IH. reflexivity.
Qed.

Lemma sans_page_new_figures (i i' : Z) (sec : option Z) (k : Z)
    (ls : list str) :
  map figure_sans_page (new_figures i sec k ls) =
  map figure_sans_page (new_figures i' sec k ls).
Proof.
  revert k. induction ls as [|l ls IH]; intro k; simpl; [reflexivity|].
  rewrite IH. reflexivity.
Qed.

Section Invariants.

Variable uni_decimal : char -> bool.
Variable uni_alnum : char -> bool.

Local Abbreviation scan_page := (scan_page uni_decimal uni_alnum).
Local Abbreviation scan_from := (scan_from uni_decimal uni_alnum).
Local Abbreviation scan := (scan uni_decimal uni_alnum).
Local Abbreviation parse_pages := (parse_pages uni_decimal uni_alnum).
Local Abbreviation page_headings := (page_headings uni_decimal).
Local Abbreviation page_captions := (page_captions uni_alnum).

(** An invariant of the loop body holds of the final state. *)
Lemma scan_from_invariant (P : scan_state -> Prop) :
  (forall st i p, P st -> P (scan_page st (i, p))) ->
  forall pages i st, P st -> P (scan_from i st pages).
Proof.
  intros Hstep pages. induction pages as [|p pages IH]; intros i st H.
  - exact H.
  - rewrite scan_from_cons. apply IH, Hstep, H.
Qed.

Lemma scan_page_numbered (st : scan_state) (i : Z) (p : page) :
  numbered st -> numbered (scan_page st (i, p)).
Proof.
  intros (Hc & Hs & Hf). split; [apply scan_page_counter; exact Hc|].
  rewrite scan_page_eq. cbv zeta. simpl.
  rewrite !map_app, !length_app, !one_to_app, Hs, Hf.
  rewrite new_sections_length, new_figures_length. split; f_equal.
  - rewrite Hc.
    replace (len (sections st) + 1)
      with (Z.of_nat (1 + List.length (sections st)))
      by (unfold len; lia).
    apply order_new_sections.
  - replace (len (figures st) + 1)
      with (Z.of_nat (1 + List.length (figures st)))
      by (unfold len; lia).
    apply order_new_figures.
Qed.

Lemma scan_numbered (pages : list page) : numbered (scan pages).
Proof.
  rewrite scan_eq. apply scan_from_invariant.
  - intros; apply scan_page_numbered; assumption.
  - repeat split.
Qed.

Lemma scan_page_references (st : scan_state) (i : Z) (p : page) :
  references_ok st -> references_ok (scan_page st (i, p)).
Proof.
  intros H f k. rewrite scan_page_eq. cbv zeta. simpl.
  rewrite len_app. intros Hin Hk. apply in_app_or in Hin as [Hin | Hin].
  - specialize (H f k Hin Hk).
    pose proof (len_nonneg (new_sections i (order_index st) (page_headings p))).
    lia.
  - apply In_new_figures in Hin. rewrite Hin in Hk. unfold last_index in Hk.
    rewrite nonempty_len, len_app in Hk.
    destruct (0 <? _) eqn:E; [|discriminate].
    apply Z.ltb_lt in E. injection Hk as <-. lia.
Qed.

Lemma scan_references (pages : list page) : references_ok (scan pages).
Proof.
  rewrite scan_eq. apply scan_from_invariant.
  - intros; apply scan_page_references; assumption.
  - intros f i [].
Qed.

Lemma scan_page_unattached (st : scan_state) (i : Z) (p : page) :
  page_headings p = [] -> unattached st -> unattached (scan_page st (i, p)).
Proof.
  intros Hp [Hs Hf]. rewrite scan_page_eq. cbv zeta. simpl.
  rewrite Hp, Hs. simpl. split; [reflexivity|].
  intros f Hin. apply in_app_or in Hin as [Hin | Hin]; [auto|].
  apply In_new_figures in Hin. exact Hin.
Qed.

Lemma scan_from_unattached (pages : list page) :
  (forall p, In p pages -> page_headings p = []) ->
  forall i st, unattached st -> unattached (scan_from i st pages).
Proof.
  induction pages as [|p pages IH]; intros Hp i st H; [exact H|].
  rewrite scan_from_cons. apply IH.
  - intros q Hq. apply Hp. right. exact Hq.
  - apply scan_page_unattached; [apply Hp; left; reflexivity | exact H].
Qed.

Lemma map_eq_len {A B} (f : A -> B) (l l' : list A) :
  map f l = map f l' -> len l = len l'.
Proof.
  intro H. unfold len. f_equal.
  rewrite <- (length_map f l), <- (length_map f l'), H. reflexivity.
Qed.

Lemma scan_page_sans_page (st st' : scan_state) (i i' : Z) (p : page) :
  same_sans_page st st' ->
  same_sans_page (scan_page st (i, p)) (scan_page st' (i', p)).
Proof.
  intros (Hs & Hf & Ho). rewrite !scan_page_eq. cbv zeta.
  unfold same_sans_page. simpl. rewrite !map_app, Hs, Hf, Ho.
  split; [|split].
  - f_equal. apply sans_page_new_sections.
  - f_equal. rewrite (map_eq_len _ _ _ Hf).
    replace (last_index (sections st ++ _))
      with (last_index
              (sections st' ++
               new_sections i' (order_index st') (page_headings p))).
    + apply sans_page_new_figures.
    + unfold last_index. rewrite !nonempty_len, !len_app.
      rewrite (map_eq_len _ _ _ Hs). unfold len.
      rewrite !new_sections_length. reflexivity.
  - reflexivity.
Qed.

Lemma scan_from_sans_page (pages : list page) :
  forall st st' i i',
    same_sans_page st st' ->
    same_sans_page (scan_from i st pages) (scan_from i' st' pages).
Proof.
  induction pages as [|p pages IH]; intros st st' i i' H; [exact H|].
  rewrite !scan_from_cons. apply IH, scan_page_sans_page, H.
Qed.

(** A blank page has no lines. *)
Lemma blank_page_lines (p : page) :
  blank_page p -> page_lines (text_or_empty p) = [].
Proof.
  unfold blank_page, page_lines. intro H.
  induction (splitlines (text_or_empty p)) as [|l ls IH]; [reflexivity|].
  simpl. rewrite (H l (or_introl eq_refl)). simpl.
  apply IH. intros line Hin. apply H. right. exact Hin.
Qed.

Lemma scan_page_blank (st : scan_state) (i : Z) (p : page) :
  blank_page p -> scan_page st (i, p) = st.
Proof.
  intro H. rewrite scan_page_eq. cbv zeta.
  unfold page_headings, page_captions.
  rewrite (blank_page_lines H). simpl.
  rewrite !app_nil_r, Z.add_0_r. destruct st; reflexivity.
Qed.

End Invariants.

(* ================================================================== *)
(** * The assembler loops *)
(* ================================================================== *)

Lemma build_section_models_eq (d : option Z) (secs : list ParsedSection.t) :
  build_section_models d secs = map (section_row d) secs.
Proof.
  unfold build_section_models.
  assert (H : forall acc,
             fold_left
               (fun section_models parsed =>
                  section_models ++
                  [Section_.mk None d
                     (ParsedSection.heading_text parsed)
                     (ParsedSection.heading_level parsed)
                     (ParsedSection.page_start parsed)
                     (ParsedSection.page_end parsed)
                     (ParsedSection.order_index parsed)])
               secs acc
             = acc ++ map (section_row d) secs).
  { induction secs as [|s secs IH]; intro acc; simpl.
    - rewrite app_nil_r. reflexivity.
    - rewrite IH, <- app_assoc. reflexivity. }
  apply H.
Qed.

Lemma assign_ids_length {A} (id : A -> option Z) (with_id : Z -> A -> A)
    (k : Z) (rows : list A) :
  List.length (assign_ids id with_id k rows) = List.length rows.
Proof.
  revert k. induction rows as [|r rows IH]; intro k; simpl; [reflexivity|].
  destruct (id r); simpl; rewrite IH; reflexivity.
Qed.

Lemma assign_ids_app {A} (id : A -> option Z) (with_id : Z -> A -> A)
    (k : Z) (l1 l2 : list A) :
  exists k',
    assign_ids id with_id k (l1 ++ l2) =
    assign_ids id with_id k l1 ++ assign_ids id with_id k' l2.
Proof.
  revert k. induction l1 as [|r l1 IH]; intro k; simpl.
  - exists k. reflexivity.
  - destruct (id r).
    + destruct (IH k) as [k' E]. exists k'. rewrite E. reflexivity.
    + destruct (IH (k + 1)) as [k' E]. exists k'. rewrite E. reflexivity.
Qed.

Lemma flushed_section_rows_length (d : option Z) (k : Z)
    (secs : list ParsedSection.t) :
  List.length (flushed_section_rows d k secs) = List.length secs.
Proof.
  unfold flushed_section_rows.
  rewrite assign_ids_length, build_section_models_eq, length_map. reflexivity.
Qed.

Lemma flushed_section_rows_nth (d : option Z) (secs : list ParsedSection.t) :
  forall (k : Z) (j : nat) (s : ParsedSection.t),
    nth_error secs j = Some s ->
    nth_error (flushed_section_rows d k secs) j =
    Some (Section_.with_id (k + Z.of_nat j) (section_row d s)).
Proof.
  unfold flushed_section_rows. rewrite build_section_models_eq.
  induction secs as [|s0 secs IH]; intros k [|j] s H; simpl in *;
    try discriminate.
  - injection H as ->. rewrite Z.add_0_r. reflexivity.
  - rewrite (IH (k + 1) j s H). do 2 f_equal. lia.
Qed.

Lemma lastn_app {A} (l1 l2 : list A) : lastn (List.length l2) (l1 ++ l2) = l2.
Proof.
  unfold lastn. rewrite length_app.
  replace (List.length l1 + List.length l2 - List.length l2)%nat
    with (List.length l1 + 0)%nat by lia.
  rewrite skipn_app, skipn_all2 by lia.
  replace (List.length l1 + 0 - List.length l1)%nat with 0%nat by lia.
  reflexivity.
Qed.

(** The rows the handler holds after adding and flushing its sections. *)
Lemma add_all_sections_and_flush_rows (d : option Z)
    (secs : list ParsedSection.t) (w : World) :
  exists k,
    fst (add_all_sections_and_flush (build_section_models d secs) w) =
    Ok (flushed_section_rows d k secs).
Proof.
  unfold add_all_sections_and_flush, flush, add_all_sections, flush_table.
  simpl.
  destruct (assign_ids_app Section_.id Section_.with_id
              (next_id
                 (map Section_.id
                    (Tables.sections (committed (db w)) ++
                     Tables.sections (pending (db w)) ++
                     build_section_models d secs)))
              (Tables.sections (pending (db w)))
              (build_section_models d secs)) as [k E].
  exists k. rewrite E.
  rewrite <- (assign_ids_length Section_.id Section_.with_id k
                (build_section_models d secs)).
  rewrite lastn_app. reflexivity.
Qed.

Lemma getitem_in_range {A} (l : list A) (i : Z) :
  0 <= i < len l ->
  exists x, nth_error l (Z.to_nat i) = Some x /\ getitem l i = Ok x.
Proof.
  intros [H0 H1]. unfold getitem.
  destruct (i <? 0) eqn:E; [apply Z.ltb_lt in E; lia|]. rewrite E.
  destruct (nth_error l (Z.to_nat i)) as [x|] eqn:En.
  - eauto.
  - apply nth_error_None in En. unfold len in H1. lia.
Qed.

Lemma resolve_in_range (section_models : list Section_.t)
    (f : ParsedFigure.t) (i : Z) :
  ParsedFigure.section_index f = Some i ->
  0 <= i < len section_models ->
  exists m,
    nth_error section_models (Z.to_nat i) = Some m
    /\ resolve_section_id section_models f = Ok (Section_.id m).
Proof.
  intros Hi Hr. unfold resolve_section_id. rewrite Hi.
  destruct (getitem_in_range section_models Hr) as (m & Hm & Hg).
  rewrite Hg. destruct (i <? len section_models) eqn:E.
  - eauto.
  - apply Z.ltb_ge in E. lia.
Qed.

(** A reference into the flushed section rows resolves to the identifier
    of the row at that index, which is the row of the section there. *)
Lemma resolve_flushed (d : option Z) (k : Z) (secs : list ParsedSection.t)
    (f : ParsedFigure.t) (i : Z) (s : ParsedSection.t) :
  ParsedFigure.section_index f = Some i ->
  0 <= i < len secs ->
  nth_error secs (Z.to_nat i) = Some s ->
  nth_error (flushed_section_rows d k secs) (Z.to_nat i) =
  Some (Section_.mk (Some (k + i)) d
          (ParsedSection.heading_text s) (ParsedSection.heading_level s)
          (ParsedSection.page_start s) (ParsedSection.page_end s)
          (ParsedSection.order_index s))
  /\ resolve_section_id (flushed_section_rows d k secs) f = Ok (Some (k + i)).
Proof.
  intros Hi Hr Hs.
  assert (Hrow : nth_error (flushed_section_rows d k secs) (Z.to_nat i) =
                 Some (Section_.mk (Some (k + i)) d
                         (ParsedSection.heading_text s)
                         (ParsedSection.heading_level s)
                         (ParsedSection.page_start s)
                         (ParsedSection.page_end s)
                         (ParsedSection.order_index s))).
  { rewrite (flushed_section_rows_nth d secs k _ Hs).
    rewrite Z2Nat.id by lia. reflexivity. }
  split; [exact Hrow|].
  destruct (resolve_in_range (flushed_section_rows d k secs) f Hi)
    as (m & Hm & Hres).
  { unfold len. rewrite flushed_section_rows_length. exact Hr. }
  rewrite Hres. rewrite Hrow in Hm. injection Hm as <-. reflexivity.
Qed.

Lemma resolve_unset (section_models : list Section_.t) (f : ParsedFigure.t) :
  ParsedFigure.section_index f = None ->
  resolve_section_id section_models f = Ok None.
Proof. intro H. unfold resolve_section_id. rewrite H. reflexivity. Qed.

(** When every reference resolves, the figure loop returns one row per
    figure. *)
Lemma build_figure_models_eq (d : option Z) (section_models : list Section_.t)
    (sid : ParsedFigure.t -> option Z) (figs : list ParsedFigure.t) :
  (forall f, In f figs -> resolve_section_id section_models f = Ok (sid f)) ->
  build_figure_models d section_models figs =
  Ok (map (fun f => figure_row d (sid f) f) figs).
Proof.
  unfold build_figure_models.
  assert (H : forall acc,
             (forall f, In f figs ->
                        resolve_section_id section_models f = Ok (sid f)) ->
             fold_left
               (fun acc parsed =>
                  match acc with
                  | Raise e => Raise e
                  | Ok figure_models =>
                      match resolve_section_id section_models parsed with
                      | Raise e => Raise e
                      | Ok section_id =>
                          Ok (figure_models ++
                              [Figure.mk None d section_id
                                 (ParsedFigure.page_number parsed)
                                 (ParsedFigure.caption_text parsed)
                                 None
                                 (ParsedFigure.order_index parsed)])
                      end
                  end)
               figs (Ok acc)
             = Ok (acc ++ map (fun f => figure_row d (sid f) f) figs)).
  { induction figs as [|f figs IH]; intros acc Hall; simpl.
    - rewrite app_nil_r. reflexivity.
    - rewrite (Hall f (or_introl eq_refl)).
      rewrite IH by (intros g Hg; apply Hall; right; exact Hg).
      rewrite <- app_assoc. reflexivity. }
  intro Hall. apply (H [] Hall).
Qed.

(* ================================================================== *)
(** * The upload handler up to the extraction *)
(* ================================================================== *)

Lemma str_eqb_refl (s : str) : str_eqb s s = true.
Proof.
  induction s as [|c s IH]; simpl; [reflexivity|].
  rewrite N.eqb_refl. exact IH.
Qed.

Lemma str_eqb_eq (a b : str) : str_eqb a b = true -> a = b.
Proof.
  revert b. induction a as [|x a IH]; intros [|y b]; simpl; intro H;
    try discriminate; [reflexivity|].
  apply andb_true_iff in H as [Hx Hab].
  apply N.eqb_eq in Hx as ->. rewrite (IH _ Hab). reflexivity.
Qed.

Lemma read_write_same (fs : files) (path : str) (bytes : list Byte.byte) :
  read_file (write_file fs path bytes) path = Some bytes.
Proof. unfold write_file. simpl. rewrite str_eqb_refl. reflexivity. Qed.

(** Once the upload has been written and copied, the temporary file still
    holds the uploaded bytes. *)
Lemma read_temp_after_copy (fs : files) (temp dest : str)
    (bytes : list Byte.byte) :
  read_file (write_file (write_file fs temp bytes) dest bytes) temp
  = Some bytes.
Proof.
  unfold write_file. simpl. rewrite str_eqb_refl.
  destruct (str_eqb dest temp); reflexivity.
Qed.

(* ================================================================== *)
(** * Where the outline comes from and where it ends up *)
(* ================================================================== *)

Lemma new_sections_last (i k : Z) (hs : list str) :
  hs <> [] ->
  exists front k',
    new_sections i k hs =
    front ++ [ParsedSection.mk (last hs []) (txt "H1") (Some i) (Some i) k'].
Proof.
  intro Hne. destruct (exists_last Hne) as (start & h & ->).
  rewrite last_last, new_sections_app. simpl. eauto.
Qed.

Lemma map_through {A B C} (f : A -> B) (g : B -> C) (l l' : list A) :
  map f l = map f l' -> map (fun x => g (f x)) l = map (fun x => g (f x)) l'.
Proof. intro H. rewrite <- !(map_map f g), H. reflexivity. Qed.

Section Outline_ends.

Variable uni_decimal : char -> bool.
Variable uni_alnum : char -> bool.

Local Abbreviation scan := (scan uni_decimal uni_alnum).
Local Abbreviation parse_pages := (parse_pages uni_decimal uni_alnum).

(** The last of the sections seen after [n] pages, in the final list. *)
Lemma last_seen (pages : list page) (n : nat) (front : list ParsedSection.t)
    (recent : ParsedSection.t) :
  sections (scan (firstn n pages)) = front ++ [recent] ->
  let i := len (sections (scan (firstn n pages))) - 1 in
  last_index (sections (scan (firstn n pages))) = Some i
  /\ 0 <= i < len (fst (parse_pages pages))
  /\ nth_error (fst (parse_pages pages)) (Z.to_nat i) = Some recent.
Proof.
  intros E i.
  destruct (sections_firstn uni_decimal uni_alnum pages n) as [secs Hs].
  assert (Hi : Z.to_nat i = List.length front).
  { subst i. rewrite E. unfold len. rewrite length_app. simpl. lia. }
  assert (Hfst : fst (parse_pages pages) = (front ++ [recent]) ++ secs).
  { rewrite parse_pages_sections, Hs, E. destruct front; reflexivity. }
  split; [|split].
  - unfold last_index. subst i. rewrite E. destruct front; reflexivity.
  - rewrite Hfst. subst i. rewrite E, !len_app.
    pose proof (len_nonneg front). pose proof (len_nonneg secs).
    change (len [recent]) with 1. lia.
  - rewrite Hfst, Hi, <- app_assoc, nth_error_app2, Nat.sub_diag by lia.
    reflexivity.
Qed.

(** Every section of the scan was made for a heading of some page. *)
Lemma section_origin (pages : list page) (s : ParsedSection.t) :
  In s (sections (scan pages)) ->
  exists m q,
    nth_error pages m = Some q
    /\ In (ParsedSection.heading_text s) (page_headings uni_decimal q)
    /\ ParsedSection.heading_level s = txt "H1"
    /\ ParsedSection.page_start s = Some (Z.of_nat m + 1)
    /\ ParsedSection.page_end s = Some (Z.of_nat m + 1).
Proof.
  induction pages as [|p pages IH] using rev_ind; [intros []|].
  destruct (outline_at_page uni_decimal uni_alnum pages [] p) as (Hs & _).
  rewrite Hs. intro Hin. apply in_app_or in Hin as [Hin | Hin].
  - destruct (IH Hin) as (m & q & Hm & Hrest).
    exists m, q. split; [|exact Hrest].
    rewrite nth_error_app1; [exact Hm|].
    apply nth_error_Some. congruence.
  - apply In_new_sections in Hin as (Hl & Hh & Hps & Hpe).
    exists (List.length pages), p.
    rewrite nth_error_app2, Nat.sub_diag by lia.
    unfold len in Hps, Hpe. auto.
Qed.

End Outline_ends.

(* ================================================================== *)
(** * The claims of the specification *)
(* ================================================================== *)

Unset Implicit Arguments.

Section Claims.

Variable uni_decimal : char -> bool.
Variable uni_alnum : char -> bool.

Local Abbreviation is_heading := (is_heading uni_decimal).
Local Abbreviation is_figure := (is_figure uni_alnum).
Local Abbreviation scan_page := (scan_page uni_decimal uni_alnum).
Local Abbreviation scan := (scan uni_decimal uni_alnum).
Local Abbreviation parse_pages := (parse_pages uni_decimal uni_alnum).
Local Abbreviation page_headings := (page_headings uni_decimal).
Local Abbreviation page_captions := (page_captions uni_alnum).

(** On the outline of a document the figure loop never fails: every
    reference that is set resolves to an identifier. *)
Lemma figure_models_built (pages : list page) (d : option Z) (k : Z) :
  build_figure_models d
    (flushed_section_rows d k (fst (parse_pages pages)))
    (snd (parse_pages pages))
  = Ok (map
          (fun f =>
             figure_row d
               (option_map (Z.add k) (ParsedFigure.section_index f)) f)
          (snd (parse_pages pages))).
Proof.
  apply build_figure_models_eq. intros f Hin.
  destruct (ParsedFigure.section_index f) as [i|] eqn:Hi.
  - pose proof (scan_references uni_decimal uni_alnum pages f Hin Hi) as Hr.
    assert (Hfst : fst (parse_pages pages) = sections (scan pages)).
    { rewrite parse_pages_sections, nonempty_len.
      destruct (0 <? len (sections (scan pages))) eqn:E; [reflexivity|].
      apply Z.ltb_ge in E. lia. }
    rewrite Hfst.
    destruct (nth_error (sections (scan pages)) (Z.to_nat i)) as [s|] eqn:Es.
    + exact (proj2 (@resolve_flushed d k _ f i s Hi Hr Es)).
    + apply nth_error_None in Es. unfold len in Hr. lia.
  - apply resolve_unset. exact Hi.
Qed.

(** C1 (the code departs from the claim).  The line "see fig. 4" holds the
    token "fig." in lower case, yet the figure rule does not match it and
    a page made of this line yields no figure: after the dot the pattern
    asks for a word boundary, and between a dot and a space there is
    none. *)
Theorem fig_dot_before_space_not_detected :
  is_figure (txt "see fig. 4") = false
  /\ snd (parse_pages [Some (txt "see fig. 4")]) = [].
Proof. split; vm_compute; reflexivity. Qed.

(** C2.  A line of the text of a page is classified as a heading exactly
    when its trimmed content is a dot-separated numeric label, whitespace
    and a non-empty rest.  A line so classified gives a section on its page
    whose heading text is the whole trimmed line; a line not so classified
    is not among the headings of the page; and every section of the output
    has the level "H1". *)
Theorem heading_rule (pages : list page) (n : nat) (p : page) (line : str) :
  nth_error pages n = Some p ->
  In line (splitlines (text_or_empty p)) ->
  (is_heading line = true <-> spec_heading uni_decimal (strip line))
  /\ (is_heading line = true ->
      exists s,
        In s (fst (parse_pages pages))
        /\ ParsedSection.heading_text s = strip line
        /\ ParsedSection.heading_level s = txt "H1"
        /\ ParsedSection.page_start s = Some (Z.of_nat n + 1))
  /\ (is_heading line = false -> ~ In (strip line) (page_headings p))
  /\ (forall s,
        In s (fst (parse_pages pages)) ->
        ParsedSection.heading_level s = txt "H1").
Proof.
  intros Hn Hline.
  split; [exact (is_heading_spec uni_decimal line
                   (splitlines_no_LF _ _ Hline))|].
  split; [|split].
  - intro Hh.
    assert (Hin : In (strip line) (page_headings p)).
    { unfold page_headings, page_lines. rewrite detect_sections_eq.
      apply in_map, filter_In. split; [|exact Hh].
      apply filter_In. split; [exact Hline|].
      exact (is_heading_nonblank uni_decimal line Hh). }
    apply In_nth_error in Hin as [j Hj].
    pose proof (heading_section uni_decimal uni_alnum pages n j Hn Hj) as Hs.
    cbv zeta in Hs.
    eexists. rewrite parse_pages_sections.
    rewrite (nth_error_nonempty _ _ Hs).
    split; [exact (nth_error_In _ _ Hs)|]. simpl. auto.
  - intros Hh Hin. unfold page_headings in Hin.
    rewrite detect_sections_eq in Hin.
    apply in_map_iff in Hin as (l' & El & Hl').
    apply filter_In in Hl' as [_ Hl'].
    unfold is_heading in Hl', Hh. rewrite El in Hl'. congruence.
  - intros s Hs. rewrite parse_pages_sections in Hs.
    destruct (nonempty (sections (scan pages))).
    + apply (section_origin uni_decimal uni_alnum) in Hs
        as (m & q & _ & _ & Hlevel & _). exact Hlevel.
    + destruct Hs as [<- | []]. reflexivity.
Qed.

(** C3.  When no page has a heading, the output holds exactly one section,
    the overview placeholder on pages 1 to the page count with order index
    1; no figure refers to a section, and the figure rows built from them
    have no section either. *)
Theorem no_headings_fallback (pages : list page) :
  (forall p, In p pages -> page_headings p = []) ->
  fst (parse_pages pages) =
  [ParsedSection.mk (txt "Document Overview") (txt "H1") (Some 1)
     (Some (len pages)) 1]
  /\ (forall f,
        In f (snd (parse_pages pages)) ->
        ParsedFigure.section_index f = None)
  /\ (forall d section_models,
        exists figure_models,
          build_figure_models d section_models (snd (parse_pages pages))
          = Ok figure_models
          /\ List.length figure_models
             = List.length (snd (parse_pages pages))
          /\ forall r, In r figure_models -> Figure.section_id r = None).
Proof.
  intro Hp.
  assert (H0 : unattached (mk_state [] [] 1)).
  { split; [reflexivity | intros f []]. }
  destruct (scan_from_unattached uni_decimal uni_alnum pages Hp 1 H0)
    as [Hs Hf].
  rewrite <- scan_eq in Hs, Hf.
  split; [|split].
  - rewrite parse_pages_sections, Hs. reflexivity.
  - exact Hf.
  - intros d section_models. eexists. split; [|split].
    + apply (build_figure_models_eq d section_models (fun _ => None)).
      intros f Hin. apply resolve_unset, Hf, Hin.
    + apply length_map.
    + intros r Hr. apply in_map_iff in Hr as (f & <- & _). reflexivity.
Qed.

(** C4.  The figure made for a caption line refers to the last of the
    sections detected when the line is met, that is once the headings of
    its own page have been added; with no section detected by then it
    refers to none.  In the upload, the loop that builds the figure rows
    from the flushed section rows gives the row of this figure, at the
    same position, the identifier that the flush gave to the row of that
    section, or no section when none was detected. *)
Theorem figure_section_association (pages : list page) (n : nat) (p : page)
    (j : nat) (line : str) :
  nth_error pages n = Some p ->
  nth_error (page_captions p) j = Some line ->
  let seen := sections (scan (firstn (S n) pages)) in
  let before := List.length (figures (scan (firstn n pages))) in
  exists f,
    nth_error (snd (parse_pages pages)) (before + j) = Some f
    /\ ParsedFigure.caption_text f = Some (strip line)
    /\ ParsedFigure.page_number f = Some (Z.of_nat n + 1)
    /\ match rev seen with
       | [] =>
           ParsedFigure.section_index f = None
           /\ (forall section_models,
                 resolve_section_id section_models f = Ok None)
           /\ forall d w,
                exists section_models figure_models,
                  fst (add_all_sections_and_flush
                         (build_section_models d (fst (parse_pages pages))) w)
                  = Ok section_models
                  /\ build_figure_models d section_models
                       (snd (parse_pages pages))
                     = Ok figure_models
                  /\ nth_error figure_models (before + j) =
                     Some (Figure.mk None d None (Some (Z.of_nat n + 1))
                             (Some (strip line)) None
                             (Z.of_nat (before + j) + 1))
       | recent :: _ =>
           let i := len seen - 1 in
           ParsedFigure.section_index f = Some i
           /\ nth_error (fst (parse_pages pages)) (Z.to_nat i) = Some recent
           /\ forall d w,
                exists section_models k,
                  fst (add_all_sections_and_flush
                         (build_section_models d (fst (parse_pages pages))) w)
                  = Ok section_models
                  /\ nth_error section_models (Z.to_nat i) =
                     Some (Section_.mk (Some k) d
                             (ParsedSection.heading_text recent)
                             (ParsedSection.heading_level recent)
                             (ParsedSection.page_start recent)
                             (ParsedSection.page_end recent)
                             (ParsedSection.order_index recent))
                  /\ resolve_section_id section_models f = Ok (Some k)
                  /\ exists figure_models,
                       build_figure_models d section_models
                         (snd (parse_pages pages))
                       = Ok figure_models
                       /\ nth_error figure_models (before + j) =
                          Some (Figure.mk None d (Some k)
                                  (Some (Z.of_nat n + 1))
                                  (Some (strip line)) None
                                  (Z.of_nat (before + j) + 1))
       end.
Proof.
  intros Hn Hj seen before.
  pose proof (caption_figure uni_decimal uni_alnum pages n j Hn Hj) as Hf.
  cbv zeta in Hf. fold before seen in Hf.
  eexists. split; [exact Hf|].
  split; [reflexivity|]. split; [reflexivity|].
  cbn [ParsedFigure.section_index].
  destruct (rev seen) as [|recent front] eqn:E.
  - assert (Hs : seen = []).
    { rewrite <- (rev_involutive seen), E. reflexivity. }
    assert (Hnone : last_index seen = None) by (rewrite Hs; reflexivity).
    split; [exact Hnone|]. split.
    { intro section_models. apply resolve_unset. exact Hnone. }
    intros d w.
    destruct (add_all_sections_and_flush_rows d (fst (parse_pages pages)) w)
      as [k Hrows].
    exists (flushed_section_rows d k (fst (parse_pages pages))).
    eexists. split; [exact Hrows|].
    split; [exact (figure_models_built pages d k)|].
    refine (eq_trans (map_nth_error _ _ _ Hf) _).
    unfold figure_row.
    cbn [ParsedFigure.section_index ParsedFigure.page_number
         ParsedFigure.caption_text ParsedFigure.order_index].
    rewrite Hnone. reflexivity.
  - assert (Hs : seen = rev front ++ [recent]).
    { rewrite <- (rev_involutive seen), E. reflexivity. }
    destruct (last_seen uni_decimal uni_alnum pages (S n) (rev front) recent Hs)
      as (Hlast & Hrange & Hnth).
    fold seen in Hlast, Hrange, Hnth.
    set (i := len seen - 1) in *.
    split; [exact Hlast|]. split; [exact Hnth|].
    intros d w.
    destruct (add_all_sections_and_flush_rows d (fst (parse_pages pages)) w)
      as [k Hrows].
    exists (flushed_section_rows d k (fst (parse_pages pages))), (k + i).
    split; [exact Hrows|].
    destruct (@resolve_flushed d k (fst (parse_pages pages))
                (ParsedFigure.mk (last_index seen) (Some (Z.of_nat n + 1))
                   (Some (strip line)) (Z.of_nat (before + j) + 1))
                i recent Hlast Hrange Hnth) as [Hrow Hres].
    split; [exact Hrow|]. split; [exact Hres|].
    eexists. split; [exact (figure_models_built pages d k)|].
    refine (eq_trans (map_nth_error _ _ _ Hf) _).
    unfold figure_row.
    cbn [ParsedFigure.section_index ParsedFigure.page_number
         ParsedFigure.caption_text ParsedFigure.order_index].
    rewrite Hlast. reflexivity.
Qed.

(** C5.  The heading at position [j] among the headings of the page at
    position [n] gives the section that follows those of the earlier pages
    by [j] places; its first and last page are both the 1-based number of
    that page and its order index is its 1-based position in the whole
    list. *)
Theorem heading_section_position (pages : list page) (n : nat) (p : page)
    (j : nat) (h : str) :
  nth_error pages n = Some p ->
  nth_error (page_headings p) j = Some h ->
  let before := List.length (sections (scan (firstn n pages))) in
  nth_error (fst (parse_pages pages)) (before + j) =
  Some (ParsedSection.mk h (txt "H1") (Some (Z.of_nat n + 1))
          (Some (Z.of_nat n + 1)) (Z.of_nat (before + j) + 1)).
Proof.
  intros Hn Hj before.
  pose proof (heading_section uni_decimal uni_alnum pages n j Hn Hj) as Hs.
  cbv zeta in Hs. fold before in Hs.
  rewrite parse_pages_sections, (nth_error_nonempty _ _ Hs). exact Hs.
Qed.

(** C6.  In the output the order indices of the sections are 1, 2, ... up
    to their number, and so are, on their own, those of the figures. *)
Theorem order_index_sequences (pages : list page) :
  map ParsedSection.order_index (fst (parse_pages pages))
  = one_to (List.length (fst (parse_pages pages)))
  /\ map ParsedFigure.order_index (snd (parse_pages pages))
     = one_to (List.length (snd (parse_pages pages))).
Proof.
  destruct (scan_numbered uni_decimal uni_alnum pages) as (_ & Hs & Hf).
  split; [|exact Hf].
  rewrite parse_pages_sections.
  destruct (nonempty (sections (scan pages))); [exact Hs | reflexivity].
Qed.

(** C8.  A page whose lines are all blank leaves the state of the scan as
    it was, so it adds no section and no figure; and with or without such
    a page the output has the same order indices, heading texts, captions
    and section references.  The scan is a total function: no text makes
    it fail. *)
Theorem blank_page_contributes_nothing (b : page)
    (before after : list page) :
  blank_page b ->
  (forall st i, scan_page st (i, b) = st)
  /\ let with_blank := parse_pages (before ++ b :: after) in
     let without := parse_pages (before ++ after) in
     map ParsedSection.order_index (fst with_blank)
     = map ParsedSection.order_index (fst without)
     /\ map ParsedSection.heading_text (fst with_blank)
        = map ParsedSection.heading_text (fst without)
     /\ map ParsedFigure.order_index (snd with_blank)
        = map ParsedFigure.order_index (snd without)
     /\ map ParsedFigure.caption_text (snd with_blank)
        = map ParsedFigure.caption_text (snd without)
     /\ map ParsedFigure.section_index (snd with_blank)
        = map ParsedFigure.section_index (snd without).
Proof.
  intro Hb.
  split; [intros st i; apply scan_page_blank; exact Hb|].
  intros with_blank without.
  assert (Hsame : same_sans_page (scan (before ++ b :: after))
                    (scan (before ++ after))).
  { rewrite scan_split, scan_page_blank by exact Hb.
    rewrite (scan_eq uni_decimal uni_alnum (before ++ after)), scan_from_app.
    rewrite <- scan_eq. apply scan_from_sans_page.
    split; [|split]; reflexivity. }
  destruct Hsame as (Hs & Hf & _).
  assert (Hs' : map section_sans_page (fst with_blank)
                = map section_sans_page (fst without)).
  { unfold with_blank, without. rewrite !parse_pages_sections.
    rewrite !nonempty_len, (map_eq_len _ _ _ Hs).
    destruct (0 <? len (sections (scan (before ++ after))));
      [exact Hs | reflexivity]. }
  change (snd with_blank) with (figures (scan (before ++ b :: after))).
  change (snd without) with (figures (scan (before ++ after))).
  split; [|split; [|split; [|split]]].
  - exact (map_through section_sans_page snd _ _ Hs').
  - exact (map_through section_sans_page (fun x => fst (fst x)) _ _ Hs').
  - exact (map_through figure_sans_page snd _ _ Hf).
  - exact (map_through figure_sans_page (fun x => snd (fst x)) _ _ Hf).
  - exact (map_through figure_sans_page (fun x => fst (fst x)) _ _ Hf).
Qed.

(** C9.  On a page with a heading, the figure made for any caption line
    of that page, wherever the line stands, refers to the section of the
    last heading of the same page. *)
Theorem same_page_headings_first (pages : list page) (n : nat) (p : page)
    (j : nat) (line : str) :
  nth_error pages n = Some p ->
  page_headings p <> [] ->
  nth_error (page_captions p) j = Some line ->
  let before := List.length (figures (scan (firstn n pages))) in
  exists f i s,
    nth_error (snd (parse_pages pages)) (before + j) = Some f
    /\ ParsedFigure.caption_text f = Some (strip line)
    /\ ParsedFigure.section_index f = Some i
    /\ nth_error (fst (parse_pages pages)) (Z.to_nat i) = Some s
    /\ ParsedSection.heading_text s = last (page_headings p) []
    /\ ParsedSection.page_start s = Some (Z.of_nat n + 1).
Proof.
  intros Hn Hne Hj before.
  pose proof (caption_figure uni_decimal uni_alnum pages n j Hn Hj) as Hf.
  cbv zeta in Hf. fold before in Hf.
  destruct (nth_error_pages_split _ _ Hn) as (l2 & _ & HS & Hl).
  destruct (outline_at_page uni_decimal uni_alnum (firstn n pages) [] p)
    as (Hs & _).
  rewrite <- HS in Hs.
  destruct (new_sections_last (len (firstn n pages) + 1)
              (len (sections (scan (firstn n pages))) + 1) Hne)
    as (front & k' & Hnew).
  rewrite Hnew, app_assoc in Hs.
  destruct (last_seen uni_decimal uni_alnum pages (S n) _ _ Hs)
    as (Hlast & _ & Hnth).
  rewrite Hlast in Hf.
  eexists. eexists. eexists.
  split; [exact Hf|]. split; [reflexivity|]. split; [reflexivity|].
  split; [exact Hnth|]. split; [reflexivity|].
  simpl. rewrite Hl. reflexivity.
Qed.

(** C10.  A section reference that is set on a returned figure is an index
    into the returned sections, from 0 and below their number; the
    assembler then finds the section row at that index and gives the
    figure row its identifier. *)
Theorem section_index_in_range (pages : list page) (f : ParsedFigure.t)
    (i : Z) :
  In f (snd (parse_pages pages)) ->
  ParsedFigure.section_index f = Some i ->
  0 <= i < len (fst (parse_pages pages))
  /\ forall d w,
       exists section_models m k,
         fst (add_all_sections_and_flush
                (build_section_models d (fst (parse_pages pages))) w)
         = Ok section_models
         /\ nth_error section_models (Z.to_nat i) = Some m
         /\ Section_.id m = Some k
         /\ resolve_section_id section_models f = Ok (Some k).
Proof.
  intros Hin Hi.
  pose proof (scan_references uni_decimal uni_alnum pages f Hin Hi) as Hr.
  assert (Hfst : fst (parse_pages pages) = sections (scan pages)).
  { rewrite parse_pages_sections, nonempty_len.
    destruct (0 <? len (sections (scan pages))) eqn:E; [reflexivity|].
    apply Z.ltb_ge in E. lia. }
  rewrite Hfst. split; [exact Hr|].
  intros d w.
  destruct (add_all_sections_and_flush_rows d (sections (scan pages)) w)
    as [k Hrows].
  destruct (nth_error (sections (scan pages)) (Z.to_nat i)) as [s|] eqn:Es.
  - destruct (@resolve_flushed d k (sections (scan pages)) f i s Hi Hr Es)
      as [Hrow Hres].
    eexists. eexists. exists (k + i).
    split; [exact Hrows|]. split; [exact Hrow|].
    split; [reflexivity | exact Hres].
  - apply nth_error_None in Es. unfold len in Hr. lia.
Qed.

End Claims.

Section Upload_claims.

Variable uni_decimal : char -> bool.
Variable uni_alnum : char -> bool.
Variable PdfReader : list Byte.byte -> result (list page).

(** C7.  When the reader cannot open the uploaded bytes, [parse_pdf] ends
    with the reader's error and returns no section and no figure; the
    upload ends with an error and leaves the database, committed and
    pending rows alike, as it found it, whatever the file name.  For a
    file name ending in ".pdf" under which the temporary file can be
    created, so that the handler gets as far as the reader, the error is
    the reader's. *)
Theorem unreadable_pdf_aborts (manufacturer_id : Z) (title : str)
    (revision_date tags : option str) (file : UploadFile) (user : User)
    (w : World) (e : exn) :
  PdfReader (content file) = Raise e ->
  (forall fs path,
     read_file fs path = Some (content file) ->
     parse_pdf uni_decimal uni_alnum PdfReader fs path = Raise e)
  /\ exists e' w',
       upload_document uni_decimal uni_alnum PdfReader manufacturer_id title
         revision_date tags file user w = (Raise e', w')
       /\ db w' = db w
       /\ (lower_endswith_pdf (filename file) = true ->
           storable_name (filename file) ->
           e' = e).
Proof.
  intro Hr.
  assert (Hparse : forall fs path,
             read_file fs path = Some (content file) ->
             parse_pdf uni_decimal uni_alnum PdfReader fs path = Raise e).
  { intros fs0 path Hread. unfold parse_pdf. rewrite Hread, Hr. reflexivity. }
  split; [exact Hparse|].
  unfold upload_document.
  destruct (lower_endswith_pdf (filename file)) eqn:Epdf; simpl.
  - unfold bind, update_fs, save_pdf, bind, with_fs, update_fs, ret.
    cbn [fs db]. rewrite read_write_same. cbn [fs db].
    rewrite Hparse by apply read_temp_after_copy.
    eexists. eexists. split; [reflexivity|]. split; [reflexivity | auto].
  - unfold raise. eexists. eexists.
    split; [reflexivity|]. split; [reflexivity | discriminate].
Qed.

End Upload_claims.

(* ================================================================== *)
(** * The upload handler on a readable file *)
(* ================================================================== *)

Section Upload_success.

Variable uni_decimal : char -> bool.
Variable uni_alnum : char -> bool.
Variable PdfReader : list Byte.byte -> result (list page).

Local Abbreviation parse_pages := (parse_pages uni_decimal uni_alnum).

(** A file named as a PDF that the reader can open is uploaded: the
    handler returns its document and leaves nothing pending. *)
Lemma upload_document_succeeds (manufacturer_id : Z) (title : str)
    (revision_date tags : option str) (file : UploadFile) (user : User)
    (w : World) (pages : list page) :
  lower_endswith_pdf (filename file) = true ->
  PdfReader (content file) = Ok pages ->
  exists document w',
    upload_document uni_decimal uni_alnum PdfReader manufacturer_id title
      revision_date tags file user w = (Ok document, w')
    /\ pending (db w') = Tables.empty.
Proof.
  intros Epdf Hr.
  unfold upload_document. rewrite Epdf. cbn [negb].
  unfold bind, update_fs, save_pdf, bind, with_fs, update_fs, ret.
  cbn [fs db]. rewrite read_write_same. cbn [fs db].
  unfold parse_pdf. rewrite read_temp_after_copy, Hr.
  destruct (parse_pages pages) as [secs figs] eqn:Ep.
  unfold add_document_and_flush. cbn [fs db].
  match goal with
  | |- context [add_all_sections_and_flush (build_section_models ?d _) ?w0] =>
      destruct (add_all_sections_and_flush_rows d secs w0) as [k Hk];
      destruct (add_all_sections_and_flush (build_section_models d secs) w0)
        as [r w1] eqn:Eadd;
      pose proof (figure_models_built uni_decimal uni_alnum pages d k)
        as Hfig
  end.
  cbn [fst] in Hk. subst r. rewrite Ep in Hfig. cbn [fst snd] in Hfig.
  cbv beta iota. unfold lift. rewrite Hfig.
  unfold update_db, commit. cbn [fs db pending].
  eexists. eexists. split; reflexivity.
Qed.

End Upload_success.

(* ================================================================== *)
(** * The theorems at sample inputs *)
(* ================================================================== *)

Lemma heading_rule_witness :
  let p := Some (unlines ["Scope"; "  3.2 Inspection Criteria "]) in
  let line := txt "  3.2 Inspection Criteria " in
  nth_error [p] 0 = Some p
  /\ In line (splitlines (text_or_empty p))
  /\ spec_heading only_ascii (txt "3.2 Inspection Criteria")
  /\ exists s,
       In s (fst (parse_pages only_ascii only_ascii [p]))
       /\ ParsedSection.heading_text s = txt "3.2 Inspection Criteria"
       /\ ParsedSection.heading_level s = txt "H1"
       /\ ParsedSection.page_start s = Some 1.
Proof.
  intros p line.
  assert (H1 : nth_error [p] 0 = Some p) by reflexivity.
  assert (H2 : In line (splitlines (text_or_empty p))).
  { right. left. reflexivity. }
  destruct (heading_rule only_ascii only_ascii [p] 0 p line H1 H2)
    as (Hiff & Hsec & _).
  split; [exact H1|]. split; [exact H2|].
  split; [exact (proj1 Hiff eq_refl) | exact (Hsec eq_refl)].
Defined.

Lemma no_headings_fallback_witness :
  let pages := [Some (unlines ["Overview"; "see Figure 1"]); None] in
  (forall p, In p pages -> page_headings only_ascii p = [])
  /\ fst (parse_pages only_ascii only_ascii pages) =
     [ParsedSection.mk (txt "Document Overview") (txt "H1") (Some 1)
        (Some 2) 1]
  /\ List.length (snd (parse_pages only_ascii only_ascii pages)) = 1%nat
  /\ forall f,
       In f (snd (parse_pages only_ascii only_ascii pages)) ->
       ParsedFigure.section_index f = None.
Proof.
  intro pages.
  assert (H : forall p, In p pages -> page_headings only_ascii p = []).
  { intros p [<- | [<- | []]]; reflexivity. }
  destruct (no_headings_fallback only_ascii only_ascii pages H)
    as (Hs & Hf & _).
  split; [exact H|]. split; [exact Hs|]. split; [reflexivity | exact Hf].
Defined.

Lemma figure_section_association_witness :
  let p := Some (unlines ["1 Scope"; "See Figure 4 below"]) in
  nth_error [p] 0 = Some p
  /\ nth_error (page_captions only_ascii p) 0 = Some (txt "See Figure 4 below")
  /\ exists f,
       nth_error (snd (parse_pages only_ascii only_ascii [p])) 0 = Some f
       /\ ParsedFigure.caption_text f = Some (txt "See Figure 4 below")
       /\ ParsedFigure.section_index f = Some 0
       /\ exists section_models k,
            fst (add_all_sections_and_flush
                   (build_section_models (Some 5)
                      (fst (parse_pages only_ascii only_ascii [p])))
                   empty_world)
            = Ok section_models
            /\ option_map Section_.id (nth_error section_models 0)
               = Some (Some k)
            /\ resolve_section_id section_models f = Ok (Some k)
            /\ exists figure_models,
                 build_figure_models (Some 5) section_models
                   (snd (parse_pages only_ascii only_ascii [p]))
                 = Ok figure_models
                 /\ option_map Figure.section_id (nth_error figure_models 0)
                    = Some (Some k).
Proof.
  intro p.
  assert (H1 : nth_error [p] 0 = Some p) by reflexivity.
  assert (H2 : nth_error (page_captions only_ascii p) 0
               = Some (txt "See Figure 4 below")) by reflexivity.
  destruct (figure_section_association only_ascii only_ascii [p] 0 p 0
              (txt "See Figure 4 below") H1 H2)
    as (f & Hf & Hc & _ & Hm).
  split; [exact H1|]. split; [exact H2|].
  exists f. split; [exact Hf|]. split; [exact Hc|].
  destruct Hm as (Hi & _ & Hrows).
  split; [exact Hi|].
  destruct (Hrows (Some 5) empty_world)
    as (rows & k & Hadd & Hrow & Hres & figure_models & Hbuild & Hfig).
  exists rows, k. split; [exact Hadd|]. split.
  { exact (f_equal (option_map Section_.id) Hrow). }
  split; [exact Hres|].
  exists figure_models. split; [exact Hbuild|].
  exact (f_equal (option_map Figure.section_id) Hfig).
Defined.

Lemma heading_section_position_witness :
  let pages :=
    [Some (unlines ["1 Scope"; "2 Terms"]);
     Some (unlines ["Criteria follow"; "3.2 Inspection Criteria"])] in
  nth_error pages 1 = Some (Some (unlines ["Criteria follow";
                                           "3.2 Inspection Criteria"]))
  /\ nth_error
       (page_headings only_ascii
          (Some (unlines ["Criteria follow"; "3.2 Inspection Criteria"]))) 0
     = Some (txt "3.2 Inspection Criteria")
  /\ nth_error (fst (parse_pages only_ascii only_ascii pages)) 2 =
     Some (ParsedSection.mk (txt "3.2 Inspection Criteria") (txt "H1")
             (Some 2) (Some 2) 3).
Proof.
  intro pages.
  assert (H1 : nth_error pages 1
               = Some (Some (unlines ["Criteria follow";
                                      "3.2 Inspection Criteria"])))
    by reflexivity.
  assert (H2 : nth_error
                 (page_headings only_ascii
                    (Some (unlines ["Criteria follow";
                                    "3.2 Inspection Criteria"]))) 0
               = Some (txt "3.2 Inspection Criteria")) by reflexivity.
  split; [exact H1|]. split; [exact H2|].
  exact (heading_section_position only_ascii only_ascii pages 1 _ 0 _ H1 H2).
Defined.

Lemma unreadable_pdf_aborts_witness :
  let file := mk_upload (txt "manual.pdf") [Byte.x25; Byte.x50] in
  let user := mk_user 1 (txt "admin") in
  broken_reader (content file)
  = Raise (PdfReadError (txt "EOF marker not found"))
  /\ storable_name (filename file)
  /\ exists e' w',
       upload_document only_ascii only_ascii broken_reader 7 (txt "Manual")
         None None file user empty_world = (Raise e', w')
       /\ db w' = db empty_world
       /\ e' = PdfReadError (txt "EOF marker not found").
Proof.
  intros file user.
  assert (H : broken_reader (content file)
              = Raise (PdfReadError (txt "EOF marker not found")))
    by reflexivity.
  assert (Hname : storable_name (filename file)).
  { split; [reflexivity|]. vm_compute. discriminate. }
  destruct (unreadable_pdf_aborts only_ascii only_ascii broken_reader 7
              (txt "Manual") None None file user empty_world _ H)
    as (_ & e' & w' & Hup & Hdb & He).
  split; [exact H|]. split; [exact Hname|]. exists e', w'.
  split; [exact Hup|]. split; [exact Hdb | exact (He eq_refl Hname)].
Defined.

Lemma blank_page_contributes_nothing_witness :
  let b := Some (unlines ["   "; " "]) in
  let before := [Some (unlines ["1 Scope"; "Figure 1"])] in
  let after := [Some (unlines ["2 Method"; "see Figure 2"])] in
  blank_page b
  /\ map ParsedSection.order_index
       (fst (parse_pages only_ascii only_ascii (before ++ b :: after)))
     = [1; 2]
  /\ map ParsedFigure.order_index
       (snd (parse_pages only_ascii only_ascii (before ++ b :: after)))
     = [1; 2].
Proof.
  intros b before after.
  assert (H : blank_page b).
  { intros line Hin. vm_compute in Hin.
    destruct Hin as [<- | [<- | []]]; reflexivity. }
  destruct (blank_page_contributes_nothing only_ascii only_ascii b before
              after H) as (_ & Hs & _ & Hf & _).
  split; [exact H|]. split; [exact Hs | exact Hf].
Defined.

Lemma same_page_headings_first_witness :
  let p := Some (unlines ["Figure 1 overview"; "1 Intro"; "2 Method"]) in
  let pages := [Some (txt "9 Earlier"); p] in
  nth_error pages 1 = Some p
  /\ page_headings only_ascii p <> []
  /\ nth_error (page_captions only_ascii p) 0 = Some (txt "Figure 1 overview")
  /\ exists f s,
       nth_error (snd (parse_pages only_ascii only_ascii pages)) 0 = Some f
       /\ ParsedFigure.section_index f = Some 2
       /\ nth_error (fst (parse_pages only_ascii only_ascii pages)) 2 = Some s
       /\ ParsedSection.heading_text s = txt "2 Method".
Proof.
  intros p pages.
  assert (H1 : nth_error pages 1 = Some p) by reflexivity.
  assert (H2 : page_headings only_ascii p <> []) by discriminate.
  assert (H3 : nth_error (page_captions only_ascii p) 0
               = Some (txt "Figure 1 overview")) by reflexivity.
  destruct (same_page_headings_first only_ascii only_ascii pages 1 p 0
              (txt "Figure 1 overview") H1 H2 H3) as (f & i & s & Hf & _ & Hi & Hs & Hh & _).
  split; [exact H1|]. split; [exact H2|]. split; [exact H3|].
  assert (Ei : i = 2).
  { vm_compute in Hf. injection Hf as <-. simpl in Hi. congruence. }
  subst i. exists f, s.
  split; [exact Hf|]. split; [exact Hi|]. split; [exact Hs | exact Hh].
Defined.

Lemma section_index_in_range_witness :
  let pages := [Some (unlines ["1 Scope"; "See Figure 4 below"])] in
  let f := ParsedFigure.mk (Some 0) (Some 1) (Some (txt "See Figure 4 below"))
             1 in
  In f (snd (parse_pages only_ascii only_ascii pages))
  /\ 0 <= 0 < len (fst (parse_pages only_ascii only_ascii pages))
  /\ exists section_models k,
       fst (add_all_sections_and_flush
              (build_section_models (Some 5)
                 (fst (parse_pages only_ascii only_ascii pages)))
              empty_world)
       = Ok section_models
       /\ resolve_section_id section_models f = Ok (Some k).
Proof.
  intros pages f.
  assert (H1 : In f (snd (parse_pages only_ascii only_ascii pages))).
  { left. reflexivity. }
  destruct (section_index_in_range only_ascii only_ascii pages f 0 H1 eq_refl)
    as (Hr & Hrows).
  split; [exact H1|]. split; [exact Hr|].
  destruct (Hrows (Some 5) empty_world) as (rows & m & k & Hadd & _ & _ & Hres).
  exists rows, k. split; [exact Hadd | exact Hres].
Defined.

(* ================================================================== *)
(** * Further sample runs *)
(* ================================================================== *)

(** The figure rule on lines around the one of C1: the whole word matches
    before a space, and the abbreviation matches only when a word
    character follows its dot. *)
Example figure_rule_samples :
  is_figure only_ascii (txt "See Figure 4 below") = true
  /\ is_figure only_ascii (txt "see figure 4") = true
  /\ is_figure only_ascii (txt "see FIG.4") = true
  /\ is_figure only_ascii (txt "see fig.") = false
  /\ is_figure only_ascii (txt "Figures") = false
  /\ is_figure only_ascii (txt "configure") = false.
Proof. repeat split; vm_compute; reflexivity. Qed.

(** The heading rule on a few lines. *)
Example heading_rule_samples :
  is_heading only_ascii (txt "1 Scope") = true
  /\ is_heading only_ascii (txt "  4.10.1   Probe   selection ") = true
  /\ is_heading only_ascii (txt "1. Scope") = false
  /\ is_heading only_ascii (txt "2.3") = false
  /\ is_heading only_ascii (txt "12th edition") = false.
Proof. repeat split; vm_compute; reflexivity. Qed.

(** A page without text, or with an empty text, is blank. *)
Lemma no_text_is_blank : blank_page None /\ blank_page (Some []).
Proof. split; intros line []. Qed.

(** One section and three figures: the figures are numbered 1 to 3. *)
Example one_section_three_figures :
  let pages :=
    [Some (unlines ["1 Scope"; "Figure A"; "Figure B"]);
     Some (txt "see Figure C")] in
  map ParsedSection.order_index (fst (parse_pages only_ascii only_ascii pages))
  = [1]
  /\ map ParsedFigure.order_index
       (snd (parse_pages only_ascii only_ascii pages))
     = [1; 2; 3]
  /\ map ParsedFigure.section_index
       (snd (parse_pages only_ascii only_ascii pages))
     = [Some 0; Some 0; Some 0].
Proof. repeat split. Qed.

(** A whole upload: the rows are committed, and each figure row carries the
    identifier of its section row. *)
Example upload_sample :
  let run :=
    upload_document only_ascii only_ascii two_page_reader 7 (txt "Manual")
      None None (mk_upload (txt "ndt manual.PDF") [Byte.x25])
      (mk_user 1 (txt "admin")) empty_world in
  let tables := committed (db (snd run)) in
  option_map Document.storage_key
    (match fst run with Ok d => Some d | Raise _ => None end)
  = Some (txt "pdfs/ndt_manual.PDF")
  /\ map Section_.id (Tables.sections tables) = [Some 1; Some 2]
  /\ map Section_.order_index (Tables.sections tables) = [1; 2]
  /\ map Figure.section_id (Tables.figures tables) = [Some 1; Some 2]
  /\ map AuditLog.metadata_json (Tables.audit_logs tables)
     = [[(txt "sections", 2); (txt "figures", 2)]]
  /\ pending (db (snd run)) = Tables.empty.
Proof. repeat split. Qed.

(* ================================================================== *)
(** * More on the detector *)
(* ================================================================== *)

Lemma lstrip_snoc (l : str) (c : char) :
  is_space c = false -> lstrip (l ++ [c]) = lstrip l ++ [c].
Proof.
  intro Hc. induction l as [|d l IH]; simpl.
  - rewrite Hc. reflexivity.
  - destruct (is_space d); [exact IH | reflexivity].
Qed.

Lemma lstrip_fixed (s : str) :
  match s with [] => True | c :: _ => is_space c = false end ->
  lstrip s = s.
Proof. destruct s as [|c s]; simpl; [reflexivity|]. intros ->. reflexivity. Qed.

Lemma rstrip_cons (c : char) (s : str) :
  is_space c = false -> rstrip (c :: s) = c :: rstrip s.
Proof.
  intro Hc. unfold rstrip. simpl. rewrite lstrip_snoc by exact Hc.
  rewrite rev_app_distr. reflexivity.
Qed.

Lemma strip_idempotent (s : str) : strip (strip s) = strip s.
Proof.
  assert (Hl : lstrip (strip s) = strip s).
  { apply lstrip_fixed. unfold strip.
    destruct (lstrip s) as [|c u] eqn:E; [exact I|].
    rewrite rstrip_cons by exact (lstrip_head s E).
    exact (lstrip_head s E). }
  unfold strip at 1. rewrite Hl. unfold rstrip at 1.
  rewrite lstrip_fixed; [apply rev_involutive|].
  destruct (rev (strip s)) as [|c front] eqn:E; [exact I|].
  exact (strip_last s E).
Qed.

Lemma strip_first (s : str) (c : char) (t : str) :
  strip s = c :: t -> is_space c = false.
Proof.
  unfold strip. destruct (lstrip s) as [|d u] eqn:E.
  - discriminate.
  - rewrite rstrip_cons by exact (lstrip_head s E).
    intro H. injection H as <- _. exact (lstrip_head s E).
Qed.

Lemma heading_text_new_sections (i k : Z) (hs : list str) :
  map ParsedSection.heading_text (new_sections i k hs) = hs.
Proof.
  revert k. induction hs as [|h hs IH]; intro k; simpl; [reflexivity|].
  rewrite IH. reflexivity.
Qed.

Lemma caption_text_new_figures (i : Z) (sec : option Z) (k : Z)
    (ls : list str) :
  map ParsedFigure.caption_text (new_figures i sec k ls)
  = map (fun line => Some (strip line)) ls.
Proof.
  revert k. induction ls as [|l ls IH]; intro k; simpl; [reflexivity|].
  rewrite IH. reflexivity.
Qed.

Lemma In_new_figures_fields (i : Z) (sec : option Z) (k : Z) (ls : list str)
    (f : ParsedFigure.t) :
  In f (new_figures i sec k ls) ->
  exists line,
    In line ls
    /\ ParsedFigure.caption_text f = Some (strip line)
    /\ ParsedFigure.page_number f = Some i
    /\ ParsedFigure.section_index f = sec.
Proof.
  revert k. induction ls as [|l ls IH]; intro k; simpl; [contradiction|].
  intros [<- | H].
  - exists l. simpl. auto.
  - destruct (IH _ H) as (line & Hl & Hrest). exists line. auto.
Qed.

Section Detector_facts.

Variable uni_decimal : char -> bool.
Variable uni_alnum : char -> bool.

Local Abbreviation is_heading := (is_heading uni_decimal).
Local Abbreviation is_figure := (is_figure uni_alnum).
Local Abbreviation scan := (scan uni_decimal uni_alnum).
Local Abbreviation parse_pages := (parse_pages uni_decimal uni_alnum).
Local Abbreviation page_headings := (page_headings uni_decimal).
Local Abbreviation page_captions := (page_captions uni_alnum).
Local Abbreviation all_headings := (all_headings uni_decimal).
Local Abbreviation all_captions := (all_captions uni_alnum).

Lemma is_heading_strip (line : str) :
  is_heading (strip line) = is_heading line.
Proof. unfold is_heading. rewrite strip_idempotent. reflexivity. Qed.

(** Every figure of the scan was made for a caption line of some page, and
    refers to the last section seen once that page's headings are in. *)
Lemma figure_origin (pages : list page) (f : ParsedFigure.t) :
  In f (figures (scan pages)) ->
  exists m q line,
    nth_error pages m = Some q
    /\ In line (page_captions q)
    /\ ParsedFigure.caption_text f = Some (strip line)
    /\ ParsedFigure.page_number f = Some (Z.of_nat m + 1)
    /\ ParsedFigure.section_index f
       = last_index (sections (scan (firstn (S m) pages))).
Proof.
  induction pages as [|p pages IH] using rev_ind; [intros []|].
  destruct (outline_at_page uni_decimal uni_alnum pages [] p)
    as (Hs & Hf & _).
  rewrite Hf. intro Hin. apply in_app_or in Hin as [Hin | Hin].
  - destruct (IH Hin) as (m & q & line & Hm & Hl & Hc & Hp & Hi).
    assert (Hlt : (m < List.length pages)%nat).
    { apply nth_error_Some. congruence. }
    exists m, q, line. split; [rewrite nth_error_app1; assumption|].
    split; [exact Hl|]. split; [exact Hc|]. split; [exact Hp|].
    rewrite firstn_app.
    replace (S m - List.length pages)%nat with 0%nat by lia.
    simpl firstn at 2. rewrite app_nil_r. exact Hi.
  - apply In_new_figures_fields in Hin as (line & Hl & Hc & Hp & Hi).
    exists (List.length pages), p, line.
    split; [rewrite nth_error_app2, Nat.sub_diag by lia; reflexivity|].
    split; [exact Hl|]. split; [exact Hc|].
    split; [unfold len in Hp; exact Hp|].
    rewrite firstn_all2 by (rewrite length_app; simpl; lia).
    rewrite Hs. exact Hi.
Qed.

Lemma nth_error_lt_length {A} (l : list A) (m : nat) (x : A) :
  nth_error l m = Some x -> Z.of_nat m + 1 <= len l.
Proof.
  intro H. assert (m < List.length l)%nat by (apply nth_error_Some; congruence).
  unfold len. lia.
Qed.

Lemma heading_trimmed (p : page) (h : str) :
  In h (page_headings p) -> h <> [] /\ strip h = h /\ is_heading h = true.
Proof.
  unfold page_headings. rewrite detect_sections_eq. intro H.
  apply in_map_iff in H as (l & <- & Hl). apply filter_In in Hl as [_ Hl].
  split; [|split].
  - pose proof (is_heading_nonblank uni_decimal l Hl) as Hne.
    destruct (strip l); [discriminate | discriminate].
  - apply strip_idempotent.
  - rewrite is_heading_strip. exact Hl.
Qed.

(** The sections of the scan carry the headings of the pages in order, and
    the figures the trimmed caption lines. *)
Lemma scan_text (pages : list page) :
  map ParsedSection.heading_text (sections (scan pages)) = all_headings pages
  /\ map ParsedFigure.caption_text (figures (scan pages))
     = map (fun line => Some (strip line)) (all_captions pages).
Proof.
  induction pages as [|p pages [IHs IHf]] using rev_ind; [split; reflexivity|].
  destruct (outline_at_page uni_decimal uni_alnum pages [] p)
    as (Hs & Hf & _).
  unfold all_headings, all_captions in *.
  rewrite Hs, Hf, !map_app, !flat_map_app, map_app. simpl.
  rewrite !app_nil_r, heading_text_new_sections, caption_text_new_figures.
  split; f_equal; assumption.
Qed.

End Detector_facts.

(* ================================================================== *)
(** * Further properties of the detector *)
(* ================================================================== *)

Section Detector_properties.

Variable uni_decimal : char -> bool.
Variable uni_alnum : char -> bool.

Local Abbreviation is_heading := (is_heading uni_decimal).
Local Abbreviation is_figure := (is_figure uni_alnum).
Local Abbreviation scan := (scan uni_decimal uni_alnum).
Local Abbreviation parse_pages := (parse_pages uni_decimal uni_alnum).
Local Abbreviation page_headings := (page_headings uni_decimal).
Local Abbreviation page_captions := (page_captions uni_alnum).
Local Abbreviation all_headings := (all_headings uni_decimal).
Local Abbreviation all_captions := (all_captions uni_alnum).

(** X1.  Running [_detect_sections] on its own result changes nothing:
    every heading it returns is trimmed, and is again a heading. *)
Theorem detect_sections_idempotent (lines : list str) :
  _detect_sections uni_decimal (_detect_sections uni_decimal lines)
  = _detect_sections uni_decimal lines.
Proof.
  rewrite !detect_sections_eq.
  induction lines as [|l lines IH]; [reflexivity|].
  simpl. destruct (is_heading l) eqn:E; [|exact IH].
  simpl. rewrite is_heading_strip, E. simpl.
  rewrite strip_idempotent. f_equal. exact IH.
Qed.

(** X2.  The heading texts of the output are the headings of page 1, then
    those of page 2, and so on, or the overview title alone when there is
    no heading; the captions are the trimmed caption lines in the same
    order. *)
Theorem outline_text (pages : list page) :
  map ParsedSection.heading_text (fst (parse_pages pages))
  = match all_headings pages with
    | [] => [txt "Document Overview"]
    | _ :: _ => all_headings pages
    end
  /\ map ParsedFigure.caption_text (snd (parse_pages pages))
     = map (fun line => Some (strip line)) (all_captions pages).
Proof.
  destruct (scan_text uni_decimal uni_alnum pages) as [Hs Hf].
  split; [|exact Hf].
  rewrite parse_pages_sections. rewrite <- Hs.
  destruct (sections (scan pages)); reflexivity.
Qed.

(** X3.  Every page number of the output lies between 1 and the number of
    pages, with one exception: for a document without pages the overview
    section runs from page 1 to page 0. *)
Theorem page_numbers_in_range (pages : list page) :
  (forall s,
     In s (fst (parse_pages pages)) ->
     exists a b,
       ParsedSection.page_start s = Some a
       /\ ParsedSection.page_end s = Some b
       /\ 1 <= a /\ b <= len pages /\ (a <= b <-> pages <> []))
  /\ (forall f,
        In f (snd (parse_pages pages)) ->
        exists n,
          ParsedFigure.page_number f = Some n /\ 1 <= n <= len pages).
Proof.
  split.
  - intros s Hs. rewrite parse_pages_sections in Hs.
    destruct (nonempty (sections (scan pages))).
    + apply (section_origin uni_decimal uni_alnum) in Hs
        as (m & q & Hm & _ & _ & Hps & Hpe).
      pose proof (nth_error_lt_length pages m q Hm) as Hlt.
      exists (Z.of_nat m + 1), (Z.of_nat m + 1).
      split; [exact Hps|]. split; [exact Hpe|].
      split; [lia|]. split; [exact Hlt|].
      split; [intros _ ->; destruct m; discriminate | lia].
    + destruct Hs as [<- | []]. exists 1, (len pages). simpl.
      split; [reflexivity|]. split; [reflexivity|].
      split; [lia|]. split; [lia|].
      destruct pages as [|p pages].
      * unfold len. simpl. split; [lia | congruence].
      * unfold len. simpl List.length. split; [discriminate | lia].
  - intros f Hf. apply figure_origin in Hf as (m & q & line & Hm & _ & _ & Hp & _).
    pose proof (nth_error_lt_length pages m q Hm) as Hlt.
    exists (Z.of_nat m + 1). split; [exact Hp | lia].
Qed.

(** X4.  A heading or caption that comes back from the detector is never
    blank and has no white space at either end; every figure has its
    caption set. *)
Theorem outline_texts_trimmed (pages : list page) :
  (forall s,
     In s (fst (parse_pages pages)) ->
     ParsedSection.heading_text s <> []
     /\ strip (ParsedSection.heading_text s) = ParsedSection.heading_text s)
  /\ (forall f,
        In f (snd (parse_pages pages)) ->
        exists c,
          ParsedFigure.caption_text f = Some c /\ c <> [] /\ strip c = c).
Proof.
  split.
  - intros s Hs. rewrite parse_pages_sections in Hs.
    destruct (nonempty (sections (scan pages))).
    + apply (section_origin uni_decimal uni_alnum) in Hs
        as (m & q & _ & Hh & _).
      destruct (heading_trimmed uni_decimal q _ Hh) as (Hne & Hst & _). auto.
    + destruct Hs as [<- | []]. split; [discriminate | reflexivity].
  - intros f Hf. apply figure_origin in Hf as (m & q & line & _ & Hl & Hc & _).
    exists (strip line). split; [exact Hc|].
    split; [|apply strip_idempotent].
    apply filter_In in Hl as [Hl _]. apply filter_In in Hl as [_ Hl].
    destruct (strip line); [discriminate | discriminate].
Qed.

(** X5.  A figure is never attached to a section of a later page: the
    section it refers to starts on the page of the figure or before. *)
Theorem figure_section_not_later (pages : list page) (f : ParsedFigure.t)
    (i : Z) :
  In f (snd (parse_pages pages)) ->
  ParsedFigure.section_index f = Some i ->
  exists s a b,
    nth_error (fst (parse_pages pages)) (Z.to_nat i) = Some s
    /\ ParsedSection.page_start s = Some a
    /\ ParsedFigure.page_number f = Some b
    /\ a <= b.
Proof.
  intros Hf Hi.
  apply figure_origin in Hf as (m & q & line & Hm & _ & _ & Hp & Hsec).
  rewrite Hi in Hsec. unfold last_index in Hsec.
  destruct (sections (scan (firstn (S m) pages))) as [|s0 rest] eqn:E
    using rev_ind; [discriminate|]. clear IHrest.
  destruct (last_seen uni_decimal uni_alnum pages (S m) rest s0 E)
    as (Hlast & _ & Hnth).
  assert (Hin : In s0 (sections (scan (firstn (S m) pages)))).
  { rewrite E. apply in_or_app. right. left. reflexivity. }
  apply (section_origin uni_decimal uni_alnum) in Hin
    as (m' & q' & Hm' & _ & _ & Hps & _).
  assert (Hlt : (m' < S m)%nat).
  { assert (m' < List.length (firstn (S m) pages))%nat
      by (apply nth_error_Some; congruence).
    rewrite length_firstn in H. lia. }
  unfold last_index in Hlast. rewrite E in Hlast, Hnth.
  assert (Ei : i = len (rest ++ [s0]) - 1).
  { assert (Hne : nonempty (rest ++ [s0]) = true)
      by (destruct rest; reflexivity).
    rewrite Hne in Hsec. congruence. }
  rewrite <- Ei in Hnth.
  exists s0, (Z.of_nat m' + 1), (Z.of_nat m + 1).
  split; [exact Hnth|]. split; [exact Hps|]. split; [exact Hp | lia].
Qed.

(** X6.  Pages added at the end leave what was detected before as it is:
    the figures of the shorter document open the figure list of the longer
    one, and so do its sections as soon as it has a heading. *)
Theorem earlier_pages_unaffected (l1 l2 : list page) :
  (exists figs,
     snd (parse_pages (l1 ++ l2)) = snd (parse_pages l1) ++ figs)
  /\ (all_headings l1 <> [] ->
      exists secs,
        fst (parse_pages (l1 ++ l2)) = fst (parse_pages l1) ++ secs).
Proof.
  assert (H : exists secs figs,
             sections (scan (l1 ++ l2)) = sections (scan l1) ++ secs
             /\ figures (scan (l1 ++ l2)) = figures (scan l1) ++ figs).
  { rewrite !scan_eq, scan_from_app. apply scan_from_extends. }
  destruct H as (secs & figs & Hs & Hf).
  split; [exists figs; exact Hf|].
  intro Hne. exists secs. rewrite !parse_pages_sections, Hs.
  destruct (scan_text uni_decimal uni_alnum l1) as [Ht _].
  destruct (sections (scan l1)) as [|s rest]; [|reflexivity].
  exfalso. apply Hne. rewrite <- Ht. reflexivity.
Qed.

(** X7.  A line that is both a heading and a caption is recorded twice, as
    a section and as a figure of its page with the same trimmed text, and
    that figure has a section. *)
Theorem heading_line_with_figure (pages : list page) (n : nat) (p : page)
    (line : str) :
  nth_error pages n = Some p ->
  In line (page_lines (text_or_empty p)) ->
  is_heading line = true ->
  is_figure line = true ->
  exists s f i,
    In s (fst (parse_pages pages))
    /\ In f (snd (parse_pages pages))
    /\ ParsedSection.heading_text s = strip line
    /\ ParsedFigure.caption_text f = Some (strip line)
    /\ ParsedSection.page_start s = Some (Z.of_nat n + 1)
    /\ ParsedFigure.page_number f = Some (Z.of_nat n + 1)
    /\ ParsedFigure.section_index f = Some i.
Proof.
  intros Hn Hline Hh Hfig.
  assert (Hin : In (strip line) (page_headings p)).
  { unfold page_headings. rewrite detect_sections_eq.
    apply in_map, filter_In. auto. }
  apply In_nth_error in Hin as [j Hj].
  pose proof (heading_section uni_decimal uni_alnum pages n j Hn Hj) as Hs.
  cbv zeta in Hs.
  assert (Hcap : In line (page_captions p)).
  { unfold page_captions. apply filter_In. auto. }
  apply In_nth_error in Hcap as [j' Hj'].
  pose proof (caption_figure uni_decimal uni_alnum pages n j' Hn Hj') as Hf.
  cbv zeta in Hf.
  destruct (nth_error_pages_split _ _ Hn) as (l2 & _ & HS & _).
  destruct (outline_at_page uni_decimal uni_alnum (firstn n pages) [] p)
    as (Hsec & _).
  rewrite <- HS in Hsec.
  assert (Hne : page_headings p <> []).
  { intro E. rewrite E in Hj. destruct j; discriminate. }
  destruct (new_sections_last (len (firstn n pages) + 1)
              (len (sections (scan (firstn n pages))) + 1) Hne)
    as (front & k' & Hnew).
  rewrite Hnew, app_assoc in Hsec.
  destruct (last_seen uni_decimal uni_alnum pages (S n) _ _ Hsec)
    as (Hlast & _ & _).
  rewrite Hlast in Hf.
  eexists. eexists. eexists.
  rewrite parse_pages_sections, (nth_error_nonempty _ _ Hs).
  split; [exact (nth_error_In _ _ Hs)|].
  split; [exact (nth_error_In _ _ Hf)|].
  simpl. repeat split; reflexivity.
Qed.

End Detector_properties.

(* ================================================================== *)
(** * What an upload commits *)
(* ================================================================== *)

Lemma next_id_unset (ids : list (option Z)) (n : nat) :
  next_id (ids ++ repeat None n) = next_id ids.
Proof.
  unfold next_id. f_equal. induction ids as [|k ids IH]; simpl.
  - induction n; simpl; auto.
  - destruct k; rewrite IH; reflexivity.
Qed.

Lemma next_id_above (ids : list (option Z)) (k : Z) :
  In (Some k) ids -> k < next_id ids.
Proof.
  unfold next_id. induction ids as [|j ids IH]; [intros []|].
  cbn [fold_right]. intros [-> | H].
  - lia.
  - specialize (IH H). destruct j; lia.
Qed.

Lemma next_id_positive (ids : list (option Z)) : 1 <= next_id ids.
Proof.
  unfold next_id. induction ids as [|j ids IH]; cbn [fold_right]; [lia|].
  destruct j; lia.
Qed.

Lemma assign_ids_set {A} (id : A -> option Z) (with_id : Z -> A -> A)
    (k : Z) (rows : list A) :
  Forall (fun r => id r <> None) rows ->
  assign_ids id with_id k rows = rows.
Proof.
  induction 1 as [|r rows Hr _ IH]; simpl; [reflexivity|].
  destruct (id r); [rewrite IH; reflexivity | congruence].
Qed.

Lemma assign_ids_nth {A} (id : A -> option Z) (with_id : Z -> A -> A)
    (rows : list A) :
  Forall (fun r => id r = None) rows ->
  forall k j r,
    nth_error rows j = Some r ->
    nth_error (assign_ids id with_id k rows) j
    = Some (with_id (k + Z.of_nat j) r).
Proof.
  induction 1 as [|r0 rows Hr _ IH]; intros k [|j] r H; simpl in *;
    try discriminate.
  - rewrite Hr. injection H as ->. rewrite Z.add_0_r. reflexivity.
  - rewrite Hr. simpl. rewrite (IH (k + 1) j r H). do 2 f_equal. lia.
Qed.

Lemma assign_ids_In {A} (id : A -> option Z) (with_id : Z -> A -> A)
    (rows : list A) (k : Z) (r' : A) :
  Forall (fun r => id r = None) rows ->
  In r' (assign_ids id with_id k rows) ->
  exists j r,
    nth_error rows j = Some r /\ r' = with_id (k + Z.of_nat j) r.
Proof.
  intros Hall Hin. apply In_nth_error in Hin as [j Hj].
  assert (Hlt : (j < List.length rows)%nat).
  { rewrite <- (assign_ids_length id with_id k rows).
    apply nth_error_Some. congruence. }
  destruct (nth_error rows j) as [r|] eqn:E.
  - exists j, r. split; [exact E|].
    rewrite (assign_ids_nth id with_id rows Hall k j r E) in Hj. congruence.
  - apply nth_error_None in E. lia.
Qed.

Lemma map_id_unset {A B} (f : A -> B) (id : B -> option Z) (l : list A) :
  (forall x, id (f x) = None) ->
  map id (map f l) = repeat None (List.length l).
Proof.
  intro H. induction l as [|x l IH]; simpl; [reflexivity|].
  rewrite H, IH. reflexivity.
Qed.

Lemma assign_ids_all_set {A} (id : A -> option Z) (with_id : Z -> A -> A)
    (k : Z) (rows : list A) :
  (forall j r, id (with_id j r) = Some j) ->
  Forall (fun r => id r <> None) (assign_ids id with_id k rows).
Proof.
  intro Hid. revert k. induction rows as [|r rows IH]; intro k; simpl.
  - constructor.
  - destruct (id r) eqn:E; constructor; try apply IH; congruence.
Qed.

Lemma next_id_app_unset {A} (id : A -> option Z) (stored added : list A) :
  Forall (fun r => id r = None) added ->
  next_id (map id (stored ++ added)) = next_id (map id stored).
Proof.
  intro H. rewrite map_app.
  replace (map id added) with (@repeat (option Z) None (List.length added)).
  - apply next_id_unset.
  - induction H as [|r added Hr _ IH]; simpl; [reflexivity|].
    rewrite Hr, IH. reflexivity.
Qed.

Lemma flush_table_unset {A} (id : A -> option Z) (with_id : Z -> A -> A)
    (stored added : list A) :
  Forall (fun r => id r = None) added ->
  flush_table id with_id stored added
  = assign_ids id with_id (next_id (map id stored)) added.
Proof.
  intro H. unfold flush_table. rewrite next_id_app_unset by exact H.
  reflexivity.
Qed.

Lemma flush_table_set {A} (id : A -> option Z) (with_id : Z -> A -> A)
    (stored added : list A) :
  Forall (fun r => id r <> None) added ->
  flush_table id with_id stored added = added.
Proof. intro H. unfold flush_table. apply assign_ids_set. exact H. Qed.

Lemma build_section_models_unset (d : option Z)
    (secs : list ParsedSection.t) :
  Forall (fun r => Section_.id r = None) (build_section_models d secs).
Proof.
  rewrite build_section_models_eq. apply Forall_forall.
  intros r Hr. apply in_map_iff in Hr as (s & <- & _). reflexivity.
Qed.

Lemma flushed_section_rows_set (d : option Z) (k : Z)
    (secs : list ParsedSection.t) :
  Forall (fun r => Section_.id r <> None) (flushed_section_rows d k secs).
Proof.
  unfold flushed_section_rows. apply assign_ids_all_set. reflexivity.
Qed.

Lemma flush_add_document (c : Tables.t) (d : Document.t) :
  Document.id d = None ->
  flush (add_document d (mk_session c Tables.empty))
  = mk_session c
      (Tables.mk
         [Document.with_id (next_id (map Document.id (Tables.documents c))) d]
         [] [] []).
Proof.
  intro Hd. unfold flush, add_document. cbn [committed pending].
  cbn [Tables.documents Tables.sections Tables.figures Tables.audit_logs
       Tables.empty app].
  rewrite (flush_table_unset Document.id Document.with_id
             (Tables.documents c) [d]) by (constructor; [exact Hd | constructor]).
  cbn [assign_ids]. rewrite Hd. reflexivity.
Qed.

Lemma flush_add_all_sections (c : Tables.t) (d : Document.t)
    (rows : list Section_.t) :
  Document.id d <> None ->
  Forall (fun r => Section_.id r = None) rows ->
  flush (add_all_sections rows (mk_session c (Tables.mk [d] [] [] [])))
  = mk_session c
      (Tables.mk [d]
         (assign_ids Section_.id Section_.with_id
            (next_id (map Section_.id (Tables.sections c))) rows)
         [] []).
Proof.
  intros Hd Hrows. unfold flush, add_all_sections. cbn [committed pending].
  cbn [Tables.documents Tables.sections Tables.figures Tables.audit_logs app].
  rewrite (flush_table_set Document.id Document.with_id
             (Tables.documents c) [d]) by (constructor; [exact Hd | constructor]).
  rewrite (flush_table_unset Section_.id Section_.with_id
             (Tables.sections c) rows) by exact Hrows.
  reflexivity.
Qed.

Lemma commit_upload (c : Tables.t) (d : Document.t)
    (srows : list Section_.t) (frows : list Figure.t) (a : AuditLog.t) :
  Document.id d <> None ->
  Forall (fun r => Section_.id r <> None) srows ->
  Forall (fun r => Figure.id r = None) frows ->
  AuditLog.id a = None ->
  commit
    (add_audit_log a
       (add_all_figures frows (mk_session c (Tables.mk [d] srows [] []))))
  = mk_session
      (Tables.union c
         (Tables.mk [d] srows
            (assign_ids Figure.id Figure.with_id
               (next_id (map Figure.id (Tables.figures c))) frows)
            [AuditLog.with_id
               (next_id (map AuditLog.id (Tables.audit_logs c))) a]))
      Tables.empty.
Proof.
  intros Hd Hs Hf Ha.
  unfold commit, flush, add_audit_log, add_all_figures.
  cbn [committed pending].
  cbn [Tables.documents Tables.sections Tables.figures Tables.audit_logs app].
  rewrite (flush_table_set Document.id Document.with_id
             (Tables.documents c) [d]) by (constructor; [exact Hd | constructor]).
  rewrite (flush_table_set Section_.id Section_.with_id
             (Tables.sections c) srows) by exact Hs.
  rewrite (flush_table_unset Figure.id Figure.with_id
             (Tables.figures c) frows) by exact Hf.
  rewrite (flush_table_unset AuditLog.id AuditLog.with_id
             (Tables.audit_logs c) [a]) by (constructor; [exact Ha | constructor]).
  cbn [assign_ids]. rewrite Ha. reflexivity.
Qed.

Lemma lastn_all {A} (n : nat) (l : list A) :
  List.length l = n -> lastn n l = l.
Proof. intros <-. unfold lastn. rewrite Nat.sub_diag. reflexivity. Qed.

Section Upload_commits.

Variable uni_decimal : char -> bool.
Variable uni_alnum : char -> bool.
Variable PdfReader : list Byte.byte -> result (list page).

(** The world after the upload of a readable file, from a session with
    nothing pending: the two files are written and the rows of the upload
    are committed after the rows already there. *)
Lemma upload_document_commits (manufacturer_id : Z) (title : str)
    (revision_date tags : option str) (file : UploadFile) (user : User)
    (w : World) (pages : list page) :
  pending (db w) = Tables.empty ->
  lower_endswith_pdf (filename file) = true ->
  PdfReader (content file) = Ok pages ->
  let parsed := parse_pages uni_decimal uni_alnum pages in
  let added :=
    upload_rows (committed (db w)) manufacturer_id title revision_date tags
      file user (fst parsed) (snd parsed) in
  upload_document uni_decimal uni_alnum PdfReader manufacturer_id title
    revision_date tags file user w
  = (Ok (hd (Document.mk None manufacturer_id title (filename file)
               (txt "pdfs/" ++ replace_spaces (filename file))
               (user_id user) revision_date tags)
           (Tables.documents added)),
     mk_world (upload_files (fs w) file)
       (mk_session (Tables.union (committed (db w)) added) Tables.empty)).
Proof.
  intros Hp Epdf Hr parsed added.
  destruct w as [fs0 [c p]]. cbn [db fs pending committed] in Hp, added |- *.
  subst p.
  unfold upload_document. rewrite Epdf. cbn [negb].
  unfold bind, update_fs, save_pdf, bind, with_fs, update_fs, ret.
  cbn [fs db]. rewrite read_write_same. cbn [fs db].
  unfold parse_pdf. rewrite read_temp_after_copy, Hr.
  fold parsed. destruct parsed as [secs figs] eqn:Ep.
  unfold add_document_and_flush, add_all_sections_and_flush, lift, update_db.
  cbn [fs db].
  rewrite flush_add_document by reflexivity.
  cbn [pending Tables.documents last Document.with_id Document.id].
  rewrite flush_add_all_sections
    by (try discriminate; apply build_section_models_unset).
  cbn [pending Tables.sections].
  rewrite lastn_all
    by (rewrite assign_ids_length; reflexivity).
  fold (flushed_section_rows
          (Some (next_id (map Document.id (Tables.documents c))))
          (next_id (map Section_.id (Tables.sections c))) secs).
  pose proof (figure_models_built uni_decimal uni_alnum pages
                (Some (next_id (map Document.id (Tables.documents c))))
                (next_id (map Section_.id (Tables.sections c)))) as Hfig.
  fold parsed in Hfig. rewrite Ep in Hfig. cbn [fst snd] in Hfig.
  rewrite Hfig. cbn [fs db].
  rewrite commit_upload.
  - unfold added, upload_rows, upload_files, len. cbn [fst snd hd Tables.documents].
    rewrite flushed_section_rows_length, length_map. reflexivity.
  - discriminate.
  - apply flushed_section_rows_set.
  - apply Forall_forall. intros r Hin.
    apply in_map_iff in Hin as (f & <- & _). reflexivity.
  - reflexivity.
Qed.

End Upload_commits.

(* ================================================================== *)
(** * Sorting and reading *)
(* ================================================================== *)

Lemma insert_by_perm {A} (key : A -> Z) (x : A) (l : list A) :
  Permutation (x :: l) (insert_by key x l).
Proof.
  induction l as [|y l IH]; simpl; [apply Permutation_refl|].
  destruct (key x <=? key y); [apply Permutation_refl|].
  eapply perm_trans; [apply perm_swap|]. apply perm_skip. exact IH.
Qed.

Lemma order_by_perm {A} (key : A -> Z) (l : list A) :
  Permutation l (order_by key l).
Proof.
  induction l as [|x l IH]; simpl; [apply Permutation_refl|].
  eapply perm_trans; [apply perm_skip; exact IH | apply insert_by_perm].
Qed.

Lemma insert_by_sorted {A} (key : A -> Z) (x : A) (l : list A) :
  Sorted (fun a b => key a <= key b) l ->
  Sorted (fun a b => key a <= key b) (insert_by key x l).
Proof.
  induction 1 as [|y l Hl IH Hy]; simpl.
  - repeat constructor.
  - destruct (key x <=? key y) eqn:E.
    + apply Z.leb_le in E. repeat constructor; assumption.
    + apply Z.leb_gt in E. constructor; [exact IH|].
      destruct l as [|z l]; simpl.
      * constructor. lia.
      * inversion Hy; subst. destruct (key x <=? key z); constructor; lia.
Qed.

Lemma order_by_sorted {A} (key : A -> Z) (l : list A) :
  Sorted (fun a b => key a <= key b) (order_by key l).
Proof.
  induction l as [|x l IH]; simpl; [constructor|].
  apply insert_by_sorted. exact IH.
Qed.

Lemma order_by_fixed {A} (key : A -> Z) (l : list A) :
  Sorted (fun a b => key a <= key b) l -> order_by key l = l.
Proof.
  induction 1 as [|x l Hl IH Hx]; simpl; [reflexivity|].
  rewrite IH. destruct Hx as [|y l' Hxy]; simpl; [reflexivity|].
  apply Z.leb_le in Hxy. rewrite Hxy. reflexivity.
Qed.

Lemma sorted_of_seq {A} (key : A -> Z) (l : list A) :
  forall a, map key l = map Z.of_nat (seq a (List.length l)) ->
            Sorted (fun x y => key x <= key y) l.
Proof.
  induction l as [|x l IH]; intros a H; [constructor|].
  simpl in H. injection H as Hx Hl. constructor; [exact (IH _ Hl)|].
  destruct l as [|y l]; [constructor|]. simpl in Hl. injection Hl as Hy _.
  constructor. lia.
Qed.

Lemma union_empty_r (t : Tables.t) : Tables.union t Tables.empty = t.
Proof.
  destruct t. unfold Tables.union. simpl. rewrite !app_nil_r. reflexivity.
Qed.

Lemma flush_nothing_pending (c : Tables.t) :
  flush (mk_session c Tables.empty) = mk_session c Tables.empty.
Proof. reflexivity. Qed.

(** A query from a session with nothing pending reads the committed rows
    and changes nothing. *)
Lemma query_committed {A} (read : Tables.t -> A) (w : World) :
  pending (db w) = Tables.empty ->
  query read w = (Ok (read (committed (db w))), w).
Proof.
  destruct w as [fs0 [c p]]. simpl. intros ->.
  unfold query. cbn [db fs]. rewrite flush_nothing_pending.
  cbn [committed pending]. rewrite union_empty_r. reflexivity.
Qed.

Lemma commit_audit_log (c : Tables.t) (a : AuditLog.t) :
  AuditLog.id a = None ->
  commit (add_audit_log a (mk_session c Tables.empty))
  = mk_session
      (Tables.mk (Tables.documents c) (Tables.sections c) (Tables.figures c)
         (Tables.audit_logs c ++
          [AuditLog.with_id (next_id (map AuditLog.id (Tables.audit_logs c)))
             a]))
      Tables.empty.
Proof.
  intro Ha. unfold commit, flush, add_audit_log. cbn [committed pending].
  cbn [Tables.documents Tables.sections Tables.figures Tables.audit_logs
       Tables.empty app].
  rewrite (flush_table_unset AuditLog.id AuditLog.with_id
             (Tables.audit_logs c) [a]) by (constructor; [exact Ha | constructor]).
  cbn [assign_ids]. rewrite Ha.
  unfold Tables.union, flush_table. cbn. rewrite !app_nil_r. reflexivity.
Qed.

(* ================================================================== *)
(** * Properties of the upload and of the handlers that read it back *)
(* ================================================================== *)

Lemma flushed_section_rows_In (d : option Z) (k : Z)
    (secs : list ParsedSection.t) (r : Section_.t) :
  In r (flushed_section_rows d k secs) ->
  exists j s,
    nth_error secs j = Some s
    /\ r = Section_.with_id (k + Z.of_nat j) (section_row d s).
Proof.
  intro Hin. apply In_nth_error in Hin as [j Hj].
  assert (Hlt : (j < List.length secs)%nat).
  { rewrite <- (flushed_section_rows_length d k secs).
    apply nth_error_Some. congruence. }
  destruct (nth_error secs j) as [s|] eqn:E.
  - exists j, s. split; [exact E|].
    rewrite (flushed_section_rows_nth d secs k j E) in Hj. congruence.
  - apply nth_error_None in E. lia.
Qed.

Lemma find_fresh {A} (test : A -> bool) (l : list A) (x : A) :
  (forall y, In y l -> test y = false) -> test x = true ->
  find test (l ++ [x]) = Some x.
Proof.
  intros Hl Hx. induction l as [|y l IH]; simpl.
  - rewrite Hx. reflexivity.
  - rewrite (Hl y (or_introl eq_refl)). apply IH.
    intros z Hz. apply Hl. right. exact Hz.
Qed.

Lemma filter_none {A} (test : A -> bool) (l : list A) :
  (forall y, In y l -> test y = false) -> filter test l = [].
Proof.
  intro H. induction l as [|y l IH]; simpl; [reflexivity|].
  rewrite (H y (or_introl eq_refl)). apply IH.
  intros z Hz. apply H. right. exact Hz.
Qed.

Lemma filter_all {A} (test : A -> bool) (l : list A) :
  (forall y, In y l -> test y = true) -> filter test l = l.
Proof.
  intro H. induction l as [|y l IH]; simpl; [reflexivity|].
  rewrite (H y (or_introl eq_refl)). f_equal. apply IH.
  intros z Hz. apply H. right. exact Hz.
Qed.

Lemma column_eqb_eq (a b : option Z) :
  column_eqb a b = true <-> exists k, a = Some k /\ b = Some k.
Proof.
  destruct a as [x|], b as [y|]; simpl; split;
    try discriminate; try (intros (k & H1 & H2); discriminate).
  - intro H. apply Z.eqb_eq in H as ->. eauto.
  - intros (k & H1 & H2). injection H1 as ->. injection H2 as ->.
    apply Z.eqb_refl.
Qed.

Lemma document_id_fresh (c : Tables.t) (d : Document.t) :
  In d (Tables.documents c) ->
  column_eqb (Document.id d)
    (Some (next_id (map Document.id (Tables.documents c)))) = false.
Proof.
  intro Hin. destruct (column_eqb _ _) eqn:E; [|reflexivity].
  apply column_eqb_eq in E as (k & Hk & Hn). injection Hn as Hn.
  assert (Hlt : k < next_id (map Document.id (Tables.documents c))).
  { apply next_id_above. rewrite <- Hk. apply in_map. exact Hin. }
  lia.
Qed.

Lemma assign_ids_ids {A} (id : A -> option Z) (with_id : Z -> A -> A)
    (rows : list A) :
  (forall j r, id (with_id j r) = Some j) ->
  Forall (fun r => id r = None) rows ->
  forall k,
    map id (assign_ids id with_id k rows) = fresh_ids k (List.length rows).
Proof.
  intro Hid. induction 1 as [|r rows Hr _ IH]; intro k; [reflexivity|].
  simpl. rewrite Hr. simpl. rewrite Hid, IH. unfold fresh_ids.
  simpl. rewrite Z.add_0_r. f_equal. rewrite <- seq_shift, map_map.
  apply map_ext. intro j. f_equal. lia.
Qed.

Lemma fresh_ids_above (ids : list (option Z)) (k0 : Z) (n : nat) :
  next_id ids <= k0 ->
  NoDup (fresh_ids k0 n)
  /\ forall x, In x (fresh_ids k0 n) -> ~ In x ids.
Proof.
  intro Hk. split.
  - unfold fresh_ids. apply Finite.Injective_map_NoDup; [|apply seq_NoDup].
    intros a b H. injection H as H. lia.
  - intros x Hx Hin. unfold fresh_ids in Hx.
    apply in_map_iff in Hx as (j & <- & _).
    apply next_id_above in Hin. lia.
Qed.

Lemma next_id_fresh (ids : list (option Z)) : ~ In (Some (next_id ids)) ids.
Proof. intro H. apply next_id_above in H. lia. Qed.

Lemma NoDup_snoc_fresh {A} (l : list A) (x : A) :
  NoDup l -> ~ In x l -> NoDup (l ++ [x]).
Proof.
  intros Hl Hx. induction Hl as [|y l Hy Hl IH]; simpl.
  - constructor; [intros [] | constructor].
  - constructor.
    + intro Hin. apply in_app_or in Hin as [Hin | [-> | []]];
        [exact (Hy Hin) | apply Hx; left; reflexivity].
    + apply IH. intro Hin. apply Hx. right. exact Hin.
Qed.

Lemma NoDup_app_fresh {A} (l new : list A) :
  NoDup l ->
  NoDup new /\ (forall x, In x new -> ~ In x l) ->
  NoDup (l ++ new).
Proof.
  intros Hl [Hn Hd]. induction Hl as [|y l Hy Hl IH]; [exact Hn|].
  simpl. constructor.
  - intro Hin. apply in_app_or in Hin as [Hin | Hin]; [exact (Hy Hin)|].
    apply (Hd y Hin). left. reflexivity.
  - apply IH. intros x Hx Hin. apply (Hd x Hx). right. exact Hin.
Qed.

Section Upload_properties.

Variable uni_decimal : char -> bool.
Variable uni_alnum : char -> bool.
Variable PdfReader : list Byte.byte -> result (list page).

Local Abbreviation parse_pages := (parse_pages uni_decimal uni_alnum).
Local Abbreviation upload_document :=
  (upload_document uni_decimal uni_alnum PdfReader).

Lemma upload_ok_inv (manufacturer_id : Z) (title : str)
    (revision_date tags : option str) (file : UploadFile) (user : User)
    (w w' : World) (document : Document.t) :
  upload_document manufacturer_id title revision_date tags file user w
  = (Ok document, w') ->
  lower_endswith_pdf (filename file) = true
  /\ exists pages, PdfReader (content file) = Ok pages.
Proof.
  unfold upload_document.
  destruct (lower_endswith_pdf (filename file)) eqn:Epdf;
    [|unfold raise; cbn [negb]; discriminate].
  destruct (PdfReader (content file)) as [pages|e] eqn:Hr.
  - intros _. split; [reflexivity | exists pages; reflexivity].
  - cbn [negb].
    unfold bind, update_fs, save_pdf, bind, with_fs, update_fs, ret.
    cbn [fs db]. rewrite read_write_same. cbn [fs db].
    unfold parse_pdf. rewrite read_temp_after_copy, Hr. discriminate.
Qed.

(** X8.  An upload that returns a document, from a session with nothing
    pending, has committed one document row, the one it returns, one row
    per detected section and one per detected figure, all carrying the
    identifier of the document; a figure row names no section or a section
    row of the same upload; the log entry counts the rows; and nothing
    stays pending. *)
Theorem upload_links_rows (manufacturer_id : Z) (title : str)
    (revision_date tags : option str) (file : UploadFile) (user : User)
    (w w' : World) (document : Document.t) (pages : list page) :
  pending (db w) = Tables.empty ->
  plain_name (filename file) ->
  PdfReader (content file) = Ok pages ->
  upload_document manufacturer_id title revision_date tags file user w
  = (Ok document, w') ->
  exists k added,
    Document.id document = Some k
    /\ committed (db w') = Tables.union (committed (db w)) added
    /\ pending (db w') = Tables.empty
    /\ Tables.documents added = [document]
    /\ List.length (Tables.sections added)
       = List.length (fst (parse_pages pages))
    /\ List.length (Tables.figures added)
       = List.length (snd (parse_pages pages))
    /\ (forall s,
          In s (Tables.sections added) -> Section_.document_id s = Some k)
    /\ (forall f,
          In f (Tables.figures added) ->
          Figure.document_id f = Some k
          /\ (Figure.section_id f = None
              \/ exists s,
                   In s (Tables.sections added)
                   /\ Section_.id s = Figure.section_id f))
    /\ map (fun a => (AuditLog.document_id a, AuditLog.metadata_json a))
         (Tables.audit_logs added)
       = [(Some k,
           [(txt "sections", len (fst (parse_pages pages)));
            (txt "figures", len (snd (parse_pages pages)))])].
Proof.
  intros Hp _ Hr Hup.
  destruct (upload_ok_inv _ _ _ _ _ _ _ _ _ Hup) as (Epdf & _).
  pose proof (upload_document_commits uni_decimal uni_alnum PdfReader
                manufacturer_id title revision_date tags file user w pages
                Hp Epdf Hr) as H.
  cbv zeta in H. rewrite Hup in H.
  remember (parse_pages pages) as parsed eqn:Eparsed in *.
  injection H as Hd Hw.
  subst document w' parsed.
  set (c := committed (db w)) in *.
  set (kd := next_id (map Document.id (Tables.documents c))).
  set (ks := next_id (map Section_.id (Tables.sections c))).
  exists kd. eexists.
  split; [reflexivity|]. split; [reflexivity|]. split; [reflexivity|].
  split; [reflexivity|].
  unfold upload_rows. cbn [Tables.sections Tables.figures Tables.audit_logs].
  fold kd ks.
  split; [apply flushed_section_rows_length|].
  split; [rewrite assign_ids_length; apply length_map|].
  split; [|split; [|reflexivity]].
  - intros s Hs. apply flushed_section_rows_In in Hs as (j & s0 & _ & ->).
    reflexivity.
  - intros f Hf.
    apply assign_ids_In in Hf as (j & r & Hj & ->).
    2:{ apply Forall_forall. intros r Hin.
        apply in_map_iff in Hin as (f0 & <- & _). reflexivity. }
    apply nth_error_In in Hj. apply in_map_iff in Hj as (f0 & <- & Hf0).
    split; [reflexivity|]. cbn [Figure.with_id figure_row Figure.section_id].
    destruct (ParsedFigure.section_index f0) as [i|] eqn:Hi;
      [right | left; reflexivity].
    pose proof (scan_references uni_decimal uni_alnum pages f0 Hf0 Hi) as Hrange.
    assert (Hfst : fst (parse_pages pages)
                   = sections (scan uni_decimal uni_alnum pages)).
    { rewrite parse_pages_sections, nonempty_len.
      destruct (0 <? len (sections (scan uni_decimal uni_alnum pages)))
        eqn:E; [reflexivity|].
      apply Z.ltb_ge in E. lia. }
    rewrite Hfst.
    destruct (nth_error (sections (scan uni_decimal uni_alnum pages))
                (Z.to_nat i)) as [s|] eqn:Es.
    + destruct (@resolve_flushed (Some kd) ks _ f0 i s Hi Hrange Es)
        as [Hrow _].
      eexists. split; [exact (nth_error_In _ _ Hrow)|]. reflexivity.
    + apply nth_error_None in Es. unfold len in Hrange. lia.
Qed.


(** X9.  An upload keeps the identifiers of every table free of
    repetitions: the new rows get identifiers above all that are there. *)
Theorem upload_keeps_keys_unique (manufacturer_id : Z) (title : str)
    (revision_date tags : option str) (file : UploadFile) (user : User)
    (w : World) (pages : list page) :
  pending (db w) = Tables.empty ->
  plain_name (filename file) ->
  lower_endswith_pdf (filename file) = true ->
  PdfReader (content file) = Ok pages ->
  keys_unique (committed (db w)) ->
  keys_unique
    (committed
       (db (snd (upload_document manufacturer_id title revision_date tags
                   file user w)))).
Proof.
  intros Hp _ Epdf Hr (Hd & Hs & Hf & Ha).
  rewrite (upload_document_commits uni_decimal uni_alnum PdfReader
             manufacturer_id title revision_date tags file user w pages
             Hp Epdf Hr).
  cbn [snd db committed]. unfold upload_rows, Tables.union, keys_unique.
  cbn [Tables.documents Tables.sections Tables.figures Tables.audit_logs].
  rewrite !map_app. unfold flushed_section_rows.
  rewrite (assign_ids_ids Section_.id Section_.with_id)
    by (try reflexivity; apply build_section_models_unset).
  rewrite (assign_ids_ids Figure.id Figure.with_id)
    by (try reflexivity; apply Forall_forall; intros r Hin;
        apply in_map_iff in Hin as (f0 & <- & _); reflexivity).
  cbn [map Document.id AuditLog.id].
  split; [|split; [|split]].
  - apply NoDup_snoc_fresh; [exact Hd | apply next_id_fresh].
  - apply NoDup_app_fresh; [exact Hs | apply fresh_ids_above; lia].
  - apply NoDup_app_fresh; [exact Hf | apply fresh_ids_above; lia].
  - apply NoDup_snoc_fresh; [exact Ha | apply next_id_fresh].
Qed.

Lemma parse_pages_numbered (pages : list page) :
  map ParsedSection.order_index (fst (parse_pages pages))
  = one_to (List.length (fst (parse_pages pages))).
Proof.
  destruct (scan_numbered uni_decimal uni_alnum pages) as (_ & Hs & _).
  rewrite parse_pages_sections.
  destruct (nonempty (sections (scan uni_decimal uni_alnum pages)));
    [exact Hs | reflexivity].
Qed.

(** X10.  A document that has been uploaded can be fetched: the download
    handler answers with the stored copy, which holds the uploaded bytes,
    under the original file name, and changes nothing. *)
Theorem uploaded_pdf_is_served (manufacturer_id : Z) (title : str)
    (revision_date tags : option str) (file : UploadFile) (user : User)
    (w w' : World) (document : Document.t) :
  pending (db w) = Tables.empty ->
  plain_name (filename file) ->
  upload_document manufacturer_id title revision_date tags file user w
  = (Ok document, w') ->
  exists k,
    Document.id document = Some k
    /\ forall reader : User,
         exists response,
           get_document_pdf k reader w' = (Ok response, w')
           /\ FileResponse.filename response = filename file
           /\ FileResponse.media_type response = txt "application/pdf"
           /\ read_file (fs w') (FileResponse.path response)
              = Some (content file).
Proof.
  intros Hp _ Hup.
  destruct (upload_ok_inv _ _ _ _ _ _ _ _ _ Hup) as (Epdf & pages & Hr).
  rewrite (upload_document_commits uni_decimal uni_alnum PdfReader
             manufacturer_id title revision_date tags file user w pages
             Hp Epdf Hr) in Hup.
  injection Hup as <- <-.
  set (c := committed (db w)).
  exists (next_id (map Document.id (Tables.documents c))).
  split; [reflexivity|]. intro reader.
  unfold get_document_pdf, bind.
  rewrite query_committed by reflexivity.
  cbn [db committed]. unfold Tables.union, upload_rows.
  cbn [Tables.documents]. fold c.
  rewrite find_fresh.
  - unfold with_fs. cbn [fs Document.storage_key].
    assert (Hex : path_exists (upload_files (fs w) file)
                    (path_join (txt "server/storage")
                       (txt "pdfs/" ++ replace_spaces (filename file)))
                  = true).
    { unfold upload_files, write_file, path_exists. cbn [existsb fst].
      change STORAGE_ROOT with (txt "server/storage").
      rewrite str_eqb_refl. reflexivity. }
    rewrite Hex. cbn [negb]. unfold ret. eexists.
    split; [reflexivity|]. split; [reflexivity|]. split; [reflexivity|].
    cbn [FileResponse.path]. unfold upload_files.
    change STORAGE_ROOT with (txt "server/storage").
    apply read_write_same.
  - intros d Hd. apply document_id_fresh. exact Hd.
  - cbn [Document.id column_eqb]. apply Z.eqb_refl.
Qed.

Lemma flushed_section_columns (d : option Z) (secs : list ParsedSection.t) :
  forall k,
    map section_columns (flushed_section_rows d k secs)
    = map parsed_section_columns secs.
Proof.
  unfold flushed_section_rows. rewrite build_section_models_eq.
  induction secs as [|s secs IH]; intro k; [reflexivity|].
  simpl. f_equal. apply IH.
Qed.

(** X11.  After an upload into tables where every section belongs to a
    document, listing the sections of the new document returns one row per
    detected section, in detection order, with the detected heading, level,
    pages and order index. *)
Theorem uploaded_sections_are_listed (manufacturer_id : Z) (title : str)
    (revision_date tags : option str) (file : UploadFile) (user : User)
    (w w' : World) (document : Document.t) (pages : list page) :
  pending (db w) = Tables.empty ->
  plain_name (filename file) ->
  sections_have_documents (committed (db w)) ->
  PdfReader (content file) = Ok pages ->
  upload_document manufacturer_id title revision_date tags file user w
  = (Ok document, w') ->
  exists k,
    Document.id document = Some k
    /\ forall reader : User,
         exists rows w'',
           list_sections k reader w' = (Ok rows, w'')
           /\ map section_columns rows
              = map parsed_section_columns (fst (parse_pages pages)).
Proof.
  intros Hp _ Hint Hr Hup.
  destruct (upload_ok_inv _ _ _ _ _ _ _ _ _ Hup) as (Epdf & _).
  rewrite (upload_document_commits uni_decimal uni_alnum PdfReader
             manufacturer_id title revision_date tags file user w pages
             Hp Epdf Hr) in Hup.
  cbv zeta in Hup. remember (parse_pages pages) as parsed eqn:Eparsed.
  injection Hup as <- <-.
  set (c := committed (db w)) in *.
  set (kd := next_id (map Document.id (Tables.documents c))).
  exists kd. split; [reflexivity|]. intro reader.
  unfold list_sections, bind.
  rewrite query_committed by reflexivity.
  cbn [db committed]. unfold Tables.union, upload_rows.
  cbn [Tables.sections]. fold c kd.
  set (rows := flushed_section_rows (Some kd)
                 (next_id (map Section_.id (Tables.sections c)))
                 (fst parsed)).
  assert (Hold : filter
                   (fun s => column_eqb (Section_.document_id s) (Some kd))
                   (Tables.sections c) = []).
  { apply filter_none. intros s Hs.
    destruct (Hint s Hs) as (d & Hd & _ & ->).
    apply document_id_fresh. exact Hd. }
  assert (Hnew : filter
                   (fun s => column_eqb (Section_.document_id s) (Some kd))
                   rows = rows).
  { apply filter_all. intros s Hs.
    apply flushed_section_rows_In in Hs as (j & s0 & _ & ->).
    cbn. apply Z.eqb_refl. }
  rewrite filter_app, Hold, Hnew. cbn [app].
  assert (Hcols : map section_columns rows
                  = map parsed_section_columns (fst parsed))
    by apply flushed_section_columns.
  rewrite order_by_fixed.
  - unfold update_db, ret. cbn [fs db]. eexists. eexists.
    split; [reflexivity | exact Hcols].
  - apply (sorted_of_seq Section_.order_index rows 1).
    change Section_.order_index with (fun r => snd (section_columns r)).
    rewrite <- (map_map section_columns snd), Hcols, map_map.
    unfold rows. rewrite flushed_section_rows_length.
    rewrite Eparsed. exact (parse_pages_numbered pages).
Qed.

End Upload_properties.

(* ================================================================== *)
(** * Listing and deleting *)
(* ================================================================== *)

Lemma Permutation_nil_eq {A} (l : list A) : Permutation l [] -> l = [].
Proof. intro H. apply Permutation_sym, Permutation_nil in H. exact H. Qed.

(** X12.  Listing the sections of a document returns exactly the section
    rows of that document, by ascending order index, and logs the request
    with their number; a document without sections, or one that does not
    exist, gives the empty list and is logged all the same.  No other
    table changes.  The identifier asked for and that of the user are
    values of an [Integer] column: the driver refuses others before
    anything is logged. *)
Theorem list_sections_sorted (document_id : Z) (user : User) (w : World) :
  pending (db w) = Tables.empty ->
  in_integer_range document_id ->
  in_integer_range (user_id user) ->
  exists rows entry,
    let c := committed (db w) in
    list_sections document_id user w
    = (Ok rows,
       mk_world (fs w)
         (mk_session
            (Tables.mk (Tables.documents c) (Tables.sections c)
               (Tables.figures c) (Tables.audit_logs c ++ [entry]))
            Tables.empty))
    /\ Sorted (fun a b => Section_.order_index a <= Section_.order_index b)
         rows
    /\ Permutation rows
         (filter
            (fun s => column_eqb (Section_.document_id s) (Some document_id))
            (Tables.sections c))
    /\ AuditLog.action_type entry = txt "VIEW_SECTION_LIST"
    /\ AuditLog.document_id entry = Some document_id
    /\ AuditLog.metadata_json entry = [(txt "count", len rows)].
Proof.
  intros Hp _ _. unfold list_sections, bind.
  rewrite query_committed by exact Hp.
  destruct w as [fs0 [c p]]. cbn [db pending] in Hp. subst p.
  unfold update_db, ret. cbn [fs db committed].
  rewrite commit_audit_log by reflexivity.
  eexists. eexists. split; [reflexivity|].
  split; [apply order_by_sorted|].
  split; [apply Permutation_sym, order_by_perm|].
  repeat split.
Qed.

(** X13.  Listing the figures of a section returns exactly the figure rows
    that name that section, by ascending order index, and logs the request
    with their number.  No other table changes.  The identifier asked for
    and that of the user are values of an [Integer] column: the driver
    refuses others before anything is logged. *)
Theorem list_figures_sorted (section_id : Z) (user : User) (w : World) :
  pending (db w) = Tables.empty ->
  in_integer_range section_id ->
  in_integer_range (user_id user) ->
  exists rows entry,
    let c := committed (db w) in
    list_figures section_id user w
    = (Ok rows,
       mk_world (fs w)
         (mk_session
            (Tables.mk (Tables.documents c) (Tables.sections c)
               (Tables.figures c) (Tables.audit_logs c ++ [entry]))
            Tables.empty))
    /\ Sorted (fun a b => Figure.order_index a <= Figure.order_index b) rows
    /\ Permutation rows
         (filter
            (fun f => column_eqb (Figure.section_id f) (Some section_id))
            (Tables.figures c))
    /\ AuditLog.action_type entry = txt "VIEW_SECTION"
    /\ AuditLog.section_id entry = Some section_id
    /\ AuditLog.metadata_json entry = [(txt "count", len rows)].
Proof.
  intros Hp _ _. unfold list_figures, bind.
  rewrite query_committed by exact Hp.
  destruct w as [fs0 [c p]]. cbn [db pending] in Hp. subst p.
  unfold update_db, ret. cbn [fs db committed].
  rewrite commit_audit_log by reflexivity.
  eexists. eexists. split; [reflexivity|].
  split; [apply order_by_sorted|].
  split; [apply Permutation_sym, order_by_perm|].
  repeat split.
Qed.

Lemma delete_nothing_pending (document_id : Z) (c : Tables.t) :
  delete document_id (mk_session c Tables.empty)
  = mk_session
      (delete_from document_id
         (filter
            (fun r => column_eqb (Section_.document_id r) (Some document_id))
            (Tables.sections c))
         c)
      Tables.empty.
Proof.
  unfold delete. cbn [committed pending Tables.sections Tables.empty].
  rewrite app_nil_r. reflexivity.
Qed.

(** The committed tables after the deletion of a document from a session
    with nothing pending. *)
Lemma delete_document_found (document_id : Z) (user : User) (w : World)
    (d : Document.t) :
  pending (db w) = Tables.empty ->
  find (fun d => column_eqb (Document.id d) (Some document_id))
    (Tables.documents (committed (db w))) = Some d ->
  let c := committed (db w) in
  let left :=
    delete_from document_id
      (filter
         (fun r => column_eqb (Section_.document_id r) (Some document_id))
         (Tables.sections c))
      c in
  delete_document document_id user w
  = (Ok [(txt "status", txt "deleted")],
     mk_world (fs w)
       (mk_session
          (Tables.mk (Tables.documents left) (Tables.sections left)
             (Tables.figures left)
             (Tables.audit_logs c ++
              [AuditLog.mk
                 (Some (next_id (map AuditLog.id (Tables.audit_logs c))))
                 (user_id user) (user_role user) (txt "DELETE_DOC") None
                 (Some document_id) None []]))
          Tables.empty)).
Proof.
  intros Hp Hfind c left. unfold delete_document, bind.
  rewrite query_committed by exact Hp. rewrite Hfind.
  destruct w as [fs0 [c0 p]]. cbn [db pending committed] in *. subst p.
  unfold update_db, ret. cbn [fs db].
  rewrite delete_nothing_pending, commit_audit_log by reflexivity.
  reflexivity.
Qed.

Lemma delete_document_missing (document_id : Z) (user : User) (w : World) :
  pending (db w) = Tables.empty ->
  find (fun d => column_eqb (Document.id d) (Some document_id))
    (Tables.documents (committed (db w))) = None ->
  delete_document document_id user w
  = (Raise (HTTPException 404 (txt "Document not found")), w).
Proof.
  intros Hp Hfind. unfold delete_document, bind.
  rewrite query_committed by exact Hp. rewrite Hfind. reflexivity.
Qed.

Lemma column_neqb (a : option Z) (k : Z) :
  negb (column_eqb a (Some k)) = true <-> a <> Some k.
Proof.
  rewrite negb_true_iff. split.
  - intros H ->. simpl in H. rewrite Z.eqb_refl in H. discriminate.
  - intro H. destruct (column_eqb a (Some k)) eqn:E; [|reflexivity].
    apply column_eqb_eq in E as (j & -> & Hj). congruence.
Qed.

(** The figures that survive the deletion of a document. *)
Lemma delete_from_figures (document_id : Z) (gone : list Section_.t)
    (t : Tables.t) (f : Figure.t) :
  In f (Tables.figures (delete_from document_id gone t)) <->
  In f (Tables.figures t)
  /\ Figure.document_id f <> Some document_id
  /\ ~ (exists s k,
          In s gone /\ Section_.id s = Some k /\ Figure.section_id f = Some k).
Proof.
  unfold delete_from. cbn [Tables.figures]. rewrite filter_In, negb_orb.
  rewrite andb_true_iff, column_neqb, negb_true_iff.
  split.
  - intros (Hin & Hd & Hs). split; [exact Hin|]. split; [exact Hd|].
    intros (s & k & Hg & Hid & Hf).
    assert (E : existsb
                  (fun s => column_eqb (Section_.id s) (Figure.section_id f))
                  gone = true).
    { apply existsb_exists. exists s. split; [exact Hg|].
      apply column_eqb_eq. eauto. }
    congruence.
  - intros (Hin & Hd & Hs). split; [exact Hin|]. split; [exact Hd|].
    destruct (existsb _ gone) eqn:E; [|reflexivity].
    exfalso. apply Hs. apply existsb_exists in E as (s & Hg & Hc).
    apply column_eqb_eq in Hc as (k & Hid & Hf). eauto.
Qed.

(** X14.  Deleting a document that exists removes its row, every section
    row of the document and every figure row that belongs to the document
    or names one of its sections; every other document, section and
    figure row stays, the files stay, and one log entry is added.
    Deleting a document that does not exist fails with status 404 and
    changes nothing.  The identifier asked for and that of the user are
    values of an [Integer] column: the driver refuses others in the
    first query. *)
Theorem delete_document_cascades (document_id : Z) (user : User)
    (w : World) :
  pending (db w) = Tables.empty ->
  in_integer_range document_id ->
  in_integer_range (user_id user) ->
  let t := committed (db w) in
  match find (fun d => column_eqb (Document.id d) (Some document_id))
          (Tables.documents t) with
  | None =>
      delete_document document_id user w
      = (Raise (HTTPException 404 (txt "Document not found")), w)
  | Some _ =>
      exists w',
        delete_document document_id user w
        = (Ok [(txt "status", txt "deleted")], w')
        /\ fs w' = fs w
        /\ pending (db w') = Tables.empty
        /\ (forall d,
              In d (Tables.documents (committed (db w'))) <->
              In d (Tables.documents t) /\ Document.id d <> Some document_id)
        /\ (forall s,
              In s (Tables.sections (committed (db w'))) <->
              In s (Tables.sections t)
              /\ Section_.document_id s <> Some document_id)
        /\ (forall f,
              In f (Tables.figures (committed (db w'))) <->
              In f (Tables.figures t)
              /\ Figure.document_id f <> Some document_id
              /\ ~ (exists s k,
                      In s (Tables.sections t)
                      /\ Section_.document_id s = Some document_id
                      /\ Section_.id s = Some k
                      /\ Figure.section_id f = Some k))
        /\ List.length (Tables.audit_logs (committed (db w')))
           = S (List.length (Tables.audit_logs t))
  end.
Proof.
  intros Hp _ _ t.
  destruct (find _ (Tables.documents t)) as [d|] eqn:Hfind.
  - pose proof (delete_document_found document_id user w d Hp Hfind) as H.
    cbv zeta in H. fold t in H.
    eexists. split; [exact H|]. cbn [fs db pending committed].
    split; [reflexivity|]. split; [reflexivity|].
    cbn [Tables.documents Tables.sections Tables.figures Tables.audit_logs].
    split; [|split; [|split]].
    + intro d'. unfold delete_from. cbn [Tables.documents].
      rewrite filter_In, column_neqb. reflexivity.
    + intro s. unfold delete_from. cbn [Tables.sections].
      rewrite filter_In, column_neqb. reflexivity.
    + intro f. rewrite delete_from_figures.
      split; intros (Hin & Hd & Hs); (split; [exact Hin|]);
        (split; [exact Hd|]); intros (s & k & H1); apply Hs; exists s, k.
      * destruct H1 as (Hs1 & Hs2 & Hs3 & Hs4).
        split; [|auto]. apply filter_In. split; [exact Hs1|].
        apply column_eqb_eq. eauto.
      * destruct H1 as (Hg & Hid & Hf). apply filter_In in Hg as [Hs1 Hs2].
        apply column_eqb_eq in Hs2 as (j & Hj & Hj'). injection Hj' as <-.
        auto.
    + rewrite length_app. simpl. lia.
  - exact (delete_document_missing document_id user w Hp Hfind).
Qed.

(* ================================================================== *)
(** * References between the tables *)
(* ================================================================== *)

Section Upload_references.

Variable uni_decimal : char -> bool.
Variable uni_alnum : char -> bool.
Variable PdfReader : list Byte.byte -> result (list page).

Local Abbreviation parse_pages := (parse_pages uni_decimal uni_alnum).
Local Abbreviation upload_document :=
  (upload_document uni_decimal uni_alnum PdfReader).

(** The rows of an upload refer to each other. *)
Lemma upload_rows_linked (c : Tables.t) (manufacturer_id : Z) (title : str)
    (revision_date tags : option str) (file : UploadFile) (user : User)
    (pages : list page) :
  let kd := next_id (map Document.id (Tables.documents c)) in
  let ks := next_id (map Section_.id (Tables.sections c)) in
  let added :=
    upload_rows c manufacturer_id title revision_date tags file user
      (fst (parse_pages pages)) (snd (parse_pages pages)) in
  (forall s,
     In s (Tables.sections added) ->
     Section_.document_id s = Some kd
     /\ exists j, Section_.id s = Some (ks + Z.of_nat j))
  /\ (forall f,
        In f (Tables.figures added) ->
        Figure.document_id f = Some kd
        /\ (Figure.section_id f = None
            \/ exists s,
                 In s (Tables.sections added)
                 /\ Section_.id s = Figure.section_id f)).
Proof.
  intros kd ks added. unfold added, upload_rows.
  cbn [Tables.sections Tables.figures]. fold kd ks. split.
  - intros s Hs. apply flushed_section_rows_In in Hs as (j & s0 & _ & ->).
    split; [reflexivity | exists j; reflexivity].
  - intros f Hf.
    apply assign_ids_In in Hf as (j & r & Hj & ->).
    2:{ apply Forall_forall. intros r Hin.
        apply in_map_iff in Hin as (f0 & <- & _). reflexivity. }
    apply nth_error_In in Hj. apply in_map_iff in Hj as (f0 & <- & Hf0).
    split; [reflexivity|]. cbn [Figure.with_id figure_row Figure.section_id].
    destruct (ParsedFigure.section_index f0) as [i|] eqn:Hi;
      [right | left; reflexivity].
    pose proof (scan_references uni_decimal uni_alnum pages f0 Hf0 Hi) as Hrange.
    assert (Hfst : fst (parse_pages pages)
                   = sections (scan uni_decimal uni_alnum pages)).
    { rewrite parse_pages_sections, nonempty_len.
      destruct (0 <? len (sections (scan uni_decimal uni_alnum pages)))
        eqn:E; [reflexivity|].
      apply Z.ltb_ge in E. lia. }
    rewrite Hfst.
    destruct (nth_error (sections (scan uni_decimal uni_alnum pages))
                (Z.to_nat i)) as [s|] eqn:Es.
    + destruct (@resolve_flushed (Some kd) ks _ f0 i s Hi Hrange Es)
        as [Hrow _].
      eexists. split; [exact (nth_error_In _ _ Hrow)|]. reflexivity.
    + apply nth_error_None in Es. unfold len in Hrange. lia.
Qed.

(** An upload either returns a document or leaves the database as it
    was. *)
Lemma upload_document_outcome (manufacturer_id : Z) (title : str)
    (revision_date tags : option str) (file : UploadFile) (user : User)
    (w : World) :
  (lower_endswith_pdf (filename file) = true
   /\ exists pages, PdfReader (content file) = Ok pages)
  \/ db (snd (upload_document manufacturer_id title revision_date tags file
                user w)) = db w.
Proof.
  destruct (lower_endswith_pdf (filename file)) eqn:Epdf.
  - destruct (PdfReader (content file)) as [pages|e] eqn:Hr.
    + left. split; [reflexivity | exists pages; reflexivity].
    + right. unfold upload_document. rewrite Epdf. cbn [negb].
      unfold bind, update_fs, save_pdf, bind, with_fs, update_fs, ret.
      cbn [fs db]. rewrite read_write_same. cbn [fs db].
      unfold parse_pdf. rewrite read_temp_after_copy, Hr. reflexivity.
  - right. unfold upload_document. rewrite Epdf. reflexivity.
Qed.

(** X15.  If every section and figure row belongs to a document row and
    every section named by a figure row exists, the same holds after an
    upload, whatever its outcome. *)
Theorem upload_keeps_references (manufacturer_id : Z) (title : str)
    (revision_date tags : option str) (file : UploadFile) (user : User)
    (w : World) :
  pending (db w) = Tables.empty ->
  plain_name (filename file) ->
  references_resolve (committed (db w)) ->
  references_resolve
    (committed
       (db (snd (upload_document manufacturer_id title revision_date tags
                   file user w)))).
Proof.
  intros Hp _ Href.
  destruct (upload_document_outcome manufacturer_id title revision_date tags
              file user w) as [(Epdf & pages & Hr) | Hsame];
    [|rewrite Hsame; exact Href].
  rewrite (upload_document_commits uni_decimal uni_alnum PdfReader
             manufacturer_id title revision_date tags file user w pages
             Hp Epdf Hr).
  cbn [snd db committed].
  destruct (upload_rows_linked (committed (db w)) manufacturer_id title
              revision_date tags file user pages) as [Hsec Hfig].
  cbv zeta in Hsec, Hfig.
  set (c := committed (db w)) in *.
  set (added := upload_rows c manufacturer_id title revision_date tags file
                  user (fst (parse_pages pages)) (snd (parse_pages pages)))
    in *.
  assert (Hdoc : exists d,
             In d (Tables.documents (Tables.union c added))
             /\ Document.id d <> None
             /\ Document.id d
                = Some (next_id (map Document.id (Tables.documents c)))).
  { exists (Document.mk
              (Some (next_id (map Document.id (Tables.documents c))))
              manufacturer_id title (filename file)
              (txt "pdfs/" ++ replace_spaces (filename file))
              (user_id user) revision_date tags).
    split; [|split; [discriminate | reflexivity]].
    unfold Tables.union. cbn [Tables.documents]. apply in_or_app.
    right. left. reflexivity. }
  destruct Href as (H1 & H2 & H3).
  split; [|split].
  - intros s Hs. unfold Tables.union in Hs. cbn [Tables.sections] in Hs.
    apply in_app_or in Hs as [Hs | Hs].
    + destruct (H1 s Hs) as (d & Hd & Hrest). exists d.
      split; [|exact Hrest]. unfold Tables.union. cbn [Tables.documents].
      apply in_or_app. left. exact Hd.
    + destruct Hdoc as (d & Hd & Hne & Hid). exists d.
      split; [exact Hd|]. split; [exact Hne|].
      rewrite Hid. exact (proj1 (Hsec s Hs)).
  - intros f k Hf Hk. unfold Tables.union in Hf |- *.
    cbn [Tables.figures Tables.sections] in Hf |- *.
    apply in_app_or in Hf as [Hf | Hf].
    + destruct (H2 f k Hf Hk) as (s & Hs & Hid). exists s.
      split; [apply in_or_app; left; exact Hs | exact Hid].
    + destruct (Hfig f Hf) as (_ & [Hnone | (s & Hs & Hid)]); [congruence|].
      exists s. split; [apply in_or_app; right; exact Hs | congruence].
  - intros f Hf. unfold Tables.union in Hf. cbn [Tables.figures] in Hf.
    apply in_app_or in Hf as [Hf | Hf].
    + destruct (H3 f Hf) as (d & Hd & Hrest). exists d.
      split; [|exact Hrest]. unfold Tables.union. cbn [Tables.documents].
      apply in_or_app. left. exact Hd.
    + destruct Hdoc as (d & Hd & Hne & Hid). exists d.
      split; [exact Hd|]. split; [exact Hne|].
      rewrite Hid. exact (proj1 (Hfig f Hf)).
Qed.

End Upload_references.

Lemma filter_app_old_only {A} (test : A -> bool) (old new : list A) :
  (forall x, In x old -> test x = true) ->
  (forall x, In x new -> test x = false) ->
  filter test (old ++ new) = old.
Proof.
  intros Ho Hn. rewrite filter_app, (filter_all test old Ho),
    (filter_none test new Hn). apply app_nil_r.
Qed.

Lemma filter_app_new_only {A} (test : A -> bool) (old new : list A) :
  (forall x, In x old -> test x = false) ->
  (forall x, In x new -> test x = true) ->
  filter test (old ++ new) = new.
Proof.
  intros Ho Hn. rewrite filter_app, (filter_none test old Ho),
    (filter_all test new Hn). reflexivity.
Qed.

Section Upload_then_delete.

Variable uni_decimal : char -> bool.
Variable uni_alnum : char -> bool.
Variable PdfReader : list Byte.byte -> result (list page).

Local Abbreviation parse_pages := (parse_pages uni_decimal uni_alnum).
Local Abbreviation upload_document :=
  (upload_document uni_decimal uni_alnum PdfReader).

(** X16.  Deleting a document right after its upload gives back the
    document, section and figure tables as they were before the upload,
    provided the references of those tables resolved.  The stored copy of
    the PDF is not removed. *)
Theorem upload_then_delete_restores (manufacturer_id : Z) (title : str)
    (revision_date tags : option str) (file : UploadFile)
    (user admin : User) (w w' : World) (document : Document.t) :
  pending (db w) = Tables.empty ->
  plain_name (filename file) ->
  references_resolve (committed (db w)) ->
  upload_document manufacturer_id title revision_date tags file user w
  = (Ok document, w') ->
  exists k w'',
    Document.id document = Some k
    /\ delete_document k admin w' = (Ok [(txt "status", txt "deleted")], w'')
    /\ Tables.documents (committed (db w''))
       = Tables.documents (committed (db w))
    /\ Tables.sections (committed (db w''))
       = Tables.sections (committed (db w))
    /\ Tables.figures (committed (db w''))
       = Tables.figures (committed (db w))
    /\ read_file (fs w'')
         (path_join STORAGE_ROOT (Document.storage_key document))
       = Some (content file).
Proof.
  intros Hp _ (H1 & H2 & H3) Hup.
  destruct (upload_ok_inv uni_decimal uni_alnum PdfReader _ _ _ _ _ _ _ _ _
              Hup) as (Epdf & pages & Hr).
  rewrite (upload_document_commits uni_decimal uni_alnum PdfReader
             manufacturer_id title revision_date tags file user w pages
             Hp Epdf Hr) in Hup.
  cbv zeta in Hup.
  destruct (upload_rows_linked uni_decimal uni_alnum (committed (db w))
              manufacturer_id title revision_date tags file user pages)
    as [Hsec Hfig].
  cbv zeta in Hsec, Hfig.
  remember (parse_pages pages) as parsed eqn:Eparsed.
  set (c := committed (db w)) in *.
  set (kd := next_id (map Document.id (Tables.documents c))) in *.
  set (ks := next_id (map Section_.id (Tables.sections c))) in *.
  remember (upload_rows c manufacturer_id title revision_date tags file user
              (fst parsed) (snd parsed)) as added eqn:Eadded.
  assert (Edocs : Tables.documents added
                  = [Document.mk (Some kd) manufacturer_id title
                       (filename file)
                       (txt "pdfs/" ++ replace_spaces (filename file))
                       (user_id user) revision_date tags])
    by (rewrite Eadded; reflexivity).
  rewrite Edocs in Hup. cbn [hd] in Hup. injection Hup as <- <-.
  exists kd.
  assert (Hfind : find (fun d => column_eqb (Document.id d) (Some kd))
                    (Tables.documents (Tables.union c added))
                  = Some (Document.mk (Some kd) manufacturer_id title
                            (filename file)
                            (txt "pdfs/" ++ replace_spaces (filename file))
                            (user_id user) revision_date tags)).
  { unfold Tables.union. cbn [Tables.documents]. rewrite Edocs.
    apply find_fresh.
    - intros d Hd. apply document_id_fresh. exact Hd.
    - cbn. apply Z.eqb_refl. }
  eexists. split; [reflexivity|].
  split.
  { apply delete_document_found with (d := Document.mk (Some kd)
      manufacturer_id title (filename file)
      (txt "pdfs/" ++ replace_spaces (filename file)) (user_id user)
      revision_date tags); [reflexivity | exact Hfind]. }
  cbn [db committed fs Tables.documents Tables.sections Tables.figures].
  assert (Hold_sec : forall s,
             In s (Tables.sections c) ->
             column_eqb (Section_.document_id s) (Some kd) = false).
  { intros s Hs. destruct (H1 s Hs) as (d & Hd & _ & ->).
    apply document_id_fresh. exact Hd. }
  assert (Hnew_sec : forall s,
             In s (Tables.sections added) ->
             column_eqb (Section_.document_id s) (Some kd) = true).
  { intros s Hs. rewrite (proj1 (Hsec s Hs)). cbn. apply Z.eqb_refl. }
  unfold delete_from, Tables.union.
  cbn [Tables.documents Tables.sections Tables.figures].
  split; [|split; [|split]].
  - rewrite Edocs. apply filter_app_old_only.
    + intros d Hd. apply negb_true_iff. exact (document_id_fresh c d Hd).
    + intros d [<- | []]. cbn. rewrite Z.eqb_refl. reflexivity.
  - apply filter_app_old_only.
    + intros s Hs. rewrite Hold_sec by exact Hs. reflexivity.
    + intros s Hs. rewrite Hnew_sec by exact Hs. reflexivity.
  - rewrite (filter_app_new_only _ _ _ Hold_sec Hnew_sec).
    apply filter_app_old_only.
    + intros f Hf. apply negb_true_iff, orb_false_iff. split.
      * destruct (H3 f Hf) as (d & Hd & _ & ->).
        apply document_id_fresh. exact Hd.
      * destruct (existsb _ (Tables.sections added)) eqn:E; [|reflexivity].
        exfalso. apply existsb_exists in E as (s & Hs & Hc).
        apply column_eqb_eq in Hc as (k & Hid & Hk).
        destruct (proj2 (Hsec s Hs)) as [j Hj].
        destruct (H2 f k Hf Hk) as (s' & Hs' & Hid').
        assert (Hlt : k < ks).
        { apply next_id_above. rewrite <- Hid'. apply in_map. exact Hs'. }
        rewrite Hid in Hj. injection Hj as Hj. lia.
    + intros f Hf. rewrite (proj1 (Hfig f Hf)). cbn.
      rewrite Z.eqb_refl. reflexivity.
  - unfold upload_files. cbn [Document.storage_key]. apply read_write_same.
Qed.

End Upload_then_delete.

(** X17.  If every section and figure row belongs to a document row and
    every section named by a figure row exists, the same holds after the
    deletion of a document, whatever its outcome: the cascade leaves no
    row behind that names a deleted one. *)
Theorem delete_keeps_references (document_id : Z) (user : User) (w : World) :
  pending (db w) = Tables.empty ->
  references_resolve (committed (db w)) ->
  references_resolve
    (committed (db (snd (delete_document document_id user w)))).
Proof.
  intros Hp (H1 & H2 & H3).
  destruct (find (fun d => column_eqb (Document.id d) (Some document_id))
              (Tables.documents (committed (db w)))) as [d0|] eqn:Hfind.
  2:{ rewrite (delete_document_missing document_id user w Hp Hfind).
      repeat split; assumption. }
  rewrite (delete_document_found document_id user w d0 Hp Hfind).
  cbn [snd db committed].
  set (t := committed (db w)) in *.
  set (gone := filter _ (Tables.sections t)).
  assert (Hdocs : forall d,
             In d (Tables.documents t) -> Document.id d <> Some document_id ->
             In d (Tables.documents (delete_from document_id gone t))).
  { intros d Hd Hne. unfold delete_from. cbn [Tables.documents].
    apply filter_In. split; [exact Hd | apply column_neqb; exact Hne]. }
  split; [|split].
  - intros s Hs. cbn [Tables.sections Tables.documents] in *.
    unfold delete_from in Hs. cbn [Tables.sections] in Hs.
    apply filter_In in Hs as [Hs Hne]. apply column_neqb in Hne.
    destruct (H1 s Hs) as (d & Hd & Hset & Hid). exists d.
    split; [apply Hdocs; [exact Hd | congruence] | auto].
  - intros f k Hf Hk. cbn [Tables.figures Tables.sections] in *.
    apply delete_from_figures in Hf as (Hf & _ & Hkeep).
    destruct (H2 f k Hf Hk) as (s & Hs & Hid). exists s.
    split; [|exact Hid]. unfold delete_from. cbn [Tables.sections].
    apply filter_In. split; [exact Hs|]. apply column_neqb. intro Hdoc.
    apply Hkeep. exists s, k. split; [|auto].
    apply filter_In. split; [exact Hs|]. apply column_eqb_eq. eauto.
  - intros f Hf. cbn [Tables.figures Tables.documents] in *.
    apply delete_from_figures in Hf as (Hf & Hne & _).
    destruct (H3 f Hf) as (d & Hd & Hset & Hid). exists d.
    split; [apply Hdocs; [exact Hd | congruence] | auto].
Qed.

(* ================================================================== *)
(** * Files of an upload *)
(* ================================================================== *)

Lemma is_letter_ci_ascii (lower c : char) :
  lower <> code "i" -> lower <> code "k" -> lower <> code "s" ->
  (is_letter_ci lower c = true <-> c = lower \/ c = (lower - 32)%N).
Proof.
  intros Hi Hk Hs. unfold is_letter_ci.
  apply N.eqb_neq in Hi, Hk, Hs.
  change (code "i") with 105%N in Hi. change (code "k") with 107%N in Hk.
  change (code "s") with 115%N in Hs.
  rewrite Hi, Hk, Hs. cbn [andb]. rewrite !orb_false_r, orb_true_iff.
  rewrite !N.eqb_eq. reflexivity.
Qed.

Lemma lower_endswith_pdf_spec (name : str) :
  lower_endswith_pdf name = true <-> pdf_name name.
Proof.
  unfold lower_endswith_pdf, pdf_name. split.
  - destruct (rev name) as [|c4 [|c3 [|c2 [|c1 front]]]] eqn:E;
      try discriminate.
    rewrite !andb_true_iff. intros (((H1 & H2) & H3) & H4).
    apply N.eqb_eq in H1.
    apply is_letter_ci_ascii in H2, H3, H4; try discriminate.
    exists (rev front), c2, c3, c4. split.
    + rewrite <- (rev_involutive name), E. simpl. rewrite <- !app_assoc.
      simpl. rewrite H1. reflexivity.
    + destruct H2 as [-> | ->], H3 as [-> | ->], H4 as [-> | ->];
        repeat split;
        first [left; reflexivity | right; left; reflexivity].
  - intros (stem & p & d & f & -> & Hp & Hd & Hf).
    rewrite rev_app_distr.
    destruct Hp as [<- | [<- | []]], Hd as [<- | [<- | []]],
      Hf as [<- | [<- | []]]; reflexivity.
Qed.

Lemma write_file_longer (fs : files) (p1 p2 : str) (b1 b2 : list Byte.byte) :
  write_file (write_file fs p1 b1) p2 b2 <> fs.
Proof.
  intro H. apply (f_equal (@List.length _)) in H.
  unfold write_file in H. simpl in H. lia.
Qed.

Section Upload_files.

Variable uni_decimal : char -> bool.
Variable uni_alnum : char -> bool.
Variable PdfReader : list Byte.byte -> result (list page).

Local Abbreviation upload_document :=
  (upload_document uni_decimal uni_alnum PdfReader).

(** The files after an upload under a name that ends in ".pdf". *)
Lemma upload_document_files (manufacturer_id : Z) (title : str)
    (revision_date tags : option str) (file : UploadFile) (user : User)
    (w : World) :
  lower_endswith_pdf (filename file) = true ->
  fs (snd (upload_document manufacturer_id title revision_date tags file
             user w))
  = upload_files (fs w) file.
Proof.
  intros Epdf.
  unfold upload_document. rewrite Epdf. cbn [negb].
  unfold bind, update_fs, save_pdf, bind, with_fs, update_fs, ret.
  cbn [fs db]. rewrite read_write_same. cbn [fs db].
  destruct (parse_pdf _ _ _ _ _) as [[secs figs]|e]; [|reflexivity].
  unfold add_document_and_flush, add_all_sections_and_flush, lift, update_db.
  cbv beta iota zeta. cbn [fs db].
  destruct (build_figure_models _ _ _); reflexivity.
Qed.

(** X18.  An upload is refused with status 400, leaving files and database
    untouched, exactly when the file name does not end in ".pdf" in some
    mix of upper and lower case. *)
Theorem upload_refused_iff_not_pdf (manufacturer_id : Z) (title : str)
    (revision_date tags : option str) (file : UploadFile) (user : User)
    (w : World) :
  upload_document manufacturer_id title revision_date tags file user w
  = (Raise (HTTPException 400 (txt "Only PDF files allowed")), w)
  <-> ~ pdf_name (filename file).
Proof.
  rewrite <- lower_endswith_pdf_spec. split.
  - intros H Epdf.
    assert (Hfs : fs (snd (upload_document manufacturer_id title
                             revision_date tags file user w)) = fs w)
      by (rewrite H; reflexivity).
    rewrite upload_document_files in Hfs by exact Epdf.
    exact (write_file_longer _ _ _ _ _ Hfs).
  - intro H. apply not_true_is_false in H.
    unfold upload_document. rewrite H. reflexivity.
Qed.

(** X19.  An upload that returns a document, and equally one that ends
    with a [PdfReadError], which only the extraction raises, leaves two
    files behind: the temporary file and the stored copy, both with the
    uploaded bytes.  A failed extraction removes neither.  An upload that
    ends otherwise, as when the temporary file cannot be opened, is not
    spoken of. *)
Theorem upload_leaves_files (manufacturer_id : Z) (title : str)
    (revision_date tags : option str) (file : UploadFile) (user : User)
    (w w' : World) (outcome : result Document.t) :
  plain_name (filename file) ->
  upload_document manufacturer_id title revision_date tags file user w
  = (outcome, w') ->
  (exists document, outcome = Ok document)
  \/ (exists message, outcome = Raise (PdfReadError message)) ->
  read_file (fs w') (path_join (txt "server/storage/tmp") (filename file))
  = Some (content file)
  /\ read_file (fs w')
       (path_join STORAGE_ROOT
          (txt "pdfs/" ++ replace_spaces (filename file)))
     = Some (content file).
Proof.
  intros _ Hup Hout.
  destruct (lower_endswith_pdf (filename file)) eqn:Epdf.
  - pose proof (upload_document_files manufacturer_id title revision_date
                  tags file user w Epdf) as Hfs.
    rewrite Hup in Hfs. cbn [snd] in Hfs. rewrite Hfs.
    unfold upload_files. split.
    + apply read_temp_after_copy.
    + apply read_write_same.
  - exfalso. revert Hup. unfold upload_document. rewrite Epdf.
    cbn [negb]. unfold raise. intro Hup. injection Hup as <- _.
    destruct Hout as [[document H] | [message H]]; discriminate H.
Qed.

(** X20.  The stored copy is keyed by the file name with spaces turned
    into underscores, so two uploads whose names agree after that change
    share one copy: the second upload overwrites it, and the first
    document then points at the bytes of the second. *)
Theorem same_key_overwrites (manufacturer_id1 manufacturer_id2 : Z)
    (title1 title2 : str) (revision_date1 revision_date2 : option str)
    (tags1 tags2 : option str) (file1 file2 : UploadFile)
    (user1 user2 : User) (w w1 w2 : World) (document1 document2 : Document.t) :
  pending (db w) = Tables.empty ->
  plain_name (filename file1) ->
  plain_name (filename file2) ->
  replace_spaces (filename file1) = replace_spaces (filename file2) ->
  upload_document manufacturer_id1 title1 revision_date1 tags1 file1 user1 w
  = (Ok document1, w1) ->
  upload_document manufacturer_id2 title2 revision_date2 tags2 file2 user2 w1
  = (Ok document2, w2) ->
  Document.storage_key document1 = Document.storage_key document2
  /\ Document.id document1 <> Document.id document2
  /\ read_file (fs w2)
       (path_join STORAGE_ROOT (Document.storage_key document1))
     = Some (content file2).
Proof.
  intros Hp _ _ Hkey Hup1 Hup2.
  destruct (upload_ok_inv uni_decimal uni_alnum PdfReader _ _ _ _ _ _ _ _ _
              Hup1) as (Epdf1 & pages1 & Hr1).
  destruct (upload_ok_inv uni_decimal uni_alnum PdfReader _ _ _ _ _ _ _ _ _
              Hup2) as (Epdf2 & pages2 & Hr2).
  pose proof (upload_document_commits uni_decimal uni_alnum PdfReader
                manufacturer_id1 title1 revision_date1 tags1 file1 user1 w
                pages1 Hp Epdf1 Hr1) as E1.
  cbv zeta in E1. rewrite Hup1 in E1. injection E1 as Hd1 Hw1.
  assert (Hp1 : pending (db w1) = Tables.empty)
    by (rewrite Hw1; reflexivity).
  pose proof (upload_document_commits uni_decimal uni_alnum PdfReader
                manufacturer_id2 title2 revision_date2 tags2 file2 user2 w1
                pages2 Hp1 Epdf2 Hr2) as E2.
  cbv zeta in E2. rewrite Hup2 in E2. injection E2 as Hd2 Hw2.
  cbn [hd upload_rows Tables.documents] in Hd1, Hd2.
  rewrite Hd1, Hd2, Hw2.
  cbn [Document.storage_key Document.id fs].
  split; [rewrite Hkey; reflexivity|]. split.
  - intro H. injection H as H.
    assert (Hlt : next_id
                    (map Document.id (Tables.documents (committed (db w))))
                  < next_id
                      (map Document.id
                         (Tables.documents (committed (db w1))))).
    { apply next_id_above. rewrite Hw1.
      cbn [db committed Tables.union Tables.documents upload_rows].
      rewrite map_app. apply in_or_app. right. left. reflexivity. }
    rewrite <- H in Hlt. lia.
  - unfold upload_files. rewrite Hkey. apply read_write_same.
Qed.

End Upload_files.

(* ================================================================== *)
(** * The route guards *)
(* ================================================================== *)

Lemma replace_first_unfold (old new s : str) :
  replace_first old new s
  = if starts_with old s then new ++ skipn (List.length old) s
    else
      match s with
      | [] => []
      | c :: rest => c :: replace_first old new rest
      end.
Proof. destruct s; reflexivity. Qed.

Lemma starts_with_spec (prefix s : str) :
  starts_with prefix s = true <-> exists rest, s = prefix ++ rest.
Proof.
  revert s. induction prefix as [|c prefix IH]; intros s; simpl.
  - split; [intros _; exists s; reflexivity | reflexivity].
  - destruct s as [|d s].
    + split; [discriminate | intros (rest & H); discriminate].
    + rewrite andb_true_iff, N.eqb_eq, IH. split.
      * intros (-> & rest & ->). exists rest. reflexivity.
      * intros (rest & H). injection H as -> ->. split; [reflexivity|].
        exists rest. reflexivity.
Qed.

Lemma replace_first_prefix (old new rest : str) :
  replace_first old new (old ++ rest) = new ++ rest.
Proof.
  rewrite replace_first_unfold.
  assert (H : starts_with old (old ++ rest) = true)
    by (apply starts_with_spec; exists rest; reflexivity).
  rewrite H. f_equal. clear H.
  induction old as [|c old IH]; [reflexivity | exact IH].
Qed.

Lemma find_unique {A K : Type} (key : A -> K) (f : A -> bool)
    (l : list A) (x : A) :
  NoDup (map key l) ->
  In x l ->
  f x = true ->
  (forall y, In y l -> f y = true -> key y = key x) ->
  find f l = Some x.
Proof.
  induction l as [|a l IH]; intros Hnd Hin Hx Hf; [destruct Hin|].
  simpl in Hnd. inversion Hnd as [|? ? Hnot Hnd']; subst.
  simpl. destruct (f a) eqn:Ea.
  - destruct Hin as [-> | Hin]; [reflexivity|].
    exfalso. apply Hnot.
    rewrite (Hf a (or_introl eq_refl) Ea).
    apply in_map. exact Hin.
  - destruct Hin as [-> | Hin]; [congruence|].
    apply IH; auto. intros y Hy. apply Hf. right. exact Hy.
Qed.

Lemma len_zero {A} (l : list A) : (len l =? 0) = negb (nonempty l).
Proof. destruct l; reflexivity. Qed.

(** X21.  With unique user identifiers and unique tokens, a request is
    let in as [user] exactly when its Authorization header is "Bearer "
    followed by a stored token, white space around the token aside, and
    [user] is the active user that the token belongs to. *)
Theorem get_current_user_accepts (dir : Directory) (auth_header : str)
    (user : User_.t) :
  directory_keys_unique dir ->
  (get_current_user dir (Some auth_header) = Ok user
   <-> exists token session,
         bearer_token auth_header token
         /\ In session (session_tokens dir)
         /\ SessionToken.token session = token
         /\ In user (users dir)
         /\ User_.id user = SessionToken.user_id session
         /\ User_.is_active user = true).
Proof.
  intros [Hu Ht]. unfold get_current_user, bearer_token. split.
  - destruct (nonempty auth_header); [|discriminate].
    destruct (starts_with (txt "Bearer ") auth_header) eqn:Es;
      [|discriminate].
    cbn [negb orb].
    apply starts_with_spec in Es. destruct Es as [rest ->].
    rewrite replace_first_prefix. cbn [app].
    destruct (find _ (session_tokens dir)) as [session|] eqn:Ef;
      [|discriminate].
    apply find_some in Ef. destruct Ef as [Hin Hs].
    apply str_eqb_eq in Hs.
    destruct (find _ (users dir)) as [u|] eqn:Eu; [|discriminate].
    apply find_some in Eu. destruct Eu as [Hinu Hid].
    apply Z.eqb_eq in Hid.
    destruct (User_.is_active u) eqn:Ea; [|discriminate].
    intros H. injection H as <-.
    exists (strip rest), session. repeat split; auto.
    exists rest. split; reflexivity.
  - intros (token & session & (rest & -> & ->) & Hin & Htok & Hinu & Hid
            & Ha).
    assert (Es : starts_with (txt "Bearer ") (txt "Bearer " ++ rest) = true)
      by (apply starts_with_spec; exists rest; reflexivity).
    rewrite Es. cbn [nonempty app txt negb orb].
    rewrite (replace_first_prefix (txt "Bearer ") [] rest). cbn [app].
    rewrite (find_unique SessionToken.token _ (session_tokens dir) session
               Ht Hin).
    + rewrite (find_unique User_.id _ (users dir) user Hu Hinu).
      * rewrite Ha. reflexivity.
      * apply Z.eqb_eq. exact Hid.
      * intros y _ Hy. apply Z.eqb_eq in Hy. congruence.
    + rewrite Htok. apply str_eqb_refl.
    + intros y _ Hy. apply str_eqb_eq in Hy. congruence.
Qed.


(* ================================================================== *)
(** * The search tool *)
(* ================================================================== *)

Lemma run_search_closed
    (_fetch_aerofab _fetch_technandt : str -> option (list SearchResult.t))
    (query : str) :
  run_search _fetch_aerofab _fetch_technandt query
  = match
      match _fetch_aerofab query with Some found => found | None => [] end
      ++ match _fetch_technandt query with Some found => found | None => []
         end
    with
    | [] => [no_results]
    | r :: l => r :: l
    end.
Proof.
  unfold run_search.
  destruct (_fetch_aerofab query) as [fa|],
    (_fetch_technandt query) as [ft|]; cbn [app];
    rewrite ?app_nil_r.
  - destruct (fa ++ ft); reflexivity.
  - destruct fa; reflexivity.
  - destruct ft; reflexivity.
  - reflexivity.
Qed.

(** X23.  A search never comes back empty and never fails: what either
    source returns is in the answer, a source that raises costs only its
    own results, and the "No results" entry is added exactly when neither
    source contributes anything. *)
Theorem run_search_results
    (_fetch_aerofab _fetch_technandt : str -> option (list SearchResult.t))
    (query : str) :
  let got (fetch : str -> option (list SearchResult.t)) :=
    match fetch query with Some found => found | None => [] end in
  let results := run_search _fetch_aerofab _fetch_technandt query in
  results <> []
  /\ (got _fetch_aerofab ++ got _fetch_technandt <> [] ->
      results = got _fetch_aerofab ++ got _fetch_technandt)
  /\ (forall r, In r results ->
        In r (got _fetch_aerofab) \/ In r (got _fetch_technandt)
        \/ (r = no_results
            /\ got _fetch_aerofab = [] /\ got _fetch_technandt = [])).
Proof.
  intros got results. unfold results. rewrite run_search_closed.
  fold (got _fetch_aerofab). fold (got _fetch_technandt).
  destruct (got _fetch_aerofab ++ got _fetch_technandt) as [|r l] eqn:E.
  - apply app_eq_nil in E. destruct E as [E1 E2].
    split; [discriminate|]. split; [intros H; congruence|].
    intros r [<- | []]. right. right. auto.
  - split; [discriminate|]. split; [reflexivity|].
    intros r' Hr. rewrite <- E in Hr. apply in_app_or in Hr.
    destruct Hr; [left | right; left]; assumption.
Qed.

(* ================================================================== *)
(** * The first rows *)
(* ================================================================== *)

(** X24.  Seeding fills an empty manufacturers table and an empty users
    table and touches nothing else: rows that exist stay as they are, the
    tokens are not touched, and seeding again, whatever the new hashes,
    changes nothing. *)
Theorem seed_data_idempotent (admin_hash user_hash admin_hash' user_hash' : str)
    (dir : Directory) :
  let seeded := seed_data admin_hash user_hash dir in
  seed_data admin_hash' user_hash' seeded = seeded
  /\ manufacturers seeded <> []
  /\ users seeded <> []
  /\ (manufacturers dir <> [] -> manufacturers seeded = manufacturers dir)
  /\ (users dir <> [] -> users seeded = users dir)
  /\ session_tokens seeded = session_tokens dir.
Proof.
  intros seeded. unfold seeded, seed_data.
  destruct dir as [ms us ts]. cbn [manufacturers users session_tokens].
  rewrite !len_zero.
  destruct ms as [|m ms], us as [|u us]; cbn [nonempty negb];
    cbn [insert_all app map combine seq List.length];
    rewrite ?len_zero; cbn [nonempty negb];
    repeat split; try discriminate; try congruence.
Qed.

(* ================================================================== *)
(** * The properties above on sample requests *)
(* ================================================================== *)

Ltac no_member :=
  let H := fresh "H" in
  intro H; vm_compute in H;
  repeat (destruct H as [H | H]; [discriminate H|]); exact H.

Ltac no_repeat :=
  repeat (apply NoDup_cons; [no_member|]); apply NoDup_nil.

Lemma manual_pdf_plain : plain_name (filename manual_pdf).
Proof. unfold plain_name. no_member. Qed.

Lemma manual_pdf_name : pdf_name (filename manual_pdf).
Proof.
  exists (txt "manual"), (code "p"), (code "d"), (code "f").
  split; [reflexivity|]. simpl. auto.
Qed.

Lemma one_in_integer_range : in_integer_range 1.
Proof.
  split; [intro H; vm_compute in H; discriminate H | vm_compute; reflexivity].
Qed.

Lemma library_tables_keys : keys_unique library_tables.
Proof. repeat split; simpl; no_repeat. Qed.

Lemma library_tables_resolve : references_resolve library_tables.
Proof.
  split; [|split].
  - intros s Hs. eexists. split; [left; reflexivity|].
    split; [discriminate|].
    destruct Hs as [<- | [<- | []]]; reflexivity.
  - intros f k Hf Hk.
    destruct Hf as [<- | [<- | []]]; [discriminate Hk|].
    injection Hk as <-. eexists. split; [left; reflexivity | reflexivity].
  - intros f Hf. eexists. split; [left; reflexivity|].
    split; [discriminate|].
    destruct Hf as [<- | [<- | []]]; reflexivity.
Qed.

Lemma figure_section_not_later_witness :
  let pages := [Some (unlines ["1 Intro"; "Figure 1"]);
                Some (unlines ["see Figure 2"; "2 Method"])] in
  let f := ParsedFigure.mk (Some 1) (Some 2) (Some (txt "see Figure 2")) 2 in
  In f (snd (parse_pages only_ascii only_ascii pages))
  /\ ParsedFigure.section_index f = Some 1
  /\ exists s a b,
       nth_error (fst (parse_pages only_ascii only_ascii pages)) 1 = Some s
       /\ ParsedSection.page_start s = Some a
       /\ ParsedFigure.page_number f = Some b
       /\ a <= b.
Proof.
  intros pages f.
  assert (H1 : In f (snd (parse_pages only_ascii only_ascii pages)))
    by (right; left; reflexivity).
  split; [exact H1|]. split; [reflexivity|].
  exact (figure_section_not_later only_ascii only_ascii pages f 1 H1
           eq_refl).
Defined.

Lemma heading_line_with_figure_witness :
  let line := txt " 2 Figure list " in
  let p := Some (unlines ["Contents"; " 2 Figure list "]) in
  nth_error [p] 0 = Some p
  /\ In line (page_lines (text_or_empty p))
  /\ is_heading only_ascii line = true
  /\ is_figure only_ascii line = true
  /\ exists s f i,
       In s (fst (parse_pages only_ascii only_ascii [p]))
       /\ In f (snd (parse_pages only_ascii only_ascii [p]))
       /\ ParsedSection.heading_text s = strip line
       /\ ParsedFigure.caption_text f = Some (strip line)
       /\ ParsedSection.page_start s = Some 1
       /\ ParsedFigure.page_number f = Some 1
       /\ ParsedFigure.section_index f = Some i.
Proof.
  intros line p.
  assert (H1 : nth_error [p] 0 = Some p) by reflexivity.
  assert (H2 : In line (page_lines (text_or_empty p)))
    by (right; left; reflexivity).
  assert (H3 : is_heading only_ascii line = true) by reflexivity.
  assert (H4 : is_figure only_ascii line = true) by reflexivity.
  split; [exact H1|]. split; [exact H2|]. split; [exact H3|].
  split; [exact H4|].
  exact (heading_line_with_figure only_ascii only_ascii [p] 0 p line H1 H2
           H3 H4).
Defined.

Lemma upload_links_rows_witness :
  let pages := [Some (unlines ["Figure 1 overview"; "1 Intro"]);
                Some (unlines ["2 Method"; "see Figure 2"])] in
  let document :=
    Document.mk (Some 2) 7 (txt "Manual") (txt "manual.pdf")
      (txt "pdfs/manual.pdf") 1 None None in
  let w' :=
    snd (upload_document only_ascii only_ascii two_page_reader 7
           (txt "Manual") None None manual_pdf admin_user library_world) in
  pending (db library_world) = Tables.empty
  /\ two_page_reader (content manual_pdf) = Ok pages
  /\ upload_document only_ascii only_ascii two_page_reader 7 (txt "Manual")
       None None manual_pdf admin_user library_world
     = (Ok document, w')
  /\ exists added,
       committed (db w') = Tables.union library_tables added
       /\ Tables.documents added = [document]
       /\ List.length (Tables.sections added) = 2%nat
       /\ List.length (Tables.figures added) = 2%nat
       /\ forall s,
            In s (Tables.sections added) -> Section_.document_id s = Some 2.
Proof.
  intros pages document w'.
  assert (H1 : pending (db library_world) = Tables.empty) by reflexivity.
  assert (H4 : two_page_reader (content manual_pdf) = Ok pages)
    by reflexivity.
  assert (H : upload_document only_ascii only_ascii two_page_reader 7
                (txt "Manual") None None manual_pdf admin_user library_world
              = (Ok document, w'))
    by (vm_compute; reflexivity).
  destruct (upload_links_rows only_ascii only_ascii two_page_reader 7
              (txt "Manual") None None manual_pdf admin_user library_world
              w' document pages H1 manual_pdf_plain H4 H)
    as (k & added & Hid & Hc & _ & Hd & Hs & Hf & Hsec & _).
  injection Hid as <-.
  split; [exact H1|]. split; [exact H4|]. split; [exact H|].
  exists added. split; [exact Hc|]. split; [exact Hd|].
  split; [exact Hs|]. split; [exact Hf | exact Hsec].
Defined.

Lemma upload_keeps_keys_unique_witness :
  let pages := [Some (unlines ["Figure 1 overview"; "1 Intro"]);
                Some (unlines ["2 Method"; "see Figure 2"])] in
  two_page_reader (content manual_pdf) = Ok pages
  /\ keys_unique (committed (db library_world))
  /\ keys_unique
       (committed
          (db (snd (upload_document only_ascii only_ascii two_page_reader 7
                      (txt "Manual") None None manual_pdf admin_user
                      library_world)))).
Proof.
  intros pages.
  assert (H4 : two_page_reader (content manual_pdf) = Ok pages)
    by reflexivity.
  split; [exact H4|]. split; [exact library_tables_keys|].
  exact (upload_keeps_keys_unique only_ascii only_ascii two_page_reader 7
           (txt "Manual") None None manual_pdf admin_user library_world
           pages eq_refl manual_pdf_plain eq_refl H4 library_tables_keys).
Defined.

Lemma uploaded_pdf_is_served_witness :
  let document :=
    Document.mk (Some 2) 7 (txt "Manual") (txt "manual.pdf")
      (txt "pdfs/manual.pdf") 1 None None in
  let w' :=
    snd (upload_document only_ascii only_ascii two_page_reader 7
           (txt "Manual") None None manual_pdf admin_user library_world) in
  upload_document only_ascii only_ascii two_page_reader 7 (txt "Manual")
    None None manual_pdf admin_user library_world
  = (Ok document, w')
  /\ exists k,
       Document.id document = Some k
       /\ forall reader : User,
            exists response,
              get_document_pdf k reader w' = (Ok response, w')
              /\ FileResponse.filename response = filename manual_pdf
              /\ FileResponse.media_type response = txt "application/pdf"
              /\ read_file (fs w') (FileResponse.path response)
                 = Some (content manual_pdf).
Proof.
  intros document w'.
  assert (H : upload_document only_ascii only_ascii two_page_reader 7
                (txt "Manual") None None manual_pdf admin_user library_world
              = (Ok document, w'))
    by (vm_compute; reflexivity).
  split; [exact H|].
  exact (uploaded_pdf_is_served only_ascii only_ascii two_page_reader 7
           (txt "Manual") None None manual_pdf admin_user library_world w'
           document eq_refl manual_pdf_plain H).
Defined.

Lemma uploaded_sections_are_listed_witness :
  let pages := [Some (unlines ["Figure 1 overview"; "1 Intro"]);
                Some (unlines ["2 Method"; "see Figure 2"])] in
  let document :=
    Document.mk (Some 2) 7 (txt "Manual") (txt "manual.pdf")
      (txt "pdfs/manual.pdf") 1 None None in
  let w' :=
    snd (upload_document only_ascii only_ascii two_page_reader 7
           (txt "Manual") None None manual_pdf admin_user library_world) in
  sections_have_documents (committed (db library_world))
  /\ upload_document only_ascii only_ascii two_page_reader 7 (txt "Manual")
       None None manual_pdf admin_user library_world
     = (Ok document, w')
  /\ exists k,
       Document.id document = Some k
       /\ forall reader : User,
            exists rows w'',
              list_sections k reader w' = (Ok rows, w'')
              /\ map section_columns rows
                 = map parsed_section_columns
                     (fst (parse_pages only_ascii only_ascii pages)).
Proof.
  intros pages document w'.
  assert (H : upload_document only_ascii only_ascii two_page_reader 7
                (txt "Manual") None None manual_pdf admin_user library_world
              = (Ok document, w'))
    by (vm_compute; reflexivity).
  split; [exact (proj1 library_tables_resolve)|]. split; [exact H|].
  exact (uploaded_sections_are_listed only_ascii only_ascii two_page_reader
           7 (txt "Manual") None None manual_pdf admin_user library_world w'
           document pages eq_refl manual_pdf_plain
           (proj1 library_tables_resolve) eq_refl H).
Defined.

Lemma list_sections_sorted_witness :
  pending (db library_world) = Tables.empty
  /\ in_integer_range 1
  /\ in_integer_range (user_id admin_user)
  /\ exists rows entry,
       fst (list_sections 1 admin_user library_world) = Ok rows
       /\ Sorted
            (fun a b => Section_.order_index a <= Section_.order_index b)
            rows
       /\ Permutation rows (Tables.sections library_tables)
       /\ AuditLog.metadata_json entry = [(txt "count", len rows)].
Proof.
  assert (H : pending (db library_world) = Tables.empty) by reflexivity.
  destruct (list_sections_sorted 1 admin_user library_world H
              one_in_integer_range one_in_integer_range)
    as (rows & entry & Hl).
  cbv zeta in Hl. destruct Hl as (Hl & Hs & Hp & _ & _ & Hm).
  split; [exact H|]. split; [exact one_in_integer_range|].
  split; [exact one_in_integer_range|]. exists rows, entry.
  split; [rewrite Hl; reflexivity|]. split; [exact Hs|].
  split; [exact Hp | exact Hm].
Defined.

Lemma list_figures_sorted_witness :
  pending (db library_world) = Tables.empty
  /\ in_integer_range 1
  /\ in_integer_range (user_id admin_user)
  /\ exists rows entry,
       fst (list_figures 1 admin_user library_world) = Ok rows
       /\ Sorted (fun a b => Figure.order_index a <= Figure.order_index b)
            rows
       /\ Permutation rows
            [Figure.mk (Some 2) (Some 1) (Some 1) (Some 2)
               (Some (txt "Figure 2")) None 2]
       /\ AuditLog.metadata_json entry = [(txt "count", len rows)].
Proof.
  assert (H : pending (db library_world) = Tables.empty) by reflexivity.
  destruct (list_figures_sorted 1 admin_user library_world H
              one_in_integer_range one_in_integer_range)
    as (rows & entry & Hl).
  cbv zeta in Hl. destruct Hl as (Hl & Hs & Hp & _ & _ & Hm).
  split; [exact H|]. split; [exact one_in_integer_range|].
  split; [exact one_in_integer_range|]. exists rows, entry.
  split; [rewrite Hl; reflexivity|]. split; [exact Hs|].
  split; [exact Hp | exact Hm].
Defined.

Lemma delete_document_cascades_witness :
  pending (db library_world) = Tables.empty
  /\ in_integer_range 1
  /\ in_integer_range (user_id admin_user)
  /\ exists w',
       delete_document 1 admin_user library_world
       = (Ok [(txt "status", txt "deleted")], w')
       /\ fs w' = fs library_world
       /\ pending (db w') = Tables.empty
       /\ (forall s, ~ In s (Tables.sections (committed (db w'))))
       /\ List.length (Tables.audit_logs (committed (db w'))) = 1%nat.
Proof.
  assert (H : pending (db library_world) = Tables.empty) by reflexivity.
  pose proof (delete_document_cascades 1 admin_user library_world H
                one_in_integer_range one_in_integer_range) as Hd.
  cbv zeta in Hd.
  change (find (fun d => column_eqb (Document.id d) (Some 1))
            (Tables.documents (committed (db library_world))))
    with (Some (Document.mk (Some 1) 7 (txt "Guide") (txt "guide.pdf")
                  (txt "pdfs/guide.pdf") 1 None None)) in Hd.
  cbv iota in Hd.
  destruct Hd as (w' & Hdel & Hfs & Hp & _ & Hs & _ & Hl).
  split; [exact H|]. split; [exact one_in_integer_range|].
  split; [exact one_in_integer_range|]. exists w'.
  split; [exact Hdel|]. split; [exact Hfs|]. split; [exact Hp|].
  split; [|exact Hl].
  intros s Hin. apply Hs in Hin. destruct Hin as [Hin Hne].
  destruct Hin as [<- | [<- | []]]; apply Hne; reflexivity.
Defined.

Lemma upload_keeps_references_witness :
  references_resolve (committed (db library_world))
  /\ references_resolve
       (committed
          (db (snd (upload_document only_ascii only_ascii two_page_reader 7
                      (txt "Manual") None None manual_pdf admin_user
                      library_world)))).
Proof.
  split; [exact library_tables_resolve|].
  exact (upload_keeps_references only_ascii only_ascii two_page_reader 7
           (txt "Manual") None None manual_pdf admin_user library_world
           eq_refl manual_pdf_plain library_tables_resolve).
Defined.

Lemma upload_then_delete_restores_witness :
  let document :=
    Document.mk (Some 2) 7 (txt "Manual") (txt "manual.pdf")
      (txt "pdfs/manual.pdf") 1 None None in
  let w' :=
    snd (upload_document only_ascii only_ascii two_page_reader 7
           (txt "Manual") None None manual_pdf admin_user library_world) in
  references_resolve (committed (db library_world))
  /\ upload_document only_ascii only_ascii two_page_reader 7 (txt "Manual")
       None None manual_pdf admin_user library_world
     = (Ok document, w')
  /\ exists w'',
       delete_document 2 admin_user w'
       = (Ok [(txt "status", txt "deleted")], w'')
       /\ Tables.documents (committed (db w''))
          = Tables.documents library_tables
       /\ Tables.sections (committed (db w''))
          = Tables.sections library_tables
       /\ Tables.figures (committed (db w''))
          = Tables.figures library_tables
       /\ read_file (fs w'') (txt "server/storage/pdfs/manual.pdf")
          = Some (content manual_pdf).
Proof.
  intros document w'.
  assert (H : upload_document only_ascii only_ascii two_page_reader 7
                (txt "Manual") None None manual_pdf admin_user library_world
              = (Ok document, w'))
    by (vm_compute; reflexivity).
  split; [exact library_tables_resolve|]. split; [exact H|].
  destruct (upload_then_delete_restores only_ascii only_ascii
              two_page_reader 7 (txt "Manual") None None manual_pdf
              admin_user admin_user library_world w' document eq_refl
              manual_pdf_plain library_tables_resolve H)
    as (k & w'' & Hid & Hdel & Hd & Hs & Hf & Hr).
  injection Hid as <-.
  exists w''. split; [exact Hdel|]. split; [exact Hd|].
  split; [exact Hs|]. split; [exact Hf | exact Hr].
Defined.

Lemma delete_keeps_references_witness :
  references_resolve (committed (db library_world))
  /\ references_resolve
       (committed (db (snd (delete_document 1 admin_user library_world)))).
Proof.
  split; [exact library_tables_resolve|].
  exact (delete_keeps_references 1 admin_user library_world eq_refl
           library_tables_resolve).
Defined.

Lemma upload_leaves_files_witness :
  let w' :=
    snd (upload_document only_ascii only_ascii broken_reader 7
           (txt "Manual") None None manual_pdf admin_user library_world) in
  let outcome := Raise (PdfReadError (txt "EOF marker not found")) in
  plain_name (filename manual_pdf)
  /\ upload_document only_ascii only_ascii broken_reader 7 (txt "Manual")
       None None manual_pdf admin_user library_world
     = (outcome, w')
  /\ db w' = db library_world
  /\ read_file (fs w') (txt "server/storage/tmp/manual.pdf")
     = Some (content manual_pdf)
  /\ read_file (fs w') (txt "server/storage/pdfs/manual.pdf")
     = Some (content manual_pdf).
Proof.
  intros w' outcome.
  assert (H : upload_document only_ascii only_ascii broken_reader 7
                (txt "Manual") None None manual_pdf admin_user library_world
              = (outcome, w'))
    by (vm_compute; reflexivity).
  split; [exact manual_pdf_plain|]. split; [exact H|].
  split; [reflexivity|].
  exact (upload_leaves_files only_ascii only_ascii broken_reader 7
           (txt "Manual") None None manual_pdf admin_user library_world w'
           outcome manual_pdf_plain H
           (or_intror (ex_intro _ (txt "EOF marker not found") eq_refl))).
Defined.

Lemma same_key_overwrites_witness :
  let file1 := mk_upload (txt "my manual.pdf") [Byte.x25; Byte.x31] in
  let file2 := mk_upload (txt "my_manual.pdf") [Byte.x25; Byte.x32] in
  let document1 :=
    Document.mk (Some 2) 7 (txt "First") (txt "my manual.pdf")
      (txt "pdfs/my_manual.pdf") 1 None None in
  let document2 :=
    Document.mk (Some 3) 8 (txt "Second") (txt "my_manual.pdf")
      (txt "pdfs/my_manual.pdf") 1 None None in
  let w1 :=
    snd (upload_document only_ascii only_ascii two_page_reader 7
           (txt "First") None None file1 admin_user library_world) in
  let w2 :=
    snd (upload_document only_ascii only_ascii two_page_reader 8
           (txt "Second") None None file2 admin_user w1) in
  plain_name (filename file1)
  /\ plain_name (filename file2)
  /\ replace_spaces (filename file1) = replace_spaces (filename file2)
  /\ upload_document only_ascii only_ascii two_page_reader 7 (txt "First")
       None None file1 admin_user library_world
     = (Ok document1, w1)
  /\ upload_document only_ascii only_ascii two_page_reader 8 (txt "Second")
       None None file2 admin_user w1
     = (Ok document2, w2)
  /\ Document.storage_key document1 = Document.storage_key document2
  /\ Document.id document1 <> Document.id document2
  /\ read_file (fs w2)
       (path_join STORAGE_ROOT (Document.storage_key document1))
     = Some (content file2).
Proof.
  intros file1 file2 document1 document2 w1 w2.
  assert (P1 : plain_name (filename file1))
    by (unfold plain_name; no_member).
  assert (P2 : plain_name (filename file2))
    by (unfold plain_name; no_member).
  assert (K : replace_spaces (filename file1)
              = replace_spaces (filename file2)) by reflexivity.
  assert (U1 : upload_document only_ascii only_ascii two_page_reader 7
                 (txt "First") None None file1 admin_user library_world
               = (Ok document1, w1))
    by (vm_compute; reflexivity).
  assert (U2 : upload_document only_ascii only_ascii two_page_reader 8
                 (txt "Second") None None file2 admin_user w1
               = (Ok document2, w2))
    by (vm_compute; reflexivity).
  split; [exact P1|]. split; [exact P2|]. split; [exact K|].
  split; [exact U1|]. split; [exact U2|].
  exact (same_key_overwrites only_ascii only_ascii two_page_reader 7 8
           (txt "First") (txt "Second") None None None None file1 file2
           admin_user admin_user library_world w1 w2 document1 document2
           eq_refl P1 P2 K U1 U2).
Defined.

Lemma get_current_user_accepts_witness :
  let user :=
    User_.mk 1 (txt "admin") (txt "$2b$12$abc") (txt "admin") true in
  directory_keys_unique sample_directory
  /\ get_current_user sample_directory (Some (txt "Bearer  tok-admin "))
     = Ok user
  /\ forall other,
       get_current_user sample_directory (Some (txt "Bearer tok-user"))
       <> Ok other.
Proof.
  intros user.
  assert (H : directory_keys_unique sample_directory)
    by (split; simpl; no_repeat).
  split; [exact H|]. split.
  - apply (proj2 (get_current_user_accepts sample_directory
                    (txt "Bearer  tok-admin ") user H)).
    exists (txt "tok-admin"), (SessionToken.mk 1 1 (txt "tok-admin")).
    split; [exists (txt " tok-admin "); split; reflexivity|].
    split; [left; reflexivity|]. split; [reflexivity|].
    split; [left; reflexivity|]. split; reflexivity.
  - intros other Hother. discriminate Hother.
Defined.
